(** * Sanchalana: role-scoped administration and registration lifecycle

    A shallow embedding of the handlers of the Sanchalana festival web
    application that decide who may change what:

    - [RegistrationsManagement]: [canModifyRegistration] and the three
      payment-status handlers;
    - [EventsManagement]: [handleAddEdit] and [handleEditEvent];
    - [AdminUserManagement]: [handleCreateAdmin];
    - [RegistrationPage]: the zod schemas and [onSubmit];
    - [LiveCounter]: [fetchStats].

    The hosted backend is a record of tables (lists of rows).  Every
    handler is a computation in a small state monad over a [World]: the
    backend, the component's React state, the toasts shown so far, the
    number of requests sent and the schedule of backend faults. *)

From Stdlib Require Import String Ascii List ZArith Bool Lia.
Import ListNotations.
Open Scope string_scope.

(** ** JavaScript values that may be absent *)

(** A property typed [T | null | undefined].  Rows read from the backend
    carry [Null] for an empty column; optional chaining on a missing
    object yields [Undefined]. *)
Inductive nullable (A : Type) : Type :=
| Undefined
| Null
| Val (a : A).
Arguments Undefined {A}.
Arguments Null {A}.
Arguments Val {A} a.

(** [x === y] on possibly absent strings. *)
Definition strict_eq (x y : nullable string) : bool :=
  match x, y with
  | Undefined, Undefined => true
  | Null, Null => true
  | Val a, Val b => String.eqb a b
  | _, _ => false
  end.

(** Truthiness of a string: only the empty string is falsy. *)
Definition truthy (s : string) : bool := negb (String.eqb s "").

(** Truthiness of a possibly absent string. *)
Definition truthy_n (x : nullable string) : bool :=
  match x with
  | Val s => truthy s
  | _ => false
  end.

(** [x || d] for a string [x]. *)
Definition or_else (x d : string) : string := if truthy x then x else d.

(** What [JSON.stringify] leaves of a patch field: an [undefined] value
    is dropped from the request body, so the column keeps its value. *)
Definition patch {A} (old new : nullable A) : nullable A :=
  match new with
  | Undefined => old
  | _ => new
  end.

(** ** Rows (src/types/index.ts) *)

Module TeamMember.
Record t := mk { name : string; usn : string; phone : string }.
End TeamMember.

Module Department.
Record t := mk {
  id : string;
  name : string;
  short_name : string;
  icon : nullable string;
  created_at : string;
  updated_at : string
}.
End Department.

Module CoordinatorEntry.
Record t := mk { name : string; phone : nullable string }.
End CoordinatorEntry.

Module Event.
Record t := mk {
  id : string;
  title : string;
  description : nullable string;
  department_id : string;
  team_size : Z;
  venue : nullable string;
  conduction_venue : nullable string;
  date : nullable string;
  registration_fee : Z;
  event_type : string;
  faculty_coordinators : nullable (list CoordinatorEntry.t);
  student_coordinators : nullable (list CoordinatorEntry.t);
  is_trending : nullable bool;
  payment_qr_url : nullable string;
  image_url : nullable string;
  qr_code_url : nullable string;
  created_at : string;
  updated_at : string
}.
End Event.

Module Registration.
Record t := mk {
  id : string;
  event_id : string;
  user_id : string;
  team_id : string;
  team_members : list TeamMember.t;
  payment_status : string;
  payment_method : string;
  created_at : string;
  updated_at : string
}.

(** [{ ...reg, payment_status: s }] *)
Definition with_payment_status (s : string) (r : t) : t :=
  mk (id r) (event_id r) (user_id r) (team_id r) (team_members r)
     s (payment_method r) (created_at r) (updated_at r).
End Registration.

Module RegistrationWithDetails.
Record t := mk {
  reg : Registration.t;
  event : Event.t;
  department : option Department.t
}.

Definition id (r : t) : string := Registration.id (reg r).
Definition event_id (r : t) : string := Registration.event_id (reg r).
Definition payment_status (r : t) : string :=
  Registration.payment_status (reg r).

Definition with_payment_status (s : string) (r : t) : t :=
  mk (Registration.with_payment_status s (reg r)) (event r) (department r).
End RegistrationWithDetails.

Module Admin.
Record t := mk {
  id : string;
  username : string;
  role : string;
  department_id : nullable string;
  event_id : nullable string;
  created_at : string;
  updated_at : string
}.
End Admin.

(** [adminDetails?.role === r]: false when there is no admin record. *)
Definition role_is (adminDetails : option Admin.t) (r : string) : bool :=
  match adminDetails with
  | Some a => String.eqb (Admin.role a) r
  | None => false
  end.

(** ** Toasts *)

Inductive Variant := Default | Destructive.

Record Toast := mkToast {
  variant : Variant;
  title : string;
  description : string
}.

(** ** The backend: tables and the requests the handlers send *)

(** The column defaults the backend fills in on insert: a fresh row id
    and the current time. *)
Record Generated := mkGenerated { gen_id : string; gen_now : string }.

(** The tables, and the defaults the backend will hand out next. *)
Module Backend.
Record t := mk {
  registrations : list Registration.t;
  events : list Event.t;
  admins : list Admin.t;
  departments : list Department.t;
  generated : list Generated
}.
End Backend.

(** What an [undefined] field becomes in an inserted row. *)
Definition stored {A} (x : nullable A) : nullable A :=
  match x with
  | Undefined => Null
  | _ => x
  end.

(** Insertion sort, for [order(column)]. *)
Fixpoint insert_by {A} (le : A -> A -> bool) (x : A) (l : list A) : list A :=
  match l with
  | [] => [x]
  | y :: l' => if le x y then x :: l else y :: insert_by le x l'
  end.

Definition sort_by {A} (le : A -> A -> bool) (l : list A) : list A :=
  fold_right (insert_by le) [] l.

(** The [eventData] object literal of [handleAddEdit]. *)
Module EventData.
Record t := mk {
  title : string;
  description : nullable string;
  department_id : string;
  venue : nullable string;
  conduction_venue : nullable string;
  date : nullable string;
  team_size : Z;
  registration_fee : Z;
  event_type : string;
  is_trending : bool;
  image_url : nullable string;
  qr_code_url : nullable string;
  payment_qr_url : nullable string;
  faculty_coordinators : list CoordinatorEntry.t;
  student_coordinators : list CoordinatorEntry.t
}.
End EventData.

(** The [registrationData] object literal of [onSubmit]. *)
Module RegistrationData.
Record t := mk {
  event_id : string;
  user_id : string;
  team_id : string;
  team_members : list TeamMember.t;
  payment_method : string;
  payment_status : string
}.
End RegistrationData.

Module Db.
Definition set_registrations (rs : list Registration.t) (b : Backend.t) :=
  Backend.mk rs (Backend.events b) (Backend.admins b)
             (Backend.departments b) (Backend.generated b).
Definition set_events (es : list Event.t) (b : Backend.t) :=
  Backend.mk (Backend.registrations b) es (Backend.admins b)
             (Backend.departments b) (Backend.generated b).
Definition set_admins (xs : list Admin.t) (b : Backend.t) :=
  Backend.mk (Backend.registrations b) (Backend.events b) xs
             (Backend.departments b) (Backend.generated b).

(** Takes the next generated defaults. *)
Definition fresh (b : Backend.t) : Generated * Backend.t :=
  (hd (mkGenerated "" "") (Backend.generated b),
   Backend.mk (Backend.registrations b) (Backend.events b) (Backend.admins b)
              (Backend.departments b) (tl (Backend.generated b))).

(** [from("registrations").update({ payment_status }).eq("id", rid)] *)
Definition update_payment_status (rid status : string) (b : Backend.t)
  : Backend.t :=
  set_registrations
    (map (fun r => if String.eqb (Registration.id r) rid
                   then Registration.with_payment_status status r
                   else r)
         (Backend.registrations b)) b.

(** [select("*", { count: "exact", head: true }).eq("payment_status", s)] *)
Definition count_payment_status (s : string) (b : Backend.t) : Z :=
  Z.of_nat
    (List.length
       (filter (fun r => String.eqb (Registration.payment_status r) s)
               (Backend.registrations b))).

(** [from("registrations").insert(registrationData)] *)
Definition insert_registration (d : RegistrationData.t) (b : Backend.t)
  : Backend.t :=
  let (g, b') := fresh b in
  set_registrations
    (Backend.registrations b' ++
     [Registration.mk (gen_id g)
        (RegistrationData.event_id d) (RegistrationData.user_id d)
        (RegistrationData.team_id d) (RegistrationData.team_members d)
        (RegistrationData.payment_status d)
        (RegistrationData.payment_method d)
        (gen_now g) (gen_now g)]) b'.

(** One event row after [update(eventData)]. *)
Definition apply_event_data (d : EventData.t) (e : Event.t) : Event.t :=
  Event.mk (Event.id e)
    (EventData.title d)
    (patch (Event.description e) (EventData.description d))
    (EventData.department_id d)
    (EventData.team_size d)
    (patch (Event.venue e) (EventData.venue d))
    (patch (Event.conduction_venue e) (EventData.conduction_venue d))
    (patch (Event.date e) (EventData.date d))
    (EventData.registration_fee d)
    (EventData.event_type d)
    (Val (EventData.faculty_coordinators d))
    (Val (EventData.student_coordinators d))
    (Val (EventData.is_trending d))
    (patch (Event.payment_qr_url e) (EventData.payment_qr_url d))
    (patch (Event.image_url e) (EventData.image_url d))
    (patch (Event.qr_code_url e) (EventData.qr_code_url d))
    (Event.created_at e)
    (Event.updated_at e).

(** [from("events").update(eventData).eq("id", eid)] *)
Definition update_event (eid : string) (d : EventData.t) (b : Backend.t)
  : Backend.t :=
  set_events
    (map (fun e => if String.eqb (Event.id e) eid
                   then apply_event_data d e else e)
         (Backend.events b)) b.

(** [from("events").insert(eventData)] *)
Definition insert_event (d : EventData.t) (b : Backend.t) : Backend.t :=
  let (g, b') := fresh b in
  set_events
    (Backend.events b' ++
     [Event.mk (gen_id g)
        (EventData.title d)
        (stored (EventData.description d))
        (EventData.department_id d)
        (EventData.team_size d)
        (stored (EventData.venue d))
        (stored (EventData.conduction_venue d))
        (stored (EventData.date d))
        (EventData.registration_fee d)
        (EventData.event_type d)
        (Val (EventData.faculty_coordinators d))
        (Val (EventData.student_coordinators d))
        (Val (EventData.is_trending d))
        (stored (EventData.payment_qr_url d))
        (stored (EventData.image_url d))
        (stored (EventData.qr_code_url d))
        (gen_now g) (gen_now g)]) b'.

(** [.eq(column, v)] where [v] may be absent: an absent value matches
    no row. *)
Definition col_eq (column : string) (v : nullable string) : bool :=
  match v with
  | Val s => String.eqb column s
  | _ => false
  end.

Definition col_eq_n (column v : nullable string) : bool :=
  match column with
  | Val c => col_eq c v
  | _ => false
  end.

(** [.order("created_at", { ascending: false })] on events. *)
Definition newest_first (es : list Event.t) : list Event.t :=
  sort_by (fun x y => String.leb (Event.created_at y) (Event.created_at x))
          es.

(** [.order("name")] on departments. *)
Definition by_name (ds : list Department.t) : list Department.t :=
  sort_by (fun x y => String.leb (Department.name x) (Department.name y))
          ds.

(** [from("admins").upsert(adminData, { onConflict: "id" })] *)
Definition upsert_admin (a : Admin.t) (b : Backend.t) : Backend.t :=
  if existsb (fun x => String.eqb (Admin.id x) (Admin.id a)) (Backend.admins b)
  then set_admins
         (map (fun x => if String.eqb (Admin.id x) (Admin.id a)
                        then a else x)
              (Backend.admins b)) b
  else set_admins (Backend.admins b ++ [a]) b.
End Db.

(** ** Handlers as state transformers *)

Section World.
Context {St : Type}.

(** [faults n] is the error of the [n]-th request, if it is to fail;
    [sent] counts the requests issued so far. *)
Record World := mkWorld {
  backend : Backend.t;
  ui : St;
  toasts : list Toast;
  faults : nat -> option string;
  sent : nat
}.

Definition M (A : Type) : Type := World -> A * World.

Definition ret {A} (a : A) : M A := fun w => (a, w).

Definition bind {A B} (m : M A) (k : A -> M B) : M B :=
  fun w => let (a, w') := m w in k a w'.

Definition toast (t : Toast) : M unit :=
  fun w =>
    (tt, mkWorld (backend w) (ui w) (toasts w ++ [t]) (faults w) (sent w)).

Definition getState : M St := fun w => (ui w, w).

Definition setState (f : St -> St) : M unit :=
  fun w =>
    (tt, mkWorld (backend w) (f (ui w)) (toasts w) (faults w) (sent w)).

(** The [{ data, error }] a request resolves to. *)
Record Response (A : Type) := mkResponse {
  data : option A;
  error : option string
}.
Arguments mkResponse {A}.

(** One request.  A failed request leaves the tables as they were. *)
Definition request {A} (op : Backend.t -> A * Backend.t)
  : M (Response A) :=
  fun w =>
    match faults w (sent w) with
    | Some e =>
        (mkResponse None (Some e),
         mkWorld (backend w) (ui w) (toasts w) (faults w) (S (sent w)))
    | None =>
        let (a, b') := op (backend w) in
        (mkResponse (Some a) None,
         mkWorld b' (ui w) (toasts w) (faults w) (S (sent w)))
    end.

Definition query {A} (q : Backend.t -> A) : M (Response A) :=
  request (fun b => (q b, b)).

Definition mutate (f : Backend.t -> Backend.t) : M (Response unit) :=
  request (fun b => (tt, f b)).

Definition exec {A} (m : M A) (w : World) : World := snd (m w).
End World.

Arguments World St : clear implicits.
Arguments M St A : clear implicits.
Arguments Response A : clear implicits.
Arguments data {A} _.
Arguments error {A} _.

Declare Scope handler_scope.
Delimit Scope handler_scope with handler.
Notation "x <- m ;; k" := (bind m (fun x => k))
  (at level 61, m at next level, right associativity) : handler_scope.
Notation "m ;; k" := (bind m (fun _ => k))
  (at level 61, right associativity) : handler_scope.
Open Scope handler_scope.

(** ** RegistrationsManagement (src/unnamed/part_003) *)

Module RegistrationsManagement.
Record State := mkState {
  registrations : list RegistrationWithDetails.t
}.

Section Component.
Variable adminDetails : option Admin.t.

Definition canModifyRegistration
  (registration : RegistrationWithDetails.t) : bool :=
  if role_is adminDetails "main_admin" then true
  else if match adminDetails with
          | Some a =>
              String.eqb (Admin.role a) "department_admin"
              && strict_eq
                   (Val (Event.department_id
                           (RegistrationWithDetails.event registration)))
                   (Admin.department_id a)
          | None => false
          end then true
  else if match adminDetails with
          | Some a =>
              String.eqb (Admin.role a) "event_admin"
              && strict_eq
                   (Val (RegistrationWithDetails.event_id registration))
                   (Admin.event_id a)
          | None => false
          end then true
  else false.

(** [setRegistrations(prev => prev.map(reg => reg.id === id ? {...} : reg))] *)
Definition mark_local (rid status : string) (s : State) : State :=
  mkState
    (map (fun reg =>
            if String.eqb (RegistrationWithDetails.id reg) rid
            then RegistrationWithDetails.with_payment_status status reg
            else reg)
         (registrations s)).

Definition handleVerifyRegistration
  (registration : RegistrationWithDetails.t) : M State unit :=
  if negb (canModifyRegistration registration) then
    toast (mkToast Destructive "Permission denied"
             "You don't have permission to verify this registration.")
  else
    r <- mutate (Db.update_payment_status
                   (RegistrationWithDetails.id registration) "Verified") ;;
    match error r with
    | Some message =>
        toast (mkToast Destructive "Error verifying payment"
                 (or_else message "Please try again later."))
    | None =>
        toast (mkToast Default "Payment verified"
                 "Registration payment has been verified successfully.") ;;
        setState
          (mark_local (RegistrationWithDetails.id registration) "Verified")
    end.

Definition handleRejectRegistration
  (registration : RegistrationWithDetails.t) : M State unit :=
  if negb (canModifyRegistration registration) then
    toast (mkToast Destructive "Permission denied"
             "You don't have permission to reject this registration.")
  else
    r <- mutate (Db.update_payment_status
                   (RegistrationWithDetails.id registration) "Rejected") ;;
    match error r with
    | Some message =>
        toast (mkToast Destructive "Error rejecting payment"
                 (or_else message "Please try again later."))
    | None =>
        toast (mkToast Default "Payment rejected"
                 "Registration payment has been rejected.") ;;
        setState
          (mark_local (RegistrationWithDetails.id registration) "Rejected")
    end.

Definition handleResetPaymentStatus
  (registration : RegistrationWithDetails.t) : M State unit :=
  if negb (canModifyRegistration registration) then
    toast (mkToast Destructive "Permission denied"
             "You don't have permission to reset this registration.")
  else
    r <- mutate (Db.update_payment_status
                   (RegistrationWithDetails.id registration) "Pending") ;;
    match error r with
    | Some message =>
        toast (mkToast Destructive "Error resetting status"
                 (or_else message "Please try again later."))
    | None =>
        toast (mkToast Default "Payment status reset"
                 "Registration payment status has been reset to pending.") ;;
        setState
          (mark_local (RegistrationWithDetails.id registration) "Pending")
    end.
End Component.
End RegistrationsManagement.

(** ** EventsManagement (src/pages/admin/events/EventsManagement.tsx) *)

Module EventFormValues.
Record t := mk {
  title : string;
  description : nullable string;
  department_id : string;
  venue : nullable string;
  conduction_venue : nullable string;
  date : nullable string;
  team_size : Z;
  registration_fee : Z;
  event_type : string;
  is_trending : bool;
  image_url : nullable string;
  qr_code_url : nullable string;
  payment_qr_url : nullable string;
  faculty_coordinators : list CoordinatorEntry.t;
  student_coordinators : list CoordinatorEntry.t
}.
End EventFormValues.

Module EventsManagement.
Record State := mkState {
  events : list Event.t;
  departments : list Department.t;
  isLoading : bool;
  isSubmitting : bool;
  isDialogOpen : bool;
  currentEvent : option Event.t
}.

Definition setEvents (es : list Event.t) (s : State) : State :=
  mkState es (departments s) (isLoading s) (isSubmitting s)
          (isDialogOpen s) (currentEvent s).
Definition setDepartments (ds : list Department.t) (s : State) : State :=
  mkState (events s) ds (isLoading s) (isSubmitting s)
          (isDialogOpen s) (currentEvent s).
Definition setIsLoading (v : bool) (s : State) : State :=
  mkState (events s) (departments s) v (isSubmitting s)
          (isDialogOpen s) (currentEvent s).
Definition setIsSubmitting (v : bool) (s : State) : State :=
  mkState (events s) (departments s) (isLoading s) v
          (isDialogOpen s) (currentEvent s).
Definition setIsDialogOpen (v : bool) (s : State) : State :=
  mkState (events s) (departments s) (isLoading s) (isSubmitting s)
          v (currentEvent s).
Definition setCurrentEvent (v : option Event.t) (s : State) : State :=
  mkState (events s) (departments s) (isLoading s) (isSubmitting s)
          (isDialogOpen s) v.

Section Component.
Variable adminDetails : option Admin.t.

(** The events the admin's role lets the query return. *)
Definition eventQuery (b : Backend.t) : list Event.t :=
  Db.newest_first
    (match adminDetails with
     | Some a =>
         if String.eqb (Admin.role a) "department_admin"
            && truthy_n (Admin.department_id a)
         then filter (fun e => Db.col_eq (Event.department_id e)
                                         (Admin.department_id a))
                     (Backend.events b)
         else if String.eqb (Admin.role a) "event_admin"
                 && truthy_n (Admin.event_id a)
         then filter (fun e => Db.col_eq (Event.id e) (Admin.event_id a))
                     (Backend.events b)
         else Backend.events b
     | None => Backend.events b
     end).

Definition fetchData : M State unit :=
  setState (setIsLoading true) ;;
  ev <- query eventQuery ;;
  match error ev with
  | Some _ =>
      toast (mkToast Destructive "Error fetching data"
               "Please try again later.")
  | None =>
      setState (setEvents
                  (match data ev with Some es => es | None => [] end)) ;;
      dept <- query (fun b => Db.by_name (Backend.departments b)) ;;
      match error dept with
      | Some _ =>
          toast (mkToast Destructive "Error fetching data"
                   "Please try again later.")
      | None =>
          setState (setDepartments
                      (match data dept with Some ds => ds | None => [] end))
      end
  end ;;
  setState (setIsLoading false).

Definition eventData (values : EventFormValues.t) : EventData.t :=
  EventData.mk
    (EventFormValues.title values)
    (EventFormValues.description values)
    (EventFormValues.department_id values)
    (EventFormValues.venue values)
    (EventFormValues.conduction_venue values)
    (EventFormValues.date values)
    (EventFormValues.team_size values)
    (EventFormValues.registration_fee values)
    (EventFormValues.event_type values)
    (EventFormValues.is_trending values)
    (EventFormValues.image_url values)
    (EventFormValues.qr_code_url values)
    (EventFormValues.payment_qr_url values)
    (EventFormValues.faculty_coordinators values)
    (EventFormValues.student_coordinators values).

(** [currentEvent?.id] *)
Definition currentEvent_id (s : State) : nullable string :=
  match currentEvent s with
  | Some e => Val (Event.id e)
  | None => Undefined
  end.

(** First guard of [handleAddEdit]. *)
Definition wrong_department (values : EventFormValues.t) : bool :=
  match adminDetails with
  | Some a =>
      String.eqb (Admin.role a) "department_admin"
      && negb (strict_eq (Admin.department_id a)
                         (Val (EventFormValues.department_id values)))
  | None => false
  end.

(** Second guard of [handleAddEdit]. *)
Definition wrong_event (s : State) : bool :=
  match adminDetails with
  | Some a =>
      String.eqb (Admin.role a) "event_admin"
      && negb (strict_eq (currentEvent_id s) (Admin.event_id a))
  | None => false
  end.

Definition handleAddEdit (values : EventFormValues.t) : M State unit :=
  s <- getState ;;
  setState (setIsSubmitting true) ;;
  (if wrong_department values then
     toast (mkToast Destructive "Permission denied"
              "You can only manage events for your department.") ;;
     setState (setIsSubmitting false)
   else if wrong_event s then
     toast (mkToast Destructive "Permission denied"
              "You can only manage your assigned event.") ;;
     setState (setIsSubmitting false)
   else
     r <- match currentEvent s with
          | Some cur =>
              mutate (Db.update_event (Event.id cur) (eventData values))
          | None =>
              mutate (Db.insert_event (eventData values))
          end ;;
     match error r with
     | Some message =>
         toast (mkToast Destructive "Error saving event"
                  (or_else message "Please try again later."))
     | None =>
         toast (match currentEvent s with
                | Some _ =>
                    mkToast Default "Event updated"
                      "Event has been updated successfully."
                | None =>
                    mkToast Default "Event created"
                      "New event has been created successfully."
                end) ;;
         fetchData ;;
         setState (setIsDialogOpen false) ;;
         setState (setCurrentEvent None)
     end) ;;
  setState (setIsSubmitting false).

(** Guard of [handleEditEvent]. *)
Definition other_event (event : Event.t) : bool :=
  match adminDetails with
  | Some a =>
      String.eqb (Admin.role a) "event_admin"
      && negb (strict_eq (Val (Event.id event)) (Admin.event_id a))
  | None => false
  end.

Definition handleEditEvent (event : Event.t) : M State unit :=
  if other_event event then
    toast (mkToast Destructive "Permission denied"
             "You can only edit your assigned event.")
  else
    setState (setCurrentEvent (Some event)) ;;
    setState (setIsDialogOpen true).
End Component.
End EventsManagement.

(** ** AdminUserManagement (src/pages/admin/events/EventsManagement.tsx,
       third document) *)

Module AdminUserManagement.
Record State := mkState {
  admins : list Admin.t;
  events : list Event.t;
  selectedUserId : nullable string;
  selectedUserEmail : nullable string;
  selectedRole : string;
  selectedDepartment : string;
  selectedEvent : string;
  isDialogOpen : bool;
  isLoading : bool
}.

Definition setAdmins (v : list Admin.t) (s : State) : State :=
  mkState v (events s) (selectedUserId s) (selectedUserEmail s)
          (selectedRole s) (selectedDepartment s) (selectedEvent s)
          (isDialogOpen s) (isLoading s).
Definition setIsLoading (v : bool) (s : State) : State :=
  mkState (admins s) (events s) (selectedUserId s) (selectedUserEmail s)
          (selectedRole s) (selectedDepartment s) (selectedEvent s)
          (isDialogOpen s) v.
(** The six resets at the end of a successful [handleCreateAdmin]. *)
Definition resetForm (s : State) : State :=
  mkState (admins s) (events s) Null Null "event_admin" "" "" false
          (isLoading s).

(** [events.find((e) => e.id === selectedEvent)] *)
Definition find_event (es : list Event.t) (eid : string)
  : option Event.t :=
  find (fun e => String.eqb (Event.id e) eid) es.

Section Component.
Variable adminDetails : option Admin.t.
(** The two values [new Date().toISOString()] returns in this run. *)
Variables created updated : string.

Definition adminQuery (b : Backend.t) : list Admin.t :=
  match adminDetails with
  | Some a =>
      if String.eqb (Admin.role a) "department_admin"
      then filter (fun x => Db.col_eq_n (Admin.department_id x)
                                        (Admin.department_id a))
                  (Backend.admins b)
      else if String.eqb (Admin.role a) "event_admin"
      then filter (fun x => Db.col_eq_n (Admin.event_id x)
                                        (Admin.event_id a))
                  (Backend.admins b)
      else Backend.admins b
  | None => Backend.admins b
  end.

(** [fetchAdmins] up to its [await]: the request goes out. *)
Definition fetchAdmins_sent : M State (Response (list Admin.t)) :=
  setState (setIsLoading true) ;;
  query adminQuery.

(** [fetchAdmins] from the answer on. *)
Definition fetchAdmins_answered (r : Response (list Admin.t))
  : M State unit :=
  match error r with
  | Some message =>
      toast (mkToast Destructive "Error"
               (or_else message "Failed to fetch admin users"))
  | None =>
      setState (setAdmins (match data r with Some l => l | None => [] end))
  end ;;
  setState (setIsLoading false).

Definition fetchAdmins : M State unit :=
  r <- fetchAdmins_sent ;;
  fetchAdmins_answered r.

Definition allowedRoles : list string :=
  if role_is adminDetails "main_admin"
  then ["main_admin"; "department_admin"; "event_admin"]
  else if role_is adminDetails "department_admin"
  then ["event_admin"]
  else [].

(** [allowedRoles.includes(selectedRole)] *)
Definition includes (l : list string) (x : string) : bool :=
  existsb (String.eqb x) l.

Definition adminData (uid : string) (s : State) : Admin.t :=
  Admin.mk uid
    (match selectedUserEmail s with
     | Val e => or_else e ""
     | _ => ""
     end)
    (selectedRole s)
    (if String.eqb (selectedRole s) "department_admin"
     then Val (selectedDepartment s)
     else if String.eqb (selectedRole s) "event_admin"
     then match find_event (events s) (selectedEvent s) with
          | Some e => if truthy (Event.department_id e)
                      then Val (Event.department_id e) else Null
          | None => Null
          end
     else Null)
    (if String.eqb (selectedRole s) "event_admin"
     then Val (selectedEvent s) else Null)
    created updated.

(** [fetchAdmins()] is started without [await]: it runs up to its own
    [await], the handler goes on to its end (the six resets and the
    Success toast, none of which waits), and only then does
    [fetchAdmins] take up its answer. *)
Definition handleCreateAdmin : M State unit :=
  s <- getState ;;
  match selectedUserId s with
  | Val uid =>
      if negb (truthy uid) then
        toast (mkToast Destructive "Error" "Please select a user")
      else if String.eqb (selectedRole s) "department_admin"
              && negb (truthy (selectedDepartment s)) then
        toast (mkToast Destructive "Error"
                 "Please select a department for the department admin")
      else if String.eqb (selectedRole s) "event_admin"
              && negb (truthy (selectedEvent s)) then
        toast (mkToast Destructive "Error"
                 "Please select an event for the event admin")
      else if negb (includes allowedRoles (selectedRole s)) then
        toast (mkToast Destructive "Error"
                 "You do not have permission to assign this role")
      else
        r <- mutate (Db.upsert_admin (adminData uid s)) ;;
        match error r with
        | Some message =>
            toast (mkToast Destructive "Error"
                     (or_else message "Failed to create admin user"))
        | None =>
            refresh <- fetchAdmins_sent ;;
            setState resetForm ;;
            toast (mkToast Default "Success"
                     "Admin user created successfully") ;;
            fetchAdmins_answered refresh
        end
  | _ => toast (mkToast Destructive "Error" "Please select a user")
  end.
End Component.
End AdminUserManagement.

(** ** RegistrationPage (src/pages/Index.tsx, second document) *)

Module RegistrationFormValues.
Record t := mk {
  paymentMethod : string;
  teamMembers : list TeamMember.t
}.
End RegistrationFormValues.

(** zod's string and array length checks; [length] counts the code
    units of the string. *)
Module z.
Definition string_min (n : nat) (s : string) : bool :=
  Nat.leb n (String.length s).
Definition string_max (n : nat) (s : string) : bool :=
  Nat.leb (String.length s) n.
Definition array_min {A} (n : Z) (l : list A) : bool :=
  Z.leb n (Z.of_nat (List.length l)).
Definition array_max {A} (n : Z) (l : list A) : bool :=
  Z.leb (Z.of_nat (List.length l)) n.
End z.

Definition teamMemberSchema (m : TeamMember.t) : bool :=
  z.string_min 2 (TeamMember.name m)
  && (z.string_min 5 (TeamMember.usn m) && z.string_max 10 (TeamMember.usn m))
  && (z.string_min 10 (TeamMember.phone m)
      && z.string_max 13 (TeamMember.phone m)).

Definition createRegistrationSchema (teamSize : Z)
  (v : RegistrationFormValues.t) : bool :=
  z.string_min 1 (RegistrationFormValues.paymentMethod v)
  && (forallb teamMemberSchema (RegistrationFormValues.teamMembers v)
      && z.array_min 1 (RegistrationFormValues.teamMembers v)
      && z.array_max teamSize (RegistrationFormValues.teamMembers v)).

Module User.
Record t := mk { id : string; email : string }.
End User.

Module Profile.
Record t := mk { id : string; name : string; usn : string; phone : string }.
End Profile.

Module RegistrationPage.
Record State := mkState {
  event : option Event.t;
  department : option Department.t;
  registrationSchema : RegistrationFormValues.t -> bool;
  isLoading : bool;
  isSubmitting : bool;
  showQRDialog : bool;
  location : string
}.

Definition initial (path : string) : State :=
  mkState None None (createRegistrationSchema 1) true false false path.

Definition setEvent (v : option Event.t) (s : State) : State :=
  mkState v (department s) (registrationSchema s) (isLoading s)
          (isSubmitting s) (showQRDialog s) (location s).
Definition setDepartment (v : option Department.t) (s : State) : State :=
  mkState (event s) v (registrationSchema s) (isLoading s)
          (isSubmitting s) (showQRDialog s) (location s).
Definition setRegistrationSchema (v : RegistrationFormValues.t -> bool)
  (s : State) : State :=
  mkState (event s) (department s) v (isLoading s) (isSubmitting s)
          (showQRDialog s) (location s).
Definition setIsLoading (v : bool) (s : State) : State :=
  mkState (event s) (department s) (registrationSchema s) v
          (isSubmitting s) (showQRDialog s) (location s).
Definition setIsSubmitting (v : bool) (s : State) : State :=
  mkState (event s) (department s) (registrationSchema s) (isLoading s) v
          (showQRDialog s) (location s).
Definition setShowQRDialog (v : bool) (s : State) : State :=
  mkState (event s) (department s) (registrationSchema s) (isLoading s)
          (isSubmitting s) v (location s).
Definition navigate (path : string) (s : State) : State :=
  mkState (event s) (department s) (registrationSchema s) (isLoading s)
          (isSubmitting s) (showQRDialog s) path.

Section Component.
Variable user : option User.t.
Variable profile : option Profile.t.
(** The value [uuidv4()] returns in this run. *)
Variable uuidv4 : string.

(** [fetchEventData]; [id] is the route parameter, and nothing happens
    when it is absent or empty.  [.eq(column, value).single()] fails
    unless exactly one row matches, and a failed request or lookup goes
    to the [catch], which only logs. *)
Definition fetchEventData (id : nullable string) : M State unit :=
  if negb (truthy_n id) then ret tt
  else
    setState (setIsLoading true) ;;
    ev <- query (fun b => filter (fun e => Db.col_eq (Event.id e) id)
                                 (Backend.events b)) ;;
    match data ev with
    | Some [eventData] =>
        setState (setEvent (Some eventData)) ;;
        setState (setRegistrationSchema
                    (createRegistrationSchema (Event.team_size eventData))) ;;
        if truthy (Event.department_id eventData) then
          dept <- query (fun b =>
                           filter (fun d => String.eqb
                                              (Department.id d)
                                              (Event.department_id eventData))
                                  (Backend.departments b)) ;;
          match data dept with
          | Some [deptData] => setState (setDepartment (Some deptData))
          | _ => ret tt
          end
        else ret tt
    | _ => ret tt
    end ;;
    setState (setIsLoading false).

Definition registrationData (e : Event.t) (u : User.t)
  (data : RegistrationFormValues.t) : RegistrationData.t :=
  RegistrationData.mk
    (Event.id e)
    (User.id u)
    ("TEAM-" ++ String.substring 0 8 uuidv4)
    (RegistrationFormValues.teamMembers data)
    (RegistrationFormValues.paymentMethod data)
    "Pending".

Definition onSubmit (data : RegistrationFormValues.t) : M State unit :=
  s <- getState ;;
  match event s, user, profile with
  | Some e, Some u, Some _ =>
      setState (setIsSubmitting true) ;;
      r <- mutate (Db.insert_registration (registrationData e u data)) ;;
      match error r with
      | Some _ =>
          toast (mkToast Destructive "Registration failed"
                   "There was an error processing your registration.")
      | None =>
          toast (mkToast Default "Registration successful!"
                   "Your team has been registered for the event.") ;;
          if String.eqb (RegistrationFormValues.paymentMethod data)
                        "QR Code"
          then setState (setShowQRDialog true)
          else setState (navigate "/registrations")
      end ;;
      setState (setIsSubmitting false)
  | _, _, _ => ret tt
  end.

(** [form.handleSubmit(onSubmit)]: the resolver runs the current
    schema and [onSubmit] is called only with values it accepts. *)
Definition handleSubmit (data : RegistrationFormValues.t)
  : M State unit :=
  s <- getState ;;
  if registrationSchema s data then onSubmit data else ret tt.
End Component.
End RegistrationPage.

(** ** LiveCounter (src/components/LiveCounter.tsx) *)

Module LiveCounter.
Record State := mkState {
  registrationCount : option Z;
  loading : bool
}.

Definition setRegistrationCount (v : Z) (s : State) : State :=
  mkState (Some v) (loading s).
Definition setLoading (v : bool) (s : State) : State :=
  mkState (registrationCount s) v.

Definition fetchStats : M State unit :=
  r <- query (Db.count_payment_status "Verified") ;;
  match error r with
  | Some _ => ret tt
  | None =>
      setState (setRegistrationCount
                  (match data r with
                   | Some regCount => regCount
                   | None => 0%Z
                   end))
  end ;;
  setState (setLoading false).
End LiveCounter.

(** ** RegistrationsManagement: loading the list (src/unnamed/part_003) *)

Module RegistrationsListing.
(** The component's state: the list the status handlers work on, and the
    rest. *)
Record State := mkState {
  listing : RegistrationsManagement.State;
  events : list Event.t;
  departments : list Department.t;
  isLoading : bool
}.

Definition setRegistrations (v : list RegistrationWithDetails.t)
  (s : State) : State :=
  mkState (RegistrationsManagement.mkState v) (events s) (departments s)
          (isLoading s).
Definition setEvents (v : list Event.t) (s : State) : State :=
  mkState (listing s) v (departments s) (isLoading s).
Definition setDepartments (v : list Department.t) (s : State) : State :=
  mkState (listing s) (events s) v (isLoading s).
Definition setIsLoading (v : bool) (s : State) : State :=
  mkState (listing s) (events s) (departments s) v.

(** [.order("created_at", { ascending: false })] on registrations. *)
Definition newest_first (rs : list Registration.t) : list Registration.t :=
  sort_by (fun x y => String.leb (Registration.created_at y)
                                 (Registration.created_at x))
          rs.

(** The member objects rebuilt with [member.name || ''] and so on. *)
Definition normalise (member : TeamMember.t) : TeamMember.t :=
  TeamMember.mk (or_else (TeamMember.name member) "")
                (or_else (TeamMember.usn member) "")
                (or_else (TeamMember.phone member) "").

(** [{ ...reg, event, department, team_members }].  Rows are of the type
    src/types/index.ts declares and [onSubmit] stores: team_members is an
    array of members with string fields, the case [Array.isArray] of the
    source, where [member.name || ''] and the like rebuild each member.
    A column holding a JSON string, a lone object or members with
    missing fields is outside this row type, and so are the branches of
    the source that deal with them. *)
Definition enhanced (reg : Registration.t) (event : Event.t)
  (department : option Department.t) : RegistrationWithDetails.t :=
  RegistrationWithDetails.mk
    (Registration.mk (Registration.id reg) (Registration.event_id reg)
       (Registration.user_id reg) (Registration.team_id reg)
       (map normalise (Registration.team_members reg))
       (Registration.payment_status reg) (Registration.payment_method reg)
       (Registration.created_at reg) (Registration.updated_at reg))
    event department.

(** The loop over [regData]: a registration whose event is not among
    [eventData] is left out. *)
Fixpoint enhance (eventData : list Event.t) (deptData : list Department.t)
  (regData : list Registration.t) : list RegistrationWithDetails.t :=
  match regData with
  | [] => []
  | reg :: rest =>
      match find (fun e => String.eqb (Event.id e) (Registration.event_id reg))
                 eventData with
      | Some event =>
          enhanced reg event
            (find (fun d => String.eqb (Department.id d)
                                       (Event.department_id event))
                  deptData)
          :: enhance eventData deptData rest
      | None => enhance eventData deptData rest
      end
  end.

Section Component.
Variable adminDetails : option Admin.t.

(** The admin is a department admin with a department, resp. an event
    admin with an event: the two conditions that narrow the queries. *)
Definition department_scope : option string :=
  match adminDetails with
  | Some a =>
      if String.eqb (Admin.role a) "department_admin"
         && truthy_n (Admin.department_id a)
      then match Admin.department_id a with Val d => Some d | _ => None end
      else None
  | None => None
  end.

Definition event_scope : option string :=
  match adminDetails with
  | Some a =>
      if String.eqb (Admin.role a) "event_admin"
         && truthy_n (Admin.event_id a)
      then match Admin.event_id a with Val e => Some e | _ => None end
      else None
  | None => None
  end.

Definition eventQuery (b : Backend.t) : list Event.t :=
  match department_scope, event_scope with
  | Some d, _ =>
      filter (fun e => String.eqb (Event.department_id e) d)
             (Backend.events b)
  | None, Some eid =>
      filter (fun e => String.eqb (Event.id e) eid) (Backend.events b)
  | None, None => Backend.events b
  end.

(** [eventData.filter(e => e.department_id === ...).map(e => e.id)] *)
Definition deptEventIds (d : string) (eventData : list Event.t)
  : list string :=
  map Event.id
      (filter (fun e => String.eqb (Event.department_id e) d) eventData).

Definition registrationQuery (eventData : list Event.t) (b : Backend.t)
  : list Registration.t :=
  newest_first
    (match department_scope, event_scope with
     | Some d, _ =>
         filter (fun r => existsb (String.eqb (Registration.event_id r))
                                  (deptEventIds d eventData))
                (Backend.registrations b)
     | None, Some eid =>
         filter (fun r => String.eqb (Registration.event_id r) eid)
                (Backend.registrations b)
     | None, None => Backend.registrations b
     end).

Definition fetch_failed : Toast :=
  mkToast Destructive "Error fetching registrations"
          "Please try again later.".

Definition fetchData : M State unit :=
  setState (setIsLoading true) ;;
  ev <- query eventQuery ;;
  match error ev with
  | Some _ => toast fetch_failed
  | None =>
      let eventData := match data ev with Some es => es | None => [] end in
      setState (setEvents eventData) ;;
      dept <- query Backend.departments ;;
      match error dept with
      | Some _ => toast fetch_failed
      | None =>
          let deptData :=
            match data dept with Some ds => ds | None => [] end in
          setState (setDepartments deptData) ;;
          if match department_scope with
             | Some d => Nat.eqb (List.length (deptEventIds d eventData)) 0
             | None => false
             end
          then
            setState (setRegistrations []) ;;
            setState (setIsLoading false)
          else
            reg <- query (registrationQuery eventData) ;;
            match error reg with
            | Some _ => toast fetch_failed
            | None =>
                setState
                  (setRegistrations
                     (enhance eventData deptData
                        (match data reg with
                         | Some rs => rs
                         | None => []
                         end)))
            end
      end
  end ;;
  setState (setIsLoading false).
End Component.
End RegistrationsListing.

(** ** Running a handler inside a larger state *)

(** [zoom get set m] runs [m], written for a part of the state, on the
    whole state. *)
Definition zoom {St Part A} (get : St -> Part) (set : Part -> St -> St)
  (m : M Part A) : M St A :=
  fun w =>
    let (a, w') :=
      m (mkWorld (backend w) (get (ui w)) (toasts w) (faults w) (sent w)) in
    (a, mkWorld (backend w') (set (ui w') (ui w)) (toasts w') (faults w')
                (sent w')).

(** ** EventsManagement: deleting an event
       (src/pages/admin/events/EventsManagement.tsx) *)

Module EventDeletion.
(** The component's state with the two fields of the delete dialog. *)
Record State := mkState {
  page : EventsManagement.State;
  isDeleteDialogOpen : bool;
  eventToDelete : nullable string
}.

Definition setPage (v : EventsManagement.State) (s : State) : State :=
  mkState v (isDeleteDialogOpen s) (eventToDelete s).
Definition setIsDeleteDialogOpen (v : bool) (s : State) : State :=
  mkState (page s) v (eventToDelete s).
Definition setEventToDelete (v : nullable string) (s : State) : State :=
  mkState (page s) (isDeleteDialogOpen s) v.

(** [from("events").delete().eq("id", eid)] *)
Definition delete_event (eid : string) (b : Backend.t) : Backend.t :=
  Db.set_events
    (filter (fun e => negb (String.eqb (Event.id e) eid))
            (Backend.events b)) b.

Section Component.
Variable adminDetails : option Admin.t.

Definition openDeleteDialog (eventId : string) : M State unit :=
  setState (setEventToDelete (Val eventId)) ;;
  setState (setIsDeleteDialogOpen true).

(** [event?.department_id] for
    [event = events.find((e) => e.id === eventToDelete)]. *)
Definition listed_department (s : State) (eid : string) : nullable string :=
  match find (fun e => String.eqb (Event.id e) eid)
             (EventsManagement.events (page s)) with
  | Some event => Val (Event.department_id event)
  | None => Undefined
  end.

(** Second guard of [handleDeleteEvent]. *)
Definition foreign_event (s : State) (eid : string) : bool :=
  match adminDetails with
  | Some a =>
      String.eqb (Admin.role a) "department_admin"
      && negb (strict_eq (listed_department s eid) (Admin.department_id a))
  | None => false
  end.

Definition handleDeleteEvent : M State unit :=
  s <- getState ;;
  match eventToDelete s with
  | Val eid =>
      if negb (truthy eid) then ret tt
      else if role_is adminDetails "event_admin" then
        toast (mkToast Destructive "Permission denied"
                 "Event admins cannot delete events.") ;;
        setState (setIsDeleteDialogOpen false)
      else if foreign_event s eid then
        toast (mkToast Destructive "Permission denied"
                 "You can only delete events from your department.") ;;
        setState (setIsDeleteDialogOpen false)
      else
        r <- mutate (delete_event eid) ;;
        match error r with
        | Some message =>
            toast (mkToast Destructive "Error deleting event"
                     (or_else message "Please try again later."))
        | None =>
            toast (mkToast Default "Event deleted"
                     "Event has been deleted successfully.") ;;
            zoom page setPage (EventsManagement.fetchData adminDetails) ;;
            setState (setIsDeleteDialogOpen false) ;;
            setState (setEventToDelete Null)
        end
  | _ => ret tt
  end.
End Component.
End EventDeletion.

(** ** AdminUserManagement: the other handlers
       (src/pages/admin/events/EventsManagement.tsx, third document) *)

Module AdminAccounts.
Definition setEvents (v : list Event.t) (s : AdminUserManagement.State)
  : AdminUserManagement.State :=
  AdminUserManagement.mkState
    (AdminUserManagement.admins s) v
    (AdminUserManagement.selectedUserId s)
    (AdminUserManagement.selectedUserEmail s)
    (AdminUserManagement.selectedRole s)
    (AdminUserManagement.selectedDepartment s)
    (AdminUserManagement.selectedEvent s)
    (AdminUserManagement.isDialogOpen s)
    (AdminUserManagement.isLoading s).

(** [setSelectedRole], [setSelectedDepartment] and [setSelectedEvent]. *)
Definition setSelection (role department event : string)
  (s : AdminUserManagement.State) : AdminUserManagement.State :=
  AdminUserManagement.mkState
    (AdminUserManagement.admins s) (AdminUserManagement.events s)
    (AdminUserManagement.selectedUserId s)
    (AdminUserManagement.selectedUserEmail s)
    role department event
    (AdminUserManagement.isDialogOpen s)
    (AdminUserManagement.isLoading s).

(** [.order("title")] on events. *)
Definition by_title (es : list Event.t) : list Event.t :=
  sort_by (fun x y => String.leb (Event.title x) (Event.title y)) es.

(** [from("admins").delete().eq("id", adminId)] *)
Definition delete_admin (adminId : string) (b : Backend.t) : Backend.t :=
  Db.set_admins
    (filter (fun x => negb (String.eqb (Admin.id x) adminId))
            (Backend.admins b)) b.

Section Component.
Variable adminDetails : option Admin.t.

Definition eventQuery (b : Backend.t) : list Event.t :=
  by_title
    (match adminDetails with
     | Some a =>
         if String.eqb (Admin.role a) "department_admin"
            && truthy_n (Admin.department_id a)
         then filter (fun e => Db.col_eq (Event.department_id e)
                                         (Admin.department_id a))
                     (Backend.events b)
         else Backend.events b
     | None => Backend.events b
     end).

Definition fetchEvents : M AdminUserManagement.State unit :=
  r <- query eventQuery ;;
  match error r with
  | Some message =>
      toast (mkToast Destructive "Error"
               (or_else message "Failed to fetch events"))
  | None =>
      setState (setEvents (match data r with Some es => es | None => [] end))
  end.

(** As in [handleCreateAdmin], [fetchAdmins()] is started without
    [await]: its answer is taken up after the Success toast. *)
Definition handleDeleteAdmin (adminId : string)
  : M AdminUserManagement.State unit :=
  r <- mutate (delete_admin adminId) ;;
  match error r with
  | Some message =>
      toast (mkToast Destructive "Error"
               (or_else message "Failed to delete admin user"))
  | None =>
      refresh <- AdminUserManagement.fetchAdmins_sent adminDetails ;;
      toast (mkToast Default "Success" "Admin user deleted successfully") ;;
      AdminUserManagement.fetchAdmins_answered refresh
  end.

Definition handleRoleChange (value : string)
  : M AdminUserManagement.State unit :=
  setState
    (fun s =>
       setSelection value
         (if negb (String.eqb value "department_admin")
          then "" else AdminUserManagement.selectedDepartment s)
         (if negb (String.eqb value "event_admin")
          then "" else AdminUserManagement.selectedEvent s)
         s).
End Component.
End AdminAccounts.

(** ** AuthContext (src/src/contexts/AuthContext.tsx) *)

Module AuthContext.
Record State := mkState {
  isAdmin : bool;
  adminRole : option string;
  adminDetails : option Admin.t
}.

(** The three setters [checkIfAdmin] always calls together. *)
Definition setAdmin (found : option Admin.t) (s : State) : State :=
  match found with
  | Some row => mkState true (Some (Admin.role row)) (Some row)
  | None => mkState false None None
  end.

(** [.eq("id", userId).single()] answers with an error unless exactly
    one row matches. *)
Definition single {A} (rows : list A) : option A :=
  match rows with
  | [row] => Some row
  | _ => None
  end.

Definition checkIfAdmin (userId : string) : M State unit :=
  r <- query (fun b => filter (fun x => String.eqb (Admin.id x) userId)
                              (Backend.admins b)) ;;
  match error r with
  | Some _ => setState (setAdmin None)
  | None =>
      setState (setAdmin (match data r with
                          | Some rows => single rows
                          | None => None
                          end))
  end.
End AuthContext.

(** ** RegistrationPage: the team member buttons
       (src/src/pages/Index.tsx, second document) *)

Module RegistrationForm.
Definition blank : TeamMember.t := TeamMember.mk "" "" "".

(** [defaultValues.teamMembers] *)
Definition defaultMembers (profile : option Profile.t)
  : list TeamMember.t :=
  match profile with
  | Some p =>
      [TeamMember.mk (Profile.name p) (Profile.usn p) (Profile.phone p)]
  | None => [blank]
  end.

(** [members.filter((_, i) => i !== index)], counting from [i]. *)
Fixpoint without (index i : nat) (members : list TeamMember.t)
  : list TeamMember.t :=
  match members with
  | [] => []
  | m :: rest =>
      if Nat.eqb i index then without index (S i) rest
      else m :: without index (S i) rest
  end.

(** Both functions read [form.getValues().teamMembers] and answer with
    the value they leave in the form. *)
Definition addTeamMember (event : option Event.t)
  (currentMembers : list TeamMember.t) : list TeamMember.t :=
  match event with
  | None => currentMembers
  | Some e =>
      if Z.ltb (Z.of_nat (List.length currentMembers)) (Event.team_size e)
      then currentMembers ++ [blank]
      else currentMembers
  end.

Definition removeTeamMember (index : nat)
  (currentMembers : list TeamMember.t) : list TeamMember.t :=
  if Nat.ltb 1 (List.length currentMembers)
  then without index 0 currentMembers
  else currentMembers.

(** A click on one of the two buttons. *)
Inductive Click := Add | Remove (index : nat).

Definition click (event : option Event.t) (members : list TeamMember.t)
  (c : Click) : list TeamMember.t :=
  match c with
  | Add => addTeamMember event members
  | Remove index => removeTeamMember index members
  end.

Definition handleCloseQRDialog : M RegistrationPage.State unit :=
  setState (RegistrationPage.setShowQRDialog false) ;;
  setState (RegistrationPage.navigate "/registrations").
End RegistrationForm.

(** ** LiveCounter: the countdown (src/src/components/LiveCounter.tsx) *)

Module Countdown.
Record TimeLeft := mk {
  days : Z;
  hours : Z;
  minutes : Z;
  seconds : Z
}.

(** [new Date('2025-05-09T00:00:00+05:30').getTime()]: the milliseconds
    from the epoch to 2025-05-08T18:30:00Z. *)
Definition targetDate : Z := 1746729000000%Z.

(** The value handed to [setCountdown]; [now] is [new Date().getTime()]
    and [utcOffsetMinutes] is [now.getTimezoneOffset()].  Times are whole
    milliseconds, on which [Math.floor(a / b)] is the integer quotient. *)
Definition updateCountdown (now utcOffsetMinutes : Z) : TimeLeft :=
  (let istOffsetMinutes := 330 in
   let totalOffsetMinutes := istOffsetMinutes + utcOffsetMinutes in
   let nowIST := now + totalOffsetMinutes * 60 * 1000 in
   let difference := targetDate - nowIST in
   if difference <=? 0 then mk 0 0 0 0
   else
     mk (difference / (1000 * 60 * 60 * 24))
        (difference mod (1000 * 60 * 60 * 24) / (1000 * 60 * 60))
        (difference mod (1000 * 60 * 60) / (1000 * 60))
        (difference mod (1000 * 60) / 1000))%Z.
End Countdown.

(** ** AdminOverview (src/src/pages/admin/Overview.tsx) *)

Module AdminOverview.
Record Stats := mkStats {
  eventCount : Z;
  departmentCount : Z;
  registrationCount : Z;
  verifiedRegistrationCount : Z
}.

Record State := mkState {
  stats : Stats;
  isLoading : bool
}.

Definition initial : State := mkState (mkStats 0 0 0 0) true.

Definition setStats (v : Stats) (s : State) : State :=
  mkState v (isLoading s).
Definition setIsLoading (v : bool) (s : State) : State :=
  mkState (stats s) v.

(** [select("*", { count: "exact", head: true })] on a table. *)
Definition count {A} (rows : list A) : Z := Z.of_nat (List.length rows).

(** [count || 0] *)
Definition or_zero (c : option Z) : Z :=
  match c with
  | Some n => n
  | None => 0%Z
  end.

Definition fetchStats : M State unit :=
  setState (setIsLoading true) ;;
  ev <- query (fun b => count (Backend.events b)) ;;
  match error ev with
  | Some _ => ret tt
  | None =>
      dept <- query (fun b => count (Backend.departments b)) ;;
      match error dept with
      | Some _ => ret tt
      | None =>
          reg <- query (fun b => count (Backend.registrations b)) ;;
          match error reg with
          | Some _ => ret tt
          | None =>
              verified <- query (Db.count_payment_status "Verified") ;;
              match error verified with
              | Some _ => ret tt
              | None =>
                  setState
                    (setStats
                       (mkStats (or_zero (data ev)) (or_zero (data dept))
                                (or_zero (data reg))
                                (or_zero (data verified))))
              end
          end
      end
  end ;;
  setState (setIsLoading false).
End AdminOverview.

(** ** UserRegistrationsPage (src/unnamed/part_000, second document) *)

Module UserRegistrationsPage.
Record State := mkState {
  registrations : list RegistrationWithDetails.t;
  isLoading : bool;
  location : string
}.

Definition setRegistrations (v : list RegistrationWithDetails.t)
  (s : State) : State :=
  mkState v (isLoading s) (location s).
Definition setIsLoading (v : bool) (s : State) : State :=
  mkState (registrations s) v (location s).
Definition navigate (path : string) (s : State) : State :=
  mkState (registrations s) (isLoading s) path.

(** A query ending in [.single()]: the row, or nothing when the request
    fails or does not match exactly one row. *)
Definition request_single {A} (q : Backend.t -> list A)
  : M State (option A) :=
  r <- query q ;;
  ret (match error r with
       | Some _ => None
       | None =>
           match data r with
           | Some rows => AuthContext.single rows
           | None => None
           end
       end).

(** The loop over [registrationsData]; [acc] is
    [registrationsWithDetails] so far.  A registration whose event
    request fails is skipped.  Rows hold team_members as an array, which
    the source passes on as it is; its branch for a column holding a
    JSON string is outside this row type. *)
Fixpoint withDetails (regs : list Registration.t)
  (acc : list RegistrationWithDetails.t)
  : M State (list RegistrationWithDetails.t) :=
  match regs with
  | [] => ret acc
  | reg :: rest =>
      ev <- request_single
              (fun b => filter (fun e => String.eqb (Event.id e)
                                           (Registration.event_id reg))
                               (Backend.events b)) ;;
      match ev with
      | None => withDetails rest acc
      | Some eventData =>
          departmentData <-
            (if truthy (Event.department_id eventData)
             then request_single
                    (fun b => filter
                                (fun d => String.eqb
                                            (Department.id d)
                                            (Event.department_id eventData))
                                (Backend.departments b))
             else ret None) ;;
          withDetails rest
            (acc ++ [RegistrationWithDetails.mk reg eventData
                       departmentData])
      end
  end.

Definition fetchRegistrations (user : User.t) : M State unit :=
  setState (setIsLoading true) ;;
  r <- query (fun b =>
                RegistrationsListing.newest_first
                  (filter (fun x => String.eqb (Registration.user_id x)
                                               (User.id user))
                          (Backend.registrations b))) ;;
  match error r with
  | Some _ => ret tt
  | None =>
      match data r with
      | Some (reg :: rest) =>
          details <- withDetails (reg :: rest) [] ;;
          setState (setRegistrations details)
      | _ => setState (setRegistrations [])
      end
  end ;;
  setState (setIsLoading false).

(** The effect that runs on mount. *)
Definition onMount (user : option User.t) : M State unit :=
  match user with
  | None => setState (navigate "/auth")
  | Some u => fetchRegistrations u
  end.
End UserRegistrationsPage.

(** ** EventsManagement: placeholder images (same file, inside the mount
       effect) *)

Module PlaceholderImages.
Definition placeholderImages : list string :=
  ["https://images.unsplash.com/photo-1488590528505-98d2b5aba04b";
   "https://images.unsplash.com/photo-1518770660439-4636190af475";
   "https://images.unsplash.com/photo-1461749280684-dccba630e2f6";
   "https://images.unsplash.com/photo-1486312338219-ce68d2c6f44d";
   "https://images.unsplash.com/photo-1581091226825-a6a2a5aee158";
   "https://images.unsplash.com/photo-1485827404703-89b55fcc595e";
   "https://images.unsplash.com/photo-1526374965328-7f61d4dc18c5";
   "https://images.unsplash.com/photo-1531297484001-80022131f5a1"].

(** [placeholderImages[Math.floor(Math.random() * placeholderImages.length)]]:
    [Math.random()] is below 1, so the index is below the length; [draw]
    is what the random source gives, taken into that range. *)
Definition randomImage (draw : nat) : string :=
  nth (draw mod List.length placeholderImages) placeholderImages "".

Definition suffix : string := "?w=600&h=400&fit=crop&auto=format".

Definition imageUrl (draw : nat) : string := randomImage draw ++ suffix.

(** One event row after [update({ image_url })]. *)
Definition with_image_url (url : string) (e : Event.t) : Event.t :=
  Event.mk (Event.id e) (Event.title e) (Event.description e)
    (Event.department_id e) (Event.team_size e) (Event.venue e)
    (Event.conduction_venue e) (Event.date e) (Event.registration_fee e)
    (Event.event_type e) (Event.faculty_coordinators e)
    (Event.student_coordinators e) (Event.is_trending e)
    (Event.payment_qr_url e) (Val url) (Event.qr_code_url e)
    (Event.created_at e) (Event.updated_at e).

(** [from("events").update({ image_url: imageUrl }).eq("id", eid)] *)
Definition update_image_url (eid url : string) (b : Backend.t)
  : Backend.t :=
  Db.set_events
    (map (fun e => if String.eqb (Event.id e) eid
                   then with_image_url url e else e)
         (Backend.events b)) b.

Definition is_null {A} (x : nullable A) : bool :=
  match x with
  | Null => true
  | _ => false
  end.

(** [from("events").select("id").is("image_url", null)] *)
Definition eventsWithoutImages (b : Backend.t) : list string :=
  map Event.id
      (filter (fun e => is_null (Event.image_url e)) (Backend.events b)).

(** The loop over [eventsWithoutImages]; [random k] is the [k]-th draw.
    What an update resolves to is not looked at. *)
Fixpoint assign (random : nat -> nat) (k : nat) (ids : list string)
  : M EventsManagement.State unit :=
  match ids with
  | [] => ret tt
  | id :: rest =>
      mutate (update_image_url id (imageUrl (random k))) ;;
      assign random (S k) rest
  end.

Definition assignRandomPlaceholderImages (adminDetails : option Admin.t)
  (random : nat -> nat) : M EventsManagement.State unit :=
  r <- query eventsWithoutImages ;;
  match error r with
  | Some _ => ret tt
  | None =>
      match data r with
      | Some (id :: rest) =>
          assign random 0 (id :: rest) ;;
          EventsManagement.fetchData adminDetails
      | _ => ret tt
      end
  end.
End PlaceholderImages.

(** ** EventsManagement: the dialog with the form (same file) *)

Module EventForm.
Definition coordinatorSchema (c : CoordinatorEntry.t) : bool :=
  z.string_min 1 (CoordinatorEntry.name c).

(** [eventSchema], the resolver of the form, on values already of the
    form's types. *)
Definition eventSchema (values : EventFormValues.t) : bool :=
  z.string_min 1 (EventFormValues.title values)
  && z.string_min 1 (EventFormValues.department_id values)
  && Z.leb 1 (EventFormValues.team_size values)
  && Z.leb 0 (EventFormValues.registration_fee values)
  && z.string_min 1 (EventFormValues.event_type values)
  && forallb coordinatorSchema (EventFormValues.faculty_coordinators values)
  && forallb coordinatorSchema (EventFormValues.student_coordinators values).

(** [canAddEvents = adminDetails?.role !== "event_admin"] *)
Definition canAddEvents (adminDetails : option Admin.t) : bool :=
  negb (role_is adminDetails "event_admin").

(** [<form onSubmit={form.handleSubmit(handleAddEdit)}>].  The form is
    part of the page only inside
    [{canAddEvents && <Dialog open={isDialogOpen}>}], and
    [form.handleSubmit] calls the handler only with values the resolver
    accepts; this is the only place that calls [handleAddEdit]. *)
Definition submit (adminDetails : option Admin.t)
  (values : EventFormValues.t) : M EventsManagement.State unit :=
  s <- getState ;;
  if canAddEvents adminDetails
     && EventsManagement.isDialogOpen s
     && eventSchema values
  then EventsManagement.handleAddEdit adminDetails values
  else ret tt.

(** What an admin can do on the page towards an edit: press the pencil
    button of an event, and press the form's submit button. *)
Inductive Action :=
| ClickEdit (event : Event.t)
| Submit (values : EventFormValues.t).

Definition act (adminDetails : option Admin.t) (a : Action)
  : M EventsManagement.State unit :=
  match a with
  | ClickEdit event => EventsManagement.handleEditEvent adminDetails event
  | Submit values => submit adminDetails values
  end.

Fixpoint acts (adminDetails : option Admin.t) (l : list Action)
  : M EventsManagement.State unit :=
  match l with
  | [] => ret tt
  | a :: rest => act adminDetails a ;; acts adminDetails rest
  end.
End EventForm.

(** * Vocabulary of the properties *)

(** ** Worlds a handler can leave *)

(** The world a handler leaves when it only shows one toast. *)
Definition only_toast {St} (t : Toast) (w : World St) : World St :=
  mkWorld (backend w) (ui w) (toasts w ++ [t]) (faults w) (sent w).

(** The world after a status change that the backend accepted. *)
Definition status_written (registration : RegistrationWithDetails.t)
  (w : World RegistrationsManagement.State)
  (status ok_title ok_text : string) : World RegistrationsManagement.State :=
  mkWorld
    (Db.update_payment_status
       (RegistrationWithDetails.id registration) status (backend w))
    (RegistrationsManagement.mark_local
       (RegistrationWithDetails.id registration) status (ui w))
    (toasts w ++ [mkToast Default ok_title ok_text])
    (faults w) (S (sent w)).

(** The world after [handleAddEdit] stopped at one of its guards. *)
Definition edit_refused (w : World EventsManagement.State) (text : string)
  : World EventsManagement.State :=
  mkWorld (backend w)
          (EventsManagement.setIsSubmitting false
             (EventsManagement.setIsSubmitting false
                (EventsManagement.setIsSubmitting true (ui w))))
          (toasts w ++ [mkToast Destructive "Permission denied" text])
          (faults w) (sent w).

Definition created_toast : Toast :=
  mkToast Default "Success" "Admin user created successfully".

(** The world after the upsert went through. *)
Definition admin_written (adminDetails : option Admin.t)
  (created updated : string) (w : World AdminUserManagement.State)
  (uid : string) : World AdminUserManagement.State :=
  let sent_off :=
    AdminUserManagement.fetchAdmins_sent adminDetails
      (mkWorld (Db.upsert_admin
                  (AdminUserManagement.adminData created updated uid (ui w))
                  (backend w))
               (ui w) (toasts w) (faults w) (S (sent w))) in
  let w1 := snd sent_off in
  exec (AdminUserManagement.fetchAdmins_answered (fst sent_off))
       (mkWorld (backend w1) (AdminUserManagement.resetForm (ui w1))
                (toasts w1 ++ [created_toast]) (faults w1) (sent w1)).

Definition registered_toast : Toast :=
  mkToast Default "Registration successful!"
          "Your team has been registered for the event.".

(** The row the backend appends for [registrationData]. *)
Definition stored_row (u : User.t) (uuidv4 : string)
  (data : RegistrationFormValues.t) (e : Event.t) (g : Generated)
  : Registration.t :=
  Registration.mk (gen_id g) (Event.id e) (User.id u)
    ("TEAM-" ++ String.substring 0 8 uuidv4)
    (RegistrationFormValues.teamMembers data)
    "Pending"
    (RegistrationFormValues.paymentMethod data)
    (gen_now g) (gen_now g).

Definition next_generated (b : Backend.t) : Generated :=
  hd (mkGenerated "" "") (Backend.generated b).

(** The world after a submission the backend accepted. *)
Definition submitted (u : User.t) (uuidv4 : string)
  (data : RegistrationFormValues.t) (e : Event.t)
  (w : World RegistrationPage.State) : World RegistrationPage.State :=
  mkWorld
    (Backend.mk
       (Backend.registrations (backend w)
        ++ [stored_row u uuidv4 data e (next_generated (backend w))])
       (Backend.events (backend w)) (Backend.admins (backend w))
       (Backend.departments (backend w))
       (tl (Backend.generated (backend w))))
    (RegistrationPage.setIsSubmitting false
       ((if String.eqb (RegistrationFormValues.paymentMethod data) "QR Code"
         then RegistrationPage.setShowQRDialog true
         else RegistrationPage.navigate "/registrations")
          (RegistrationPage.setIsSubmitting true (ui w))))
    (toasts w ++ [registered_toast]) (faults w) (S (sent w)).

(** ** Statements about worlds and rows *)

(** What a refusal looks like: the tables are as before, no request was
    sent, and a "Permission denied" toast was shown. *)
Definition refused {St} (w w' : World St) : Prop :=
  backend w' = backend w
  /\ sent w' = sent w
  /\ exists text,
      toasts w' =
      (toasts w ++ [mkToast Destructive "Permission denied" text])%list.

(** Row [r'] is row [r] with, at most, another payment_status. *)
Definition same_submission (r r' : Registration.t) : Prop :=
  Registration.id r' = Registration.id r
  /\ Registration.event_id r' = Registration.event_id r
  /\ Registration.user_id r' = Registration.user_id r
  /\ Registration.team_id r' = Registration.team_id r
  /\ Registration.team_members r' = Registration.team_members r
  /\ Registration.payment_method r' = Registration.payment_method r
  /\ Registration.created_at r' = Registration.created_at r.

(** Table [after] is table [before], row by row, where the rows with id
    [rid] now carry [status] and every other row its old status. *)
Definition status_changed (rid status : string) (before after : Backend.t)
  : Prop :=
  Forall2
    (fun r r' =>
       same_submission r r'
       /\ Registration.payment_status r'
          = if String.eqb (Registration.id r) rid
            then status else Registration.payment_status r)
    (Backend.registrations before) (Backend.registrations after)
  /\ Backend.events after = Backend.events before
  /\ Backend.admins after = Backend.admins before
  /\ Backend.departments after = Backend.departments before.

(** The fields of the form pass the three presence guards. *)
Definition filled (s : AdminUserManagement.State) (uid : string) : Prop :=
  AdminUserManagement.selectedUserId s = Val uid
  /\ uid <> ""
  /\ (AdminUserManagement.selectedRole s = "department_admin" ->
      AdminUserManagement.selectedDepartment s <> "")
  /\ (AdminUserManagement.selectedRole s = "event_admin" ->
      AdminUserManagement.selectedEvent s <> "").

(** The caller is a main admin and [role] is one of the three roles, or
    the caller is a department admin and [role] is "event_admin". *)
Definition within_grant (adminDetails : option Admin.t) (role : string)
  : Prop :=
  (role_is adminDetails "main_admin" = true
   /\ (role = "main_admin" \/ role = "department_admin"
       \/ role = "event_admin"))
  \/ (role_is adminDetails "department_admin" = true
      /\ role = "event_admin").

(** [handleCreateAdmin] assigns [role]: in some run with user [uid] and
    [role] selected, the admins table gains a row it did not hold, that
    row has [uid] as its id and [role] as its role, and the Success toast
    is shown. *)
Definition assigns (adminDetails : option Admin.t) (role : string) : Prop :=
  exists (created updated : string) (w : World AdminUserManagement.State)
         (uid : string) (row : Admin.t),
    let w' := exec (AdminUserManagement.handleCreateAdmin
                      adminDetails created updated) w in
    AdminUserManagement.selectedUserId (ui w) = Val uid
    /\ AdminUserManagement.selectedRole (ui w) = role
    /\ ~ In row (Backend.admins (backend w))
    /\ In row (Backend.admins (backend w'))
    /\ Admin.id row = uid
    /\ Admin.role row = role
    /\ exists later,
        toasts w' = (toasts w ++ created_toast :: later)%list.

(** The scoping invariants of an admin row; [es] is the list of events
    the component holds, in which the assigned event is looked up. *)
Definition scoped (es : list Event.t) (row : Admin.t) : Prop :=
  (Admin.role row = "department_admin" ->
   (exists d, Admin.department_id row = Val d /\ d <> "")
   /\ Admin.event_id row = Null)
  /\ (Admin.role row = "event_admin" ->
      exists e,
        Admin.event_id row = Val e
        /\ e <> ""
        /\ forall d,
            Admin.department_id row = Val d ->
            exists ev,
              AdminUserManagement.find_event es e = Some ev
              /\ Event.id ev = e
              /\ Event.department_id ev = d)
  /\ (Admin.role row = "main_admin" ->
      Admin.department_id row = Null /\ Admin.event_id row = Null).

(** The bounds on one member, as the schema checks them. *)
Definition member_in_bounds (m : TeamMember.t) : Prop :=
  (2 <= String.length (TeamMember.name m))%nat
  /\ (5 <= String.length (TeamMember.usn m) <= 10)%nat
  /\ (10 <= String.length (TeamMember.phone m) <= 13)%nat.

(** The phone bound read as a bound on digits: ten to thirteen
    characters, each of them a decimal digit. *)
Definition is_digit (c : ascii) : bool :=
  Nat.leb 48 (nat_of_ascii c) && Nat.leb (nat_of_ascii c) 57.

Fixpoint all_digits (s : string) : bool :=
  match s with
  | EmptyString => true
  | String c s' => is_digit c && all_digits s'
  end.

Definition phone_is_10_to_13_digits (m : TeamMember.t) : bool :=
  Nat.leb 10 (String.length (TeamMember.phone m))
  && Nat.leb (String.length (TeamMember.phone m)) 13
  && all_digits (TeamMember.phone m).

(** The page once [fetchEventData] has stored the event and the schema
    built from its team size. *)
Definition page_ready (s : RegistrationPage.State) (e : Event.t) : Prop :=
  RegistrationPage.event s = Some e
  /\ RegistrationPage.registrationSchema s
     = createRegistrationSchema (Event.team_size e).

(** The payment_status column. *)
Definition statuses (b : Backend.t) : list string :=
  map Registration.payment_status (Backend.registrations b).

(** ** Sample data *)

Definition quiz : Event.t :=
  Event.mk "E1" "Quiz" Null "D1" 2 Null Null Null 100 "Technical"
           Null Null Null Null Null Null "2025-04-01" "2025-04-01".

Definition hackathon : Event.t :=
  Event.mk "E2" "Hackathon" Null "D2" 4 Null Null Null 200 "Technical"
           Null Null Null Null Null Null "2025-04-02" "2025-04-02".

Definition quiz_admin : Admin.t :=
  Admin.mk "U7" "quiz@example.org" "event_admin" (Val "D1") (Val "E1")
           "2025-04-03" "2025-04-03".

Definition cse_admin : Admin.t :=
  Admin.mk "U8" "cse@example.org" "department_admin" (Val "D1") Null
           "2025-04-03" "2025-04-03".

Definition root_admin : Admin.t :=
  Admin.mk "U9" "root@example.org" "main_admin" Null Null
           "2025-04-03" "2025-04-03".

Definition asha : TeamMember.t :=
  TeamMember.mk "Asha" "1AB21CS001" "9876543210".

Definition lettered : TeamMember.t :=
  TeamMember.mk "Asha" "1AB21CS001" "abcdefghij".

Definition hack_entry (status : string) : Registration.t :=
  Registration.mk "R1" "E2" "U1" "TEAM-0a1b2c3d" [asha] status "Cash"
                  "2025-04-05" "2025-04-05".

Definition hack_row (status : string) : RegistrationWithDetails.t :=
  RegistrationWithDetails.mk (hack_entry status) hackathon None.

Definition festival (status : string) : Backend.t :=
  Backend.mk [hack_entry status] [quiz; hackathon]
             [quiz_admin; cse_admin; root_admin] []
             [mkGenerated "R2" "2025-04-06"; mkGenerated "R3" "2025-04-07"].

Definition no_faults : nat -> option string := fun _ => None.

Definition desk (status : string) : World RegistrationsManagement.State :=
  mkWorld (festival status)
          (RegistrationsManagement.mkState [hack_row status])
          [] no_faults 0.

Definition events_desk (cur : option Event.t)
  : World EventsManagement.State :=
  mkWorld (festival "Pending")
          (EventsManagement.mkState [quiz] [] false false
             (match cur with Some _ => true | None => false end) cur)
          [] no_faults 0.

Definition quiz_form (department_id : string) : EventFormValues.t :=
  EventFormValues.mk "Quiz" Undefined department_id Undefined Undefined
                     Undefined 2 100 "Technical" false
                     Undefined Undefined Undefined [] [].

Definition admin_desk (role : string)
  : World AdminUserManagement.State :=
  mkWorld (festival "Pending")
          (AdminUserManagement.mkState [] [quiz; hackathon]
             (Val "U2") (Val "new@example.org") role "D1" "E1" true false)
          [] no_faults 0.

Definition quiz_page : World RegistrationPage.State :=
  mkWorld (festival "Pending")
          (RegistrationPage.mkState (Some quiz) None
             (createRegistrationSchema 2)
             false false false "/register/E1")
          [] no_faults 0.

Definition asha_user : User.t := User.mk "U1" "asha@example.org".
Definition asha_profile : Profile.t :=
  Profile.mk "U1" "Asha" "1AB21CS001" "9876543210".

Definition solo_entry : RegistrationFormValues.t :=
  RegistrationFormValues.mk "Cash" [asha].

Definition trio : RegistrationFormValues.t :=
  RegistrationFormValues.mk "Cash" [asha; asha; asha].

Definition counter (b : Backend.t) : World LiveCounter.State :=
  mkWorld b (LiveCounter.mkState None true) [] no_faults 0.

Definition three_entries : Backend.t :=
  Backend.mk [hack_entry "Verified"; hack_entry "Pending";
              hack_entry "Rejected"] [hackathon] [] [] [].

(** ** Further statements: the registrations desk *)

(** Every registration on screen is a row of the table. *)
Definition on_screen_in_table (w : World RegistrationsManagement.State)
  : Prop :=
  forall r,
    In r (RegistrationsManagement.registrations (ui w)) ->
    In (RegistrationWithDetails.reg r)
       (Backend.registrations (backend w)).

(** The world after a status change that the backend turned down. *)
Definition status_failed (w : World RegistrationsManagement.State)
  (err_title message : string) : World RegistrationsManagement.State :=
  mkWorld (backend w) (ui w)
          (toasts w
           ++ [mkToast Destructive err_title
                 (or_else message "Please try again later.")])
          (faults w) (S (sent w)).

(** ** Further statements: the registrations list *)

(** Row [r'] has the columns of row [r], team_members aside. *)
Definition same_but_team_members (r r' : Registration.t) : Prop :=
  Registration.id r' = Registration.id r
  /\ Registration.event_id r' = Registration.event_id r
  /\ Registration.user_id r' = Registration.user_id r
  /\ Registration.team_id r' = Registration.team_id r
  /\ Registration.payment_status r' = Registration.payment_status r
  /\ Registration.payment_method r' = Registration.payment_method r
  /\ Registration.created_at r' = Registration.created_at r
  /\ Registration.updated_at r' = Registration.updated_at r.

(** The list on screen after [fetchData]. *)
Definition listed (adminDetails : option Admin.t)
  (w : World RegistrationsListing.State)
  : list RegistrationWithDetails.t :=
  RegistrationsManagement.registrations
    (RegistrationsListing.listing
       (ui (exec (RegistrationsListing.fetchData adminDetails) w))).

(** The next [n] requests are answered. *)
Definition answered {St} (w : World St) (n : nat) : Prop :=
  forall k, (k < n)%nat -> faults w (sent w + k) = None.

(** The admin's role comes with the id that narrows its view. *)
Definition has_scope (a : Admin.t) : Prop :=
  Admin.role a = "main_admin"
  \/ (Admin.role a = "department_admin"
      /\ exists d, Admin.department_id a = Val d /\ d <> "")
  \/ (Admin.role a = "event_admin"
      /\ exists e, Admin.event_id a = Val e /\ e <> "").

(** The admin's role asks for an id that the row does not carry. *)
Definition lacks_scope (a : Admin.t) : Prop :=
  (Admin.role a = "department_admin" /\ Admin.department_id a = Null)
  \/ (Admin.role a = "event_admin" /\ Admin.event_id a = Null).

(** ** Further statements: saving an event *)

(** The events table after [handleAddEdit], path by path. *)
Definition saved_backend (adminDetails : option Admin.t)
  (values : EventFormValues.t) (w : World EventsManagement.State)
  : Backend.t :=
  if EventsManagement.wrong_department adminDetails values
     || EventsManagement.wrong_event adminDetails (ui w)
  then backend w
  else match faults w (sent w) with
       | Some _ => backend w
       | None =>
           match EventsManagement.currentEvent (ui w) with
           | Some cur =>
               Db.update_event (Event.id cur)
                 (EventsManagement.eventData values) (backend w)
           | None =>
               Db.insert_event (EventsManagement.eventData values)
                               (backend w)
           end
       end.

(** ** Further statements: the user's registrations *)

(** Every request from now on is answered. *)
Definition always_answered {St} (w : World St) : Prop :=
  forall n, (sent w <= n)%nat -> faults w n = None.

(** The reads of a page leave everything but the request count. *)
Definition only_reads {St} (w w' : World St) : Prop :=
  backend w' = backend w
  /\ ui w' = ui w
  /\ toasts w' = toasts w
  /\ faults w' = faults w
  /\ (sent w <= sent w')%nat.

(** ** Further sample data *)

Definition outage : nat -> option string := fun _ => Some "".

Definition desk_offline : World RegistrationsManagement.State :=
  mkWorld (festival "Pending")
          (RegistrationsManagement.mkState [hack_row "Pending"])
          [] outage 0.

Definition stray_entry : Registration.t :=
  Registration.mk "R9" "E404" "U3" "TEAM-deadbeef" [asha] "Pending" "Cash"
                  "2025-04-04" "2025-04-04".

Definition cse : Department.t :=
  Department.mk "D1" "Computer Science" "CSE" Null "2025-03-01" "2025-03-01".

Definition quiz_entry : Registration.t :=
  Registration.mk "R5" "E1" "U4" "TEAM-5ca1ab1e" [asha] "Pending" "QR Code"
                  "2025-04-06" "2025-04-06".

Definition campus : Backend.t :=
  Backend.mk [hack_entry "Pending"; stray_entry; quiz_entry]
             [quiz; hackathon] [quiz_admin; cse_admin; root_admin] [cse] [].

Definition listing_desk : World RegistrationsListing.State :=
  mkWorld campus
          (RegistrationsListing.mkState
             (RegistrationsManagement.mkState []) [] [] true)
          [] no_faults 0.

Definition lost_admin : Admin.t :=
  Admin.mk "U6" "lost@example.org" "department_admin" Null Null
           "2025-04-03" "2025-04-03".

Definition delete_desk (eid : string) : World EventDeletion.State :=
  mkWorld (festival "Pending")
          (EventDeletion.mkState
             (EventsManagement.mkState [quiz] [] false false false None)
             true (Val eid))
          [] no_faults 0.

Definition login_screen (b : Backend.t) : World AuthContext.State :=
  mkWorld b (AuthContext.mkState false None None) [] no_faults 0.

(** The desk of a department admin after [fetchEvents], with an event of
    another department typed in as the selection. *)
Definition cse_desk : World AdminUserManagement.State :=
  let w1 := exec (AdminAccounts.fetchEvents (Some cse_admin))
                 (admin_desk "event_admin") in
  mkWorld (backend w1)
          (AdminAccounts.setSelection "event_admin" "" "E2" (ui w1))
          (toasts w1) (faults w1) (sent w1).

Definition quiz_page_offline : World RegistrationPage.State :=
  mkWorld (festival "Pending")
          (RegistrationPage.mkState (Some quiz) None
             (createRegistrationSchema 2)
             false false false "/register/E1")
          [] outage 0.

Definition overview_desk (b : Backend.t) (f : nat -> option string)
  : World AdminOverview.State :=
  mkWorld b AdminOverview.initial [] f 0.

(** The fourth request fails. *)
Definition fourth_fails : nat -> option string :=
  fun n => if Nat.eqb n 3 then Some "timeout" else None.

Definition my_page (b : Backend.t) : World UserRegistrationsPage.State :=
  mkWorld b (UserRegistrationsPage.mkState [] true "/registrations")
          [] no_faults 0.

(** ** Further statements: placeholder images *)

(** Row [e'] is row [e], or row [e] with a placeholder as its image_url,
    which only happens to a row whose id is among [ids]. *)
Definition touched (ids : list string) (e e' : Event.t) : Prop :=
  e' = e
  \/ (In (Event.id e) ids
      /\ exists img,
          In img PlaceholderImages.placeholderImages
          /\ e' = PlaceholderImages.with_image_url
                    (img ++ PlaceholderImages.suffix) e).

(** * Properties *)

(** ** Shared facts *)

Lemma strict_eq_Val_l (s : string) (y : nullable string) :
  strict_eq (Val s) y = true <-> y = Val s.
Proof.
  destruct y as [| |b]; simpl; split; try discriminate.
  - intros H. apply String.eqb_eq in H. now subst.
  - intros H. injection H as ->. apply String.eqb_refl.
Qed.

Lemma with_payment_status_same (r : Registration.t) :
  Registration.with_payment_status (Registration.payment_status r) r = r.
Proof. now destruct r. Qed.

(** ** C1: who may modify a registration *)

(** C1.  [canModifyRegistration] answers [true] exactly when there is an
    admin record whose role is "main_admin", or whose role is
    "department_admin" and whose department_id is the department_id of the
    registration's event, or whose role is "event_admin" and whose event_id
    is the registration's event_id; in every other case, and with no admin
    record at all, it answers [false]. *)
Theorem canModifyRegistration_iff :
  forall (adminDetails : option Admin.t)
         (registration : RegistrationWithDetails.t),
    (RegistrationsManagement.canModifyRegistration adminDetails registration
       = true
     <-> exists a,
         adminDetails = Some a /\
         (Admin.role a = "main_admin"
          \/ (Admin.role a = "department_admin"
              /\ Admin.department_id a
                 = Val (Event.department_id
                          (RegistrationWithDetails.event registration)))
          \/ (Admin.role a = "event_admin"
              /\ Admin.event_id a
                 = Val (RegistrationWithDetails.event_id registration))))
    /\ RegistrationsManagement.canModifyRegistration None registration
       = false.
Proof.
  intros [a|] registration; split; try reflexivity.
  - unfold RegistrationsManagement.canModifyRegistration, role_is.
    destruct (String.eqb_spec (Admin.role a) "main_admin") as [Hm|Hm].
    { split; [intros _; exists a; auto | reflexivity]. }
    destruct (String.eqb_spec (Admin.role a) "department_admin") as [Hd|Hd];
      destruct (String.eqb_spec (Admin.role a) "event_admin") as [He|He];
      rewrite ?andb_true_l, ?andb_false_l; try congruence.
    + destruct (strict_eq (Val _) (Admin.department_id a)) eqn:E.
      * apply strict_eq_Val_l in E.
        split; [intros _; exists a; auto | reflexivity].
      * split; [discriminate|].
        intros (a' & [= <-] & [H | [[_ H] | [H _]]]); try congruence.
        apply strict_eq_Val_l in H. congruence.
    + destruct (strict_eq (Val _) (Admin.event_id a)) eqn:E.
      * apply strict_eq_Val_l in E.
        split; [intros _; exists a; auto | reflexivity].
      * split; [discriminate|].
        intros (a' & [= <-] & [H | [[H _] | [_ H]]]); try congruence.
        apply strict_eq_Val_l in H. congruence.
    + split; [discriminate|].
      intros (a' & [= <-] & [H | [[H _] | [H _]]]); congruence.
  - split; [discriminate|]. intros (a & H & _). discriminate.
Qed.

(** ** Running the handlers *)

(** Reduces the projections of a world that is given field by field. *)
Ltac proj := cbn [snd fst error data backend ui toasts faults sent negb].

(** Unfolds the monad so that a handler applied to a world reduces. *)
Ltac run :=
  cbv beta iota delta
    [exec bind ret toast getState setState query mutate request only_toast];
  proj.

Section RegistrationsManagementFacts.
Import RegistrationsManagement.
Variable adminDetails : option Admin.t.
Variable registration : RegistrationWithDetails.t.
Variable w : World State.

Lemma verify_denied :
  canModifyRegistration adminDetails registration = false ->
  exec (handleVerifyRegistration adminDetails registration) w
  = only_toast (mkToast Destructive "Permission denied"
                  "You don't have permission to verify this registration.")
               w.
Proof.
  intros H. unfold handleVerifyRegistration. rewrite H. reflexivity.
Qed.

Lemma reject_denied :
  canModifyRegistration adminDetails registration = false ->
  exec (handleRejectRegistration adminDetails registration) w
  = only_toast (mkToast Destructive "Permission denied"
                  "You don't have permission to reject this registration.")
               w.
Proof.
  intros H. unfold handleRejectRegistration. rewrite H. reflexivity.
Qed.

Lemma reset_denied :
  canModifyRegistration adminDetails registration = false ->
  exec (handleResetPaymentStatus adminDetails registration) w
  = only_toast (mkToast Destructive "Permission denied"
                  "You don't have permission to reset this registration.")
               w.
Proof.
  intros H. unfold handleResetPaymentStatus. rewrite H. reflexivity.
Qed.

Hypothesis allowed : canModifyRegistration adminDetails registration = true.
Hypothesis no_fault : faults w (sent w) = None.

Lemma verify_ok :
  exec (handleVerifyRegistration adminDetails registration) w
  = status_written registration w "Verified" "Payment verified"
      "Registration payment has been verified successfully.".
Proof.
  unfold handleVerifyRegistration. rewrite allowed. run.
  rewrite no_fault. reflexivity.
Qed.

Lemma reject_ok :
  exec (handleRejectRegistration adminDetails registration) w
  = status_written registration w "Rejected" "Payment rejected"
      "Registration payment has been rejected.".
Proof.
  unfold handleRejectRegistration. rewrite allowed. run.
  rewrite no_fault. reflexivity.
Qed.

Lemma reset_ok :
  exec (handleResetPaymentStatus adminDetails registration) w
  = status_written registration w "Pending" "Payment status reset"
      "Registration payment status has been reset to pending.".
Proof.
  unfold handleResetPaymentStatus. rewrite allowed. run.
  rewrite no_fault. reflexivity.
Qed.
End RegistrationsManagementFacts.

Section EventsManagementFacts.
Import EventsManagement.
Variable adminDetails : option Admin.t.
Variable w : World State.

(** [fetchData] only reads. *)
Lemma fetchData_backend (w0 : World State) :
  backend (exec (fetchData adminDetails) w0) = backend w0.
Proof.
  unfold fetchData. run.
  destruct (faults w0 (sent w0)); cbn; [reflexivity|].
  destruct (faults w0 (S (sent w0))); reflexivity.
Qed.

Lemma handleEditEvent_denied (event : Event.t) :
  other_event adminDetails event = true ->
  exec (handleEditEvent adminDetails event) w
  = only_toast (mkToast Destructive "Permission denied"
                  "You can only edit your assigned event.") w.
Proof.
  intros H. unfold handleEditEvent. rewrite H. reflexivity.
Qed.

Lemma handleAddEdit_wrong_department (values : EventFormValues.t) :
  wrong_department adminDetails values = true ->
  exec (handleAddEdit adminDetails values) w
  = edit_refused w "You can only manage events for your department.".
Proof.
  intros H. unfold handleAddEdit. rewrite H. reflexivity.
Qed.

Lemma handleAddEdit_wrong_event (values : EventFormValues.t) :
  wrong_department adminDetails values = false ->
  wrong_event adminDetails (ui w) = true ->
  exec (handleAddEdit adminDetails values) w
  = edit_refused w "You can only manage your assigned event.".
Proof.
  intros H1 H2. unfold handleAddEdit. run. rewrite H1, H2. reflexivity.
Qed.

(** An edit that passes both guards and that the backend accepts
    replaces the columns of the rows whose id is the current event's. *)
Lemma handleAddEdit_update (values : EventFormValues.t) (cur : Event.t) :
  wrong_department adminDetails values = false ->
  wrong_event adminDetails (ui w) = false ->
  currentEvent (ui w) = Some cur ->
  faults w (sent w) = None ->
  backend (exec (handleAddEdit adminDetails values) w)
  = Db.update_event (Event.id cur) (eventData values) (backend w).
Proof.
  intros H1 H2 Hc Hf. unfold handleAddEdit. run.
  rewrite H1, H2, Hc. proj. rewrite Hf. proj.
  match goal with
  | |- context [fetchData adminDetails ?w0] =>
      pose proof (fetchData_backend w0) as Hb;
      unfold exec in Hb; destruct (fetchData adminDetails w0) as [u w1]
  end.
  proj. cbn [snd] in Hb. exact Hb.
Qed.
End EventsManagementFacts.

(** ** C3: a denied attempt writes nothing *)

(** C3.  When the authorization check denies the action, each of the three
    registration-status handlers, the opening of an event for editing and
    the submission of an event edit shows a "Permission denied" toast and
    sends no request: the backend after the attempt is the backend before
    it. *)
Theorem denied_attempt_writes_nothing :
  forall adminDetails : option Admin.t,
    (forall registration w,
        RegistrationsManagement.canModifyRegistration adminDetails registration
          = false ->
        refused w
          (exec (RegistrationsManagement.handleVerifyRegistration
                   adminDetails registration) w)
        /\ refused w
             (exec (RegistrationsManagement.handleRejectRegistration
                      adminDetails registration) w)
        /\ refused w
             (exec (RegistrationsManagement.handleResetPaymentStatus
                      adminDetails registration) w))
    /\ (forall event w,
           EventsManagement.other_event adminDetails event = true ->
           refused w (exec (EventsManagement.handleEditEvent
                              adminDetails event) w)
           /\ ui (exec (EventsManagement.handleEditEvent
                          adminDetails event) w) = ui w)
    /\ (forall values w,
           EventsManagement.wrong_department adminDetails values
             || EventsManagement.wrong_event adminDetails (ui w) = true ->
           refused w (exec (EventsManagement.handleAddEdit
                              adminDetails values) w)).
Proof.
  assert (shown : forall St (w : World St) t backend' ui' faults',
             refused w
               (mkWorld backend' ui'
                  (toasts w ++ [mkToast Destructive "Permission denied" t])
                  faults' (sent w))
             <-> backend' = backend w).
  { intros St w t b u f. unfold refused. cbn. split; [tauto|].
    intros ->. eauto. }
  intros adminDetails. split; [|split].
  - intros registration w H.
    rewrite verify_denied, reject_denied, reset_denied by exact H.
    unfold only_toast. rewrite ?shown. auto.
  - intros event w H. rewrite handleEditEvent_denied by exact H.
    unfold only_toast. rewrite ?shown. auto.
  - intros values w H.
    destruct (EventsManagement.wrong_department adminDetails values) eqn:Hd.
    + rewrite handleAddEdit_wrong_department by exact Hd.
      unfold edit_refused. now rewrite shown.
    + cbn in H. rewrite handleAddEdit_wrong_event by assumption.
      unfold edit_refused. now rewrite shown.
Qed.

Lemma denied_attempt_witness :
  (RegistrationsManagement.canModifyRegistration
     (Some quiz_admin) (hack_row "Pending") = false
   /\ refused (desk "Pending")
        (exec (RegistrationsManagement.handleVerifyRegistration
                 (Some quiz_admin) (hack_row "Pending")) (desk "Pending")))
  /\ (EventsManagement.other_event (Some quiz_admin) hackathon = true
      /\ refused (events_desk None)
           (exec (EventsManagement.handleEditEvent
                    (Some quiz_admin) hackathon) (events_desk None)))
  /\ (EventsManagement.wrong_department (Some quiz_admin) (quiz_form "D1")
        || EventsManagement.wrong_event (Some quiz_admin)
             (ui (events_desk (Some hackathon))) = true
      /\ refused (events_desk (Some hackathon))
           (exec (EventsManagement.handleAddEdit
                    (Some quiz_admin) (quiz_form "D1"))
                 (events_desk (Some hackathon)))).
Proof.
  destruct (denied_attempt_writes_nothing (Some quiz_admin))
    as (Hreg & Hopen & Hsave).
  split; [|split].
  - split; [reflexivity|].
    apply (Hreg (hack_row "Pending") (desk "Pending")). reflexivity.
  - split; [reflexivity|].
    apply (Hopen hackathon (events_desk None)). reflexivity.
  - split; [reflexivity|].
    apply (Hsave (quiz_form "D1") (events_desk (Some hackathon))).
    reflexivity.
Defined.

(** ** C8: a status change touches the status column only *)

Lemma update_payment_status_changed (rid status : string) (b : Backend.t) :
  status_changed rid status b (Db.update_payment_status rid status b).
Proof.
  unfold status_changed, Db.update_payment_status, Db.set_registrations.
  cbn [Backend.registrations Backend.events Backend.admins
       Backend.departments].
  split; [|auto].
  induction (Backend.registrations b) as [|r l IH]; cbn [map].
  - constructor.
  - constructor; [|exact IH].
    destruct (String.eqb (Registration.id r) rid);
      unfold same_submission; cbn; auto 10.
Qed.

(** C8.  For an admin the check lets through, whatever the status of the
    registration was, verify, reject and reset write "Verified",
    "Rejected" and "Pending" into payment_status of the registration and
    leave event_id, user_id, team_id, team_members, payment_method and
    created_at of every row as they were. *)
Theorem status_handlers_change_status_only :
  forall (adminDetails : option Admin.t)
         (registration : RegistrationWithDetails.t)
         (w : World RegistrationsManagement.State),
    RegistrationsManagement.canModifyRegistration adminDetails registration
      = true ->
    faults w (sent w) = None ->
    status_changed (RegistrationWithDetails.id registration) "Verified"
      (backend w)
      (backend (exec (RegistrationsManagement.handleVerifyRegistration
                        adminDetails registration) w))
    /\ status_changed (RegistrationWithDetails.id registration) "Rejected"
         (backend w)
         (backend (exec (RegistrationsManagement.handleRejectRegistration
                           adminDetails registration) w))
    /\ status_changed (RegistrationWithDetails.id registration) "Pending"
         (backend w)
         (backend (exec (RegistrationsManagement.handleResetPaymentStatus
                           adminDetails registration) w)).
Proof.
  intros adminDetails registration w Hcan Hok.
  rewrite verify_ok, reject_ok, reset_ok by assumption.
  unfold status_written; cbn [backend].
  repeat split; apply update_payment_status_changed.
Qed.

Lemma status_handlers_witness :
  RegistrationsManagement.canModifyRegistration
    (Some root_admin) (hack_row "Rejected") = true
  /\ faults (desk "Rejected") (sent (desk "Rejected")) = None
  /\ map Registration.payment_status
       (Backend.registrations
          (backend (exec (RegistrationsManagement.handleVerifyRegistration
                            (Some root_admin) (hack_row "Rejected"))
                         (desk "Rejected"))))
     = ["Verified"]
  /\ status_changed "R1" "Pending" (backend (desk "Rejected"))
       (backend (exec (RegistrationsManagement.handleResetPaymentStatus
                         (Some root_admin) (hack_row "Rejected"))
                      (desk "Rejected"))).
Proof.
  split; [reflexivity|]. split; [reflexivity|]. split; [reflexivity|].
  apply (status_handlers_change_status_only
           (Some root_admin) (hack_row "Rejected") (desk "Rejected"));
    reflexivity.
Defined.

(** ** C9: verifying twice *)

Lemma update_payment_status_fixed (rid status : string) (b : Backend.t) :
  (forall r, In r (Backend.registrations b) ->
             Registration.id r = rid ->
             Registration.payment_status r = status) ->
  Db.update_payment_status rid status b = b.
Proof.
  intros H. destruct b as [regs es ads ds gs].
  unfold Db.update_payment_status, Db.set_registrations.
  cbn [Backend.registrations Backend.events Backend.admins
       Backend.departments Backend.generated] in *.
  f_equal. rewrite <- (map_id regs) at 2. apply map_ext_in.
  intros r Hin. destruct (String.eqb_spec (Registration.id r) rid) as [E|E].
  - rewrite <- (H r Hin E). apply with_payment_status_same.
  - reflexivity.
Qed.

Lemma mark_local_fixed (rid status : string)
  (s : RegistrationsManagement.State) :
  (forall r, In r (RegistrationsManagement.registrations s) ->
             RegistrationWithDetails.id r = rid ->
             RegistrationWithDetails.payment_status r = status) ->
  RegistrationsManagement.mark_local rid status s = s.
Proof.
  intros H. destruct s as [regs].
  unfold RegistrationsManagement.mark_local.
  cbn [RegistrationsManagement.registrations] in *.
  f_equal. rewrite <- (map_id regs) at 2. apply map_ext_in.
  intros r Hin.
  destruct (String.eqb_spec (RegistrationWithDetails.id r) rid) as [E|E].
  - specialize (H r Hin E). destruct r as [reg ev dep].
    unfold RegistrationWithDetails.with_payment_status,
      RegistrationWithDetails.payment_status in *.
    cbn [RegistrationWithDetails.reg RegistrationWithDetails.event
         RegistrationWithDetails.department] in *.
    rewrite <- H. now rewrite with_payment_status_same.
  - reflexivity.
Qed.

(** C9.  When the registration is already "Verified", in the table and in
    the list on screen, an admin the check lets through who verifies it
    again leaves both as they are and is shown the success toast, not an
    error. *)
Theorem verify_idempotent :
  forall (adminDetails : option Admin.t)
         (registration : RegistrationWithDetails.t)
         (w : World RegistrationsManagement.State),
    RegistrationsManagement.canModifyRegistration adminDetails registration
      = true ->
    faults w (sent w) = None ->
    (forall r, In r (Backend.registrations (backend w)) ->
               Registration.id r = RegistrationWithDetails.id registration ->
               Registration.payment_status r = "Verified") ->
    (forall r, In r (RegistrationsManagement.registrations (ui w)) ->
               RegistrationWithDetails.id r
                 = RegistrationWithDetails.id registration ->
               RegistrationWithDetails.payment_status r = "Verified") ->
    let w' := exec (RegistrationsManagement.handleVerifyRegistration
                      adminDetails registration) w in
    backend w' = backend w
    /\ ui w' = ui w
    /\ toasts w'
       = (toasts w
          ++ [mkToast Default "Payment verified"
                "Registration payment has been verified successfully."])%list.
Proof.
  intros adminDetails registration w Hcan Hok Hdb Hui w'. subst w'.
  rewrite verify_ok by assumption. unfold status_written. cbn.
  rewrite update_payment_status_fixed by exact Hdb.
  rewrite mark_local_fixed by exact Hui.
  auto.
Qed.

Lemma verify_idempotent_witness :
  let w := desk "Verified" in
  let w' := exec (RegistrationsManagement.handleVerifyRegistration
                    (Some root_admin) (hack_row "Verified")) w in
  RegistrationsManagement.canModifyRegistration
    (Some root_admin) (hack_row "Verified") = true
  /\ backend w' = backend w
  /\ ui w' = ui w.
Proof.
  split; [reflexivity|].
  pose proof (verify_idempotent (Some root_admin) (hack_row "Verified")
                (desk "Verified")) as H.
  cbv zeta in H.
  assert (Hdb : forall r,
             In r (Backend.registrations (backend (desk "Verified"))) ->
             Registration.id r
               = RegistrationWithDetails.id (hack_row "Verified") ->
             Registration.payment_status r = "Verified").
  { intros r [<-|[]] _. reflexivity. }
  assert (Hui : forall r,
             In r (RegistrationsManagement.registrations
                     (ui (desk "Verified"))) ->
             RegistrationWithDetails.id r
               = RegistrationWithDetails.id (hack_row "Verified") ->
             RegistrationWithDetails.payment_status r = "Verified").
  { intros r [<-|[]] _. reflexivity. }
  destruct (H eq_refl eq_refl Hdb Hui) as (Hb & Hu & _).
  split; assumption.
Defined.

(** ** C2: what an event admin may edit *)

Lemma event_admin_guards (a : Admin.t) (values : EventFormValues.t)
  (s : EventsManagement.State) (cur : Event.t) :
  Admin.role a = "event_admin" ->
  EventsManagement.currentEvent s = Some cur ->
  EventsManagement.wrong_department (Some a) values = false
  /\ (EventsManagement.wrong_event (Some a) s = false
      <-> Admin.event_id a = Val (Event.id cur)).
Proof.
  intros Hrole Hcur.
  unfold EventsManagement.wrong_department, EventsManagement.wrong_event,
    EventsManagement.currentEvent_id.
  rewrite Hrole, Hcur. cbn [String.eqb Ascii.eqb Bool.eqb andb].
  split; [reflexivity|].
  rewrite negb_false_iff. apply strict_eq_Val_l.
Qed.

Lemma handleEditEvent_backend (adminDetails : option Admin.t)
  (event : Event.t) (w : World EventsManagement.State) :
  backend (exec (EventsManagement.handleEditEvent adminDetails event) w)
  = backend w
  /\ sent (exec (EventsManagement.handleEditEvent adminDetails event) w)
     = sent w.
Proof.
  unfold EventsManagement.handleEditEvent.
  destruct (EventsManagement.other_event adminDetails event); split;
    reflexivity.
Qed.

(** The form of an event admin is never there to submit. *)
Lemma submit_event_admin (a : Admin.t) (values : EventFormValues.t)
  (w : World EventsManagement.State) :
  Admin.role a = "event_admin" ->
  exec (EventForm.submit (Some a) values) w = w.
Proof.
  intros Hrole. unfold EventForm.submit, EventForm.canAddEvents, role_is.
  rewrite Hrole. run. now destruct w.
Qed.

(** C2.  An event admin's edit is refused, before anything is sent,
    unless its target is the admin's assigned event: the pencil button
    ([handleEditEvent]) answers "Permission denied" for any other event,
    and so does [handleAddEdit] when the event being edited is another
    one.  And no edit by an event admin changes a department_id: the form
    that calls [handleAddEdit] is part of the page only when
    [canAddEvents], which is false for an event admin, so whatever the
    event admin presses, the tables stay as they were and no request
    goes out; each event row keeps its department_id. *)
Theorem event_admin_edit_keeps_department :
  forall a : Admin.t,
    Admin.role a = "event_admin" ->
    (forall (event : Event.t) (w : World EventsManagement.State),
        Admin.event_id a <> Val (Event.id event) ->
        refused w (exec (EventsManagement.handleEditEvent (Some a) event) w))
    /\ (forall (values : EventFormValues.t) (cur : Event.t)
               (w : World EventsManagement.State),
           EventsManagement.currentEvent (ui w) = Some cur ->
           Admin.event_id a <> Val (Event.id cur) ->
           refused w
             (exec (EventsManagement.handleAddEdit (Some a) values) w))
    /\ (forall (actions : list EventForm.Action)
               (w : World EventsManagement.State),
           let w' := exec (EventForm.acts (Some a) actions) w in
           backend w' = backend w
           /\ sent w' = sent w
           /\ map (fun e => (Event.id e, Event.department_id e))
                  (Backend.events (backend w'))
              = map (fun e => (Event.id e, Event.department_id e))
                    (Backend.events (backend w))).
Proof.
  intros a Hrole. split; [|split].
  - intros event w Hneq.
    assert (Ho : EventsManagement.other_event (Some a) event = true).
    { unfold EventsManagement.other_event. rewrite Hrole.
      cbn [String.eqb Ascii.eqb Bool.eqb andb]. apply negb_true_iff.
      destruct (strict_eq (Val (Event.id event)) (Admin.event_id a)) eqn:E;
        [|reflexivity].
      apply strict_eq_Val_l in E. congruence. }
    rewrite (handleEditEvent_denied (Some a) w event Ho).
    unfold refused, only_toast. cbn. eauto.
  - intros values cur w Hcur Hneq.
    destruct (event_admin_guards a values (ui w) cur Hrole Hcur) as [Hd He].
    assert (Hw : EventsManagement.wrong_event (Some a) (ui w) = true).
    { destruct (EventsManagement.wrong_event (Some a) (ui w)); [reflexivity|].
      exfalso. apply Hneq, He. reflexivity. }
    rewrite handleAddEdit_wrong_event by assumption.
    unfold refused, edit_refused. cbn. eauto.
  - intros actions.
    assert (kept : forall w : World EventsManagement.State,
               backend (exec (EventForm.acts (Some a) actions) w)
               = backend w
               /\ sent (exec (EventForm.acts (Some a) actions) w) = sent w).
    { induction actions as [|act rest IH]; intros w; [split; reflexivity|].
      cbn [EventForm.acts]. unfold exec, bind.
      destruct (EventForm.act (Some a) act w) as [u w1] eqn:E.
      assert (H1 : backend w1 = backend w /\ sent w1 = sent w).
      { assert (Ew : w1 = exec (EventForm.act (Some a) act) w)
          by (unfold exec; now rewrite E).
        rewrite Ew. destruct act as [event|values]; cbn [EventForm.act].
        - apply handleEditEvent_backend.
        - rewrite (submit_event_admin a values w Hrole). split; reflexivity. }
      destruct (IH w1) as [Hb Hs]. unfold exec in Hb, Hs.
      destruct H1 as [Hb1 Hs1]. split; congruence. }
    intros w w'. subst w'. destruct (kept w) as [Hb Hs].
    split; [exact Hb|]. split; [exact Hs|]. now rewrite Hb.
Qed.

(** The quiz's admin presses the pencil of the hackathon and is refused;
    with the quiz open, a form that moves it to another department is
    never submitted, and the quiz stays in its department. *)
Lemma event_admin_edit_witness :
  Admin.role quiz_admin = "event_admin"
  /\ (Admin.event_id quiz_admin <> Val (Event.id hackathon)
      /\ refused (events_desk None)
           (exec (EventsManagement.handleEditEvent
                    (Some quiz_admin) hackathon)
                 (events_desk None)))
  /\ (EventsManagement.currentEvent (ui (events_desk (Some hackathon)))
      = Some hackathon
      /\ refused (events_desk (Some hackathon))
           (exec (EventsManagement.handleAddEdit
                    (Some quiz_admin) (quiz_form "D1"))
                 (events_desk (Some hackathon))))
  /\ map (fun e => (Event.id e, Event.department_id e))
         (Backend.events
            (backend
               (exec (EventForm.acts (Some quiz_admin)
                        [EventForm.ClickEdit quiz;
                         EventForm.Submit (quiz_form "D2")])
                     (events_desk None))))
     = [("E1", "D1"); ("E2", "D2")].
Proof.
  assert (other : Admin.event_id quiz_admin <> Val (Event.id hackathon))
    by discriminate.
  pose proof (event_admin_edit_keeps_department quiz_admin eq_refl)
    as (Hbutton & Hhandler & Hpage).
  split; [reflexivity|]. split; [|split].
  - split; [exact other|]. exact (Hbutton hackathon (events_desk None) other).
  - split; [reflexivity|].
    exact (Hhandler (quiz_form "D1") hackathon (events_desk (Some hackathon))
             eq_refl other).
  - exact (proj2 (proj2 (Hpage [EventForm.ClickEdit quiz;
                                EventForm.Submit (quiz_form "D2")]
                               (events_desk None)))).
Defined.

(** ** AdminUserManagement: the paths of [handleCreateAdmin] *)

Section AdminUserManagementFacts.
Import AdminUserManagement.
Variable adminDetails : option Admin.t.
Variables created updated : string.

Lemma fetchAdmins_sent_run (w : World State) :
  fetchAdmins_sent adminDetails w
  = (match faults w (sent w) with
     | Some e => {| data := None; error := Some e |}
     | None => {| data := Some (adminQuery adminDetails (backend w));
                  error := None |}
     end,
     mkWorld (backend w) (setIsLoading true (ui w)) (toasts w) (faults w)
             (S (sent w))).
Proof.
  unfold fetchAdmins_sent. run. destruct (faults w (sent w)); reflexivity.
Qed.

Lemma fetchAdmins_answered_backend (r : Response (list Admin.t))
  (w : World State) :
  backend (exec (fetchAdmins_answered r) w) = backend w.
Proof.
  unfold fetchAdmins_answered. run. destruct (error r); reflexivity.
Qed.

Lemma fetchAdmins_backend (w : World State) :
  backend (exec (fetchAdmins adminDetails) w) = backend w.
Proof.
  unfold fetchAdmins, fetchAdmins_sent, fetchAdmins_answered. run.
  destruct (faults w (sent w)); reflexivity.
Qed.

Lemma truthy_true (s : string) : truthy s = true <-> s <> "".
Proof.
  unfold truthy. rewrite negb_true_iff.
  destruct (String.eqb_spec s ""); split; congruence.
Qed.

Lemma handleCreateAdmin_cases (w : World State) :
  let w' := exec (handleCreateAdmin adminDetails created updated) w in
  (exists text, w' = only_toast (mkToast Destructive "Error" text) w)
  \/ (exists uid,
         filled (ui w) uid
         /\ includes (allowedRoles adminDetails) (selectedRole (ui w))
            = true
         /\ ((exists text,
                 faults w (sent w) <> None
                 /\ w' = mkWorld (backend w) (ui w)
                           (toasts w ++ [mkToast Destructive "Error" text])
                           (faults w) (S (sent w)))
             \/ (faults w (sent w) = None
                 /\ w' = admin_written adminDetails created updated
                           w uid))).
Proof.
  unfold handleCreateAdmin. run.
  destruct (selectedUserId (ui w)) as [| |uid] eqn:Huid;
    try (left; eexists; reflexivity).
  destruct (truthy uid) eqn:Hu; proj; [|left; eexists; reflexivity].
  destruct (String.eqb_spec (selectedRole (ui w)) "department_admin")
    as [Hd|Hd];
    destruct (String.eqb_spec (selectedRole (ui w)) "event_admin")
      as [He|He];
    try congruence; cbn [andb].
  - destruct (truthy (selectedDepartment (ui w))) eqn:Hsel; proj;
      [|left; eexists; reflexivity].
    destruct (includes (allowedRoles adminDetails) (selectedRole (ui w)))
      eqn:Hin; proj; [|left; eexists; reflexivity].
    right. exists uid. split; [|split; [reflexivity|]].
    { unfold filled. repeat split; intros;
        try congruence; apply truthy_true; assumption. }
    destruct (faults w (sent w)) eqn:Hf; proj.
    + left. eexists. split; [discriminate|reflexivity].
    + right. split; [reflexivity|]. unfold admin_written.
      rewrite !fetchAdmins_sent_run. reflexivity.
  - destruct (truthy (selectedEvent (ui w))) eqn:Hsel; proj;
      [|left; eexists; reflexivity].
    destruct (includes (allowedRoles adminDetails) (selectedRole (ui w)))
      eqn:Hin; proj; [|left; eexists; reflexivity].
    right. exists uid. split; [|split; [reflexivity|]].
    { unfold filled. repeat split; intros;
        try congruence; apply truthy_true; assumption. }
    destruct (faults w (sent w)) eqn:Hf; proj.
    + left. eexists. split; [discriminate|reflexivity].
    + right. split; [reflexivity|]. unfold admin_written.
      rewrite !fetchAdmins_sent_run. reflexivity.
  - destruct (includes (allowedRoles adminDetails) (selectedRole (ui w)))
      eqn:Hin; proj; [|left; eexists; reflexivity].
    right. exists uid. split; [|split; [reflexivity|]].
    { unfold filled. repeat split; intros;
        try congruence; apply truthy_true; assumption. }
    destruct (faults w (sent w)) eqn:Hf; proj.
    + left. eexists. split; [discriminate|reflexivity].
    + right. split; [reflexivity|]. unfold admin_written.
      rewrite !fetchAdmins_sent_run. reflexivity.
Qed.
End AdminUserManagementFacts.

Section AdminUserManagementPaths.
Import AdminUserManagement.
Variable adminDetails : option Admin.t.
Variables created updated : string.

Lemma handleCreateAdmin_ok (w : World State) (uid : string) :
  filled (ui w) uid ->
  includes (allowedRoles adminDetails) (selectedRole (ui w)) = true ->
  faults w (sent w) = None ->
  exec (handleCreateAdmin adminDetails created updated) w
  = admin_written adminDetails created updated w uid.
Proof.
  intros (Huid & Hne & Hd & He) Hin Hf.
  unfold handleCreateAdmin. run. rewrite Huid.
  rewrite (proj2 (truthy_true uid) Hne). proj.
  destruct (String.eqb_spec (selectedRole (ui w)) "department_admin")
    as [Ed|Ed]; cbn [andb].
  - rewrite (proj2 (truthy_true _) (Hd Ed)). proj.
    destruct (String.eqb_spec (selectedRole (ui w)) "event_admin")
      as [Ee|Ee]; [congruence|]. cbn [andb].
    rewrite Hin. proj. rewrite Hf. proj.
    unfold admin_written.
    rewrite !fetchAdmins_sent_run. reflexivity.
  - destruct (String.eqb_spec (selectedRole (ui w)) "event_admin")
      as [Ee|Ee]; cbn [andb].
    + rewrite (proj2 (truthy_true _) (He Ee)). proj.
      rewrite Hin. proj. rewrite Hf. proj.
      unfold admin_written.
      rewrite !fetchAdmins_sent_run. reflexivity.
    + rewrite Hin. proj. rewrite Hf. proj.
      unfold admin_written.
      rewrite !fetchAdmins_sent_run. reflexivity.
Qed.

Lemma admin_written_backend (w : World State) (uid : string) :
  backend (admin_written adminDetails created updated w uid)
  = Db.upsert_admin (adminData created updated uid (ui w)) (backend w).
Proof.
  unfold admin_written. cbv zeta.
  rewrite fetchAdmins_answered_backend, fetchAdmins_sent_run. reflexivity.
Qed.
End AdminUserManagementPaths.

(** Every row of the table after an upsert is the upserted row or a row
    that was there before. *)
Lemma upsert_admin_rows (a row : Admin.t) (b : Backend.t) :
  In row (Backend.admins (Db.upsert_admin a b)) ->
  row = a \/ In row (Backend.admins b).
Proof.
  unfold Db.upsert_admin.
  destruct (existsb _ (Backend.admins b)); cbn [Backend.admins Db.set_admins].
  - rewrite in_map_iff. intros (x & Hx & Hin).
    destruct (String.eqb (Admin.id x) (Admin.id a)); subst; auto.
  - rewrite in_app_iff. cbn. intuition auto.
Qed.

(** ** C6: the roles a caller can hand out *)

Lemma includes_allowedRoles (adminDetails : option Admin.t) (role : string) :
  AdminUserManagement.includes
    (AdminUserManagement.allowedRoles adminDetails) role = true
  <-> within_grant adminDetails role.
Proof.
  unfold AdminUserManagement.allowedRoles, within_grant,
    AdminUserManagement.includes.
  destruct (role_is adminDetails "main_admin") eqn:Hm.
  - cbn [existsb]. rewrite !orb_true_iff, !String.eqb_eq.
    intuition congruence.
  - destruct (role_is adminDetails "department_admin") eqn:Hd.
    + cbn [existsb]. rewrite !orb_true_iff, !String.eqb_eq.
      intuition congruence.
    + cbn [existsb]. intuition congruence.
Qed.

Lemma upsert_admin_in (a : Admin.t) (b : Backend.t) :
  In a (Backend.admins (Db.upsert_admin a b)).
Proof.
  unfold Db.upsert_admin.
  destruct (existsb _ (Backend.admins b)) eqn:Hex;
    cbn [Db.set_admins Backend.admins].
  - apply existsb_exists in Hex. destruct Hex as (x & Hx & Hid).
    apply in_map_iff. exists x. now rewrite Hid.
  - apply in_app_iff. right. now left.
Qed.

Lemma admin_written_toasts (adminDetails : option Admin.t)
  (created updated : string) (w : World AdminUserManagement.State)
  (uid : string) :
  exists later,
    toasts (admin_written adminDetails created updated w uid)
    = (toasts w ++ created_toast :: later)%list.
Proof.
  unfold admin_written. rewrite fetchAdmins_sent_run.
  unfold AdminUserManagement.fetchAdmins_answered. run.
  destruct (faults w (S (sent w))); proj.
  - rewrite <- app_assoc. eexists. reflexivity.
  - eexists. reflexivity.
Qed.

(** C6.  The roles a caller can assign are exactly main_admin,
    department_admin and event_admin for a main admin, exactly
    event_admin for a department admin, and none for anyone else: a role
    is in that set exactly when some run of [handleCreateAdmin] puts a
    new row with the selected user's id and that role in the admins
    table and shows Success.  Inside the set, every attempt with a
    complete form that the backend accepts upserts the row for the
    selected user with the selected role and shows Success.  Outside it,
    the attempt ends with an error toast, sends no request and leaves the
    tables as they were. *)
Theorem admin_creation_roles :
  forall adminDetails : option Admin.t,
    (forall role, assigns adminDetails role <-> within_grant adminDetails role)
    /\ (forall created updated uid (w : World AdminUserManagement.State),
           filled (ui w) uid ->
           within_grant adminDetails
             (AdminUserManagement.selectedRole (ui w)) ->
           faults w (sent w) = None ->
           let row :=
             AdminUserManagement.adminData created updated uid (ui w) in
           let w' := exec (AdminUserManagement.handleCreateAdmin
                             adminDetails created updated) w in
           Admin.id row = uid
           /\ Admin.role row = AdminUserManagement.selectedRole (ui w)
           /\ backend w' = Db.upsert_admin row (backend w)
           /\ In row (Backend.admins (backend w'))
           /\ exists later,
               toasts w' = (toasts w ++ created_toast :: later)%list)
    /\ (forall created updated (w : World AdminUserManagement.State),
           ~ within_grant adminDetails
               (AdminUserManagement.selectedRole (ui w)) ->
           let w' := exec (AdminUserManagement.handleCreateAdmin
                             adminDetails created updated) w in
           backend w' = backend w
           /\ sent w' = sent w
           /\ exists text,
               toasts w'
               = (toasts w ++ [mkToast Destructive "Error" text])%list).
Proof.
  intros adminDetails.
  assert (inside : forall created updated uid
                          (w : World AdminUserManagement.State),
             filled (ui w) uid ->
             within_grant adminDetails
               (AdminUserManagement.selectedRole (ui w)) ->
             faults w (sent w) = None ->
             let row :=
               AdminUserManagement.adminData created updated uid (ui w) in
             let w' := exec (AdminUserManagement.handleCreateAdmin
                               adminDetails created updated) w in
             Admin.id row = uid
             /\ Admin.role row = AdminUserManagement.selectedRole (ui w)
             /\ backend w' = Db.upsert_admin row (backend w)
             /\ In row (Backend.admins (backend w'))
             /\ exists later,
                 toasts w' = (toasts w ++ created_toast :: later)%list).
  { intros created updated uid w Hfill Hgrant Hf row w'. subst w'.
    apply includes_allowedRoles in Hgrant.
    rewrite (handleCreateAdmin_ok adminDetails created updated w uid
               Hfill Hgrant Hf).
    rewrite admin_written_backend.
    split; [reflexivity|]. split; [reflexivity|]. split; [reflexivity|].
    split; [apply upsert_admin_in|apply admin_written_toasts]. }
  split; [|split; [exact inside|]].
  - intros role. split.
    + intros (created & updated & w & uid & row & H).
      cbv zeta in H.
      destruct H as (_ & Hrole & Hold & Hnew & _).
      apply includes_allowedRoles. rewrite <- Hrole.
      destruct (handleCreateAdmin_cases adminDetails created updated w)
        as [(text & E) | (uid' & _ & Hin & _)]; [|exact Hin].
      exfalso. cbv zeta in E. rewrite E in Hnew. exact (Hold Hnew).
    + intros Hgrant.
      set (w := mkWorld (Backend.mk [] [] [] [] [])
                  (AdminUserManagement.mkState [] [] (Val "U1") Null role
                     "D1" "E1" false false)
                  [] no_faults 0).
      assert (Hfill : filled (ui w) "U1").
      { unfold filled. cbn. repeat split; discriminate. }
      destruct (inside "" "" "U1" w Hfill Hgrant eq_refl)
        as (Hid & Hrow & _ & Hin & Htoast).
      exists "", "", w, "U1",
        (AdminUserManagement.adminData "" "" "U1" (ui w)).
      cbv zeta. split; [reflexivity|]. split; [reflexivity|].
      split; [intros []|]. split; [exact Hin|].
      split; [exact Hid|]. split; [exact Hrow|exact Htoast].
  - intros created updated w Hout. cbv zeta.
    destruct (handleCreateAdmin_cases adminDetails created updated w)
      as [(text & E) | (uid & _ & Hin & _)].
    + cbv zeta in E. rewrite E. unfold only_toast. cbn. eauto.
    + exfalso. apply Hout, includes_allowedRoles, Hin.
Qed.

(** A department admin with "department_admin" selected is turned down;
    with "event_admin" selected for user U2 the row for U2 is written as
    an event admin. *)
Lemma admin_creation_roles_witness :
  let w := admin_desk "department_admin" in
  let w' := exec (AdminUserManagement.handleCreateAdmin
                    (Some cse_admin) "2025-04-08" "2025-04-08") w in
  let v := admin_desk "event_admin" in
  let v' := exec (AdminUserManagement.handleCreateAdmin
                    (Some cse_admin) "2025-04-08" "2025-04-08") v in
  (~ within_grant (Some cse_admin) (AdminUserManagement.selectedRole (ui w))
   /\ backend w' = backend w
   /\ sent w' = sent w)
  /\ (filled (ui v) "U2"
      /\ within_grant (Some cse_admin)
           (AdminUserManagement.selectedRole (ui v))
      /\ faults v (sent v) = None
      /\ map (fun x => (Admin.id x, Admin.role x))
             (Backend.admins (backend v))
         = [("U7", "event_admin"); ("U8", "department_admin");
            ("U9", "main_admin")]
      /\ map (fun x => (Admin.id x, Admin.role x))
             (Backend.admins (backend v'))
         = [("U7", "event_admin"); ("U8", "department_admin");
            ("U9", "main_admin"); ("U2", "event_admin")]
      /\ In (AdminUserManagement.adminData "2025-04-08" "2025-04-08" "U2"
               (ui v))
            (Backend.admins (backend v'))).
Proof.
  cbv zeta.
  assert (out : ~ within_grant (Some cse_admin)
                    (AdminUserManagement.selectedRole
                       (ui (admin_desk "department_admin")))).
  { intros [[H _] | [_ H]]; discriminate. }
  assert (inside : within_grant (Some cse_admin)
                     (AdminUserManagement.selectedRole
                        (ui (admin_desk "event_admin")))).
  { right. split; reflexivity. }
  assert (full : filled (ui (admin_desk "event_admin")) "U2").
  { unfold filled. cbn. repeat split; discriminate. }
  split.
  - split; [exact out|].
    destruct (proj2 (proj2 (admin_creation_roles (Some cse_admin)))
                "2025-04-08" "2025-04-08" (admin_desk "department_admin")
                out)
      as (Hb & Hs & _).
    split; assumption.
  - split; [exact full|]. split; [exact inside|].
    split; [reflexivity|]. split; [reflexivity|]. split; [reflexivity|].
    exact (proj1 (proj2 (proj2 (proj2
             (proj1 (proj2 (admin_creation_roles (Some cse_admin)))
                "2025-04-08" "2025-04-08" "U2" (admin_desk "event_admin")
                full inside eq_refl))))).
Defined.

(** ** C7: the scope columns of a created admin *)

Lemma find_event_id (es : list Event.t) (eid : string) (ev : Event.t) :
  AdminUserManagement.find_event es eid = Some ev -> Event.id ev = eid.
Proof.
  unfold AdminUserManagement.find_event. intros H.
  apply find_some in H. now apply String.eqb_eq.
Qed.

Lemma adminData_scoped (created updated uid : string)
  (s : AdminUserManagement.State) :
  filled s uid ->
  scoped (AdminUserManagement.events s)
         (AdminUserManagement.adminData created updated uid s).
Proof.
  intros (_ & _ & Hd & He).
  unfold scoped, AdminUserManagement.adminData.
  cbn [Admin.role Admin.department_id Admin.event_id].
  split; [|split]; intros Hrole; rewrite Hrole;
    cbn [String.eqb Ascii.eqb Bool.eqb].
  - split; [|reflexivity]. eexists. split; [reflexivity|]. now apply Hd.
  - eexists. split; [reflexivity|]. split; [now apply He|].
    intros d.
    destruct (AdminUserManagement.find_event _ _) as [ev|] eqn:Hfind;
      [|discriminate].
    destruct (truthy (Event.department_id ev)); [|discriminate].
    intros [= <-]. exists ev.
    split; [reflexivity|]. split; [|reflexivity].
    now apply find_event_id with (es := AdminUserManagement.events s).
  - split; reflexivity.
Qed.

(** C7.  Every admin row that [handleCreateAdmin] adds to the table, or
    puts in the place of another, satisfies the scoping invariants: a
    department_admin row has a department_id and no event_id; an
    event_admin row has an event_id, and its department_id, when there is
    one, is the department_id of the event with that id; a main_admin row
    has neither. *)
Theorem created_admin_is_scoped :
  forall (adminDetails : option Admin.t) (created updated : string)
         (w : World AdminUserManagement.State) (row : Admin.t),
    let w' := exec (AdminUserManagement.handleCreateAdmin
                      adminDetails created updated) w in
    In row (Backend.admins (backend w')) ->
    ~ In row (Backend.admins (backend w)) ->
    scoped (AdminUserManagement.events (ui w)) row
    /\ (Admin.role row = "main_admin"
        \/ Admin.role row = "department_admin"
        \/ Admin.role row = "event_admin").
Proof.
  intros adminDetails created updated w row w' Hnew Hold. subst w'.
  destruct (handleCreateAdmin_cases adminDetails created updated w)
    as [(text & E) | (uid & Hfilled & Hin & [(text & _ & E) | (_ & E)])];
    cbv zeta in E; rewrite E in Hnew.
  - contradiction.
  - contradiction.
  - rewrite admin_written_backend in Hnew.
    apply upsert_admin_rows in Hnew. destruct Hnew as [-> | Hnew];
      [|contradiction].
    split; [now apply adminData_scoped|].
    apply includes_allowedRoles in Hin.
    cbn [AdminUserManagement.adminData Admin.role].
    destruct Hin as [[_ H] | [_ H]]; tauto.
Qed.

Lemma created_admin_witness :
  let w := admin_desk "event_admin" in
  let w' := exec (AdminUserManagement.handleCreateAdmin
                    (Some cse_admin) "2025-04-08" "2025-04-09") w in
  let row := Admin.mk "U2" "new@example.org" "event_admin"
                      (Val "D1") (Val "E1") "2025-04-08" "2025-04-09" in
  In row (Backend.admins (backend w'))
  /\ ~ In row (Backend.admins (backend w))
  /\ scoped (AdminUserManagement.events (ui w)) row.
Proof.
  cbv zeta.
  assert (new : In (Admin.mk "U2" "new@example.org" "event_admin"
                      (Val "D1") (Val "E1") "2025-04-08" "2025-04-09")
                   (Backend.admins
                      (backend
                         (exec (AdminUserManagement.handleCreateAdmin
                                  (Some cse_admin) "2025-04-08" "2025-04-09")
                               (admin_desk "event_admin"))))).
  { vm_compute. tauto. }
  assert (old : ~ In (Admin.mk "U2" "new@example.org" "event_admin"
                        (Val "D1") (Val "E1") "2025-04-08" "2025-04-09")
                     (Backend.admins (backend (admin_desk "event_admin")))).
  { cbn. intros [H|[H|[H|[]]]]; discriminate. }
  split; [exact new|]. split; [exact old|].
  exact (proj1 (created_admin_is_scoped (Some cse_admin)
                  "2025-04-08" "2025-04-09" (admin_desk "event_admin") _
                  new old)).
Defined.

(** ** C4: what a submission stores *)

Section RegistrationPageFacts.
Import RegistrationPage.
Variable u : User.t.
Variable p : Profile.t.
Variable uuidv4 : string.
Variable data : RegistrationFormValues.t.

Lemma onSubmit_ok (e : Event.t) (w : World State) :
  event (ui w) = Some e ->
  faults w (sent w) = None ->
  exec (onSubmit (Some u) (Some p) uuidv4 data) w
  = submitted u uuidv4 data e w.
Proof.
  intros He Hf. unfold onSubmit. run. rewrite He. proj. rewrite Hf. proj.
  unfold submitted.
  destruct (String.eqb (RegistrationFormValues.paymentMethod data)
                       "QR Code"); reflexivity.
Qed.

Lemma submitted_event (e : Event.t) (w : World State) :
  event (ui w) = Some e ->
  event (ui (submitted u uuidv4 data e w)) = Some e.
Proof.
  intros He. unfold submitted. cbn [ui].
  destruct (String.eqb _ "QR Code"); exact He.
Qed.
End RegistrationPageFacts.

(** C4.  A submission that the backend accepts appends one row whose
    payment_status is "Pending", whose team_id is "TEAM-" followed by the
    first eight characters of the generated uuid, and whose event_id,
    user_id, team_members and payment_method are those submitted.  Nothing
    looks at the rows already stored: the same user submitting again for
    the same event gets a second row. *)
Theorem submission_is_stored :
  forall (u : User.t) (p : Profile.t) (uuidv4 : string)
         (data : RegistrationFormValues.t) (e : Event.t)
         (w : World RegistrationPage.State),
    RegistrationPage.event (ui w) = Some e ->
    faults w (sent w) = None ->
    let submit := RegistrationPage.onSubmit (Some u) (Some p) uuidv4 data in
    let w' := exec submit w in
    (exists row,
        Backend.registrations (backend w')
        = (Backend.registrations (backend w) ++ [row])%list
        /\ Registration.payment_status row = "Pending"
        /\ Registration.team_id row = "TEAM-" ++ String.substring 0 8 uuidv4
        /\ String.prefix "TEAM-" (Registration.team_id row) = true
        /\ Registration.event_id row = Event.id e
        /\ Registration.user_id row = User.id u
        /\ Registration.team_members row
           = RegistrationFormValues.teamMembers data
        /\ Registration.payment_method row
           = RegistrationFormValues.paymentMethod data)
    /\ (faults w (S (sent w)) = None ->
        exists first second,
          Backend.registrations (backend (exec submit w'))
          = (Backend.registrations (backend w) ++ [first; second])%list
          /\ Registration.event_id first = Registration.event_id second
          /\ Registration.user_id first = Registration.user_id second).
Proof.
  intros u p uuidv4 data e w He Hf submit w'. subst submit w'.
  rewrite (onSubmit_ok u p uuidv4 data e w He Hf).
  split.
  - eexists. split; [reflexivity|]. cbn. repeat split; try reflexivity.
    now destruct (substring 0 8 uuidv4).
  - intros Hf2.
    rewrite (onSubmit_ok u p uuidv4 data e (submitted u uuidv4 data e w)).
    + unfold submitted at 1. cbn [backend Backend.registrations].
      unfold submitted at 1. cbn [backend Backend.registrations].
      rewrite <- app_assoc. cbn [app].
      do 2 eexists. split; [reflexivity|]. split; reflexivity.
    + now apply submitted_event.
    + exact Hf2.
Qed.

Lemma submission_witness :
  RegistrationPage.event (ui quiz_page) = Some quiz
  /\ faults quiz_page (sent quiz_page) = None
  /\ exists row,
      Backend.registrations
        (backend (exec (RegistrationPage.onSubmit
                          (Some asha_user) (Some asha_profile)
                          "3f2504e0-4f89-41d3-9a0c-0305e82c3301" solo_entry)
                       quiz_page))
      = (Backend.registrations (backend quiz_page) ++ [row])%list
      /\ Registration.team_id row = "TEAM-3f2504e0".
Proof.
  split; [reflexivity|]. split; [reflexivity|].
  destruct (proj1 (submission_is_stored asha_user asha_profile
                     "3f2504e0-4f89-41d3-9a0c-0305e82c3301" solo_entry
                     quiz quiz_page eq_refl eq_refl))
    as (row & Hrows & _ & Hteam & _).
  exists row. split; [exact Hrows|exact Hteam].
Defined.

(** ** C5: what the registration form accepts *)

(** C5.  The schema checks the length of a phone, not that it is made of
    digits: a member whose phone is the ten letters "abcdefghij" is
    accepted, though that phone is not 10 to 13 digits, and submitting
    that member on the quiz's page stores the row. *)
Lemma letters_pass_as_phone :
  createRegistrationSchema 1 (RegistrationFormValues.mk "Cash" [lettered])
  = true
  /\ phone_is_10_to_13_digits lettered = false
  /\ map Registration.team_members
         (Backend.registrations
            (backend
               (exec (RegistrationPage.handleSubmit
                        (Some asha_user) (Some asha_profile)
                        "3f2504e0-4f89-41d3-9a0c-0305e82c3301"
                        (RegistrationFormValues.mk "Cash" [lettered]))
                     quiz_page)))
     = [[asha]; [lettered]].
Proof. repeat split. Qed.

Lemma teamMemberSchema_bounds (m : TeamMember.t) :
  teamMemberSchema m = true <-> member_in_bounds m.
Proof.
  unfold teamMemberSchema, member_in_bounds, z.string_min, z.string_max.
  rewrite !andb_true_iff, !Nat.leb_le. tauto.
Qed.

Lemma createRegistrationSchema_bounds (teamSize : Z)
  (v : RegistrationFormValues.t) :
  createRegistrationSchema teamSize v = true
  <-> (1 <= String.length (RegistrationFormValues.paymentMethod v))%nat
      /\ Forall member_in_bounds (RegistrationFormValues.teamMembers v)
      /\ (1 <= Z.of_nat (List.length (RegistrationFormValues.teamMembers v))
          <= teamSize)%Z.
Proof.
  unfold createRegistrationSchema, z.string_min, z.array_min, z.array_max.
  rewrite !andb_true_iff, Nat.leb_le, !Z.leb_le, forallb_forall, Forall_forall.
  split.
  - intros (Hp & (Hm & Hlo) & Hhi).
    split; [exact Hp|]. split; [|split; assumption].
    intros m Hin. now apply teamMemberSchema_bounds, Hm.
  - intros (Hp & Hm & Hlo & Hhi).
    split; [exact Hp|]. split; [split|]; try assumption.
    intros m Hin. now apply teamMemberSchema_bounds, Hm.
Qed.

(** ** C10: the live counter *)

Lemma count_payment_status_occ (s : string) (b : Backend.t) :
  Db.count_payment_status s b
  = Z.of_nat (count_occ string_dec (statuses b) s).
Proof.
  unfold Db.count_payment_status, statuses. f_equal.
  induction (Backend.registrations b) as [|r l IH]; [reflexivity|].
  cbn [filter map count_occ].
  destruct (String.eqb_spec (Registration.payment_status r) s) as [E|E];
    destruct (string_dec (Registration.payment_status r) s);
    try congruence; cbn [List.length]; now rewrite IH.
Qed.

(** C10.  After a fetch that the backend answers, the number on display
    is the number of registration rows whose payment_status is exactly
    "Verified"; rows that are "Pending" or "Rejected" are not in it. *)
Theorem live_counter_counts_verified :
  forall w : World LiveCounter.State,
    faults w (sent w) = None ->
    let w' := exec LiveCounter.fetchStats w in
    LiveCounter.registrationCount (ui w')
    = Some (Z.of_nat (count_occ string_dec (statuses (backend w)) "Verified"))
    /\ (count_occ string_dec (statuses (backend w)) "Verified"
        + (count_occ string_dec (statuses (backend w)) "Pending"
           + count_occ string_dec (statuses (backend w)) "Rejected")
        <= List.length (Backend.registrations (backend w)))%nat
    /\ backend w' = backend w.
Proof.
  intros w Hf w'. subst w'. unfold LiveCounter.fetchStats. run.
  rewrite Hf. proj. split; [|split; [|reflexivity]].
  - unfold LiveCounter.setRegistrationCount. cbn.
    now rewrite count_payment_status_occ.
  - unfold statuses.
    rewrite <- (length_map Registration.payment_status).
    induction (map Registration.payment_status _) as [|x l IH];
      [reflexivity|].
    cbn [count_occ List.length].
    destruct (string_dec x "Verified"), (string_dec x "Pending"),
      (string_dec x "Rejected"); subst; try discriminate; lia.
Qed.

Lemma live_counter_witness :
  faults (counter three_entries) (sent (counter three_entries)) = None
  /\ LiveCounter.registrationCount
       (ui (exec LiveCounter.fetchStats (counter three_entries)))
     = Some 1%Z.
Proof.
  split; [reflexivity|].
  exact (proj1 (live_counter_counts_verified (counter three_entries)
                  eq_refl)).
Defined.

(** * Further properties *)

(** ** The registrations desk: failures, composition, the list on screen *)

Lemma update_payment_status_twice (rid s1 s2 : string) (b : Backend.t) :
  Db.update_payment_status rid s2 (Db.update_payment_status rid s1 b)
  = Db.update_payment_status rid s2 b.
Proof.
  unfold Db.update_payment_status, Db.set_registrations.
  cbn [Backend.registrations Backend.events Backend.admins
       Backend.departments Backend.generated].
  f_equal. rewrite map_map. apply map_ext. intros r.
  destruct (String.eqb (Registration.id r) rid) eqn:E.
  - destruct r. cbn in *. now rewrite E.
  - now rewrite E.
Qed.

Lemma mark_local_twice (rid s1 s2 : string)
  (s : RegistrationsManagement.State) :
  RegistrationsManagement.mark_local rid s2
    (RegistrationsManagement.mark_local rid s1 s)
  = RegistrationsManagement.mark_local rid s2 s.
Proof.
  unfold RegistrationsManagement.mark_local.
  cbn [RegistrationsManagement.registrations].
  f_equal. rewrite map_map. apply map_ext. intros r.
  destruct (String.eqb (RegistrationWithDetails.id r) rid) eqn:E.
  - destruct r as [reg ev dep]. destruct reg.
    unfold RegistrationWithDetails.id in *. cbn in *. now rewrite E.
  - now rewrite E.
Qed.

Section StatusFailures.
Import RegistrationsManagement.
Variable adminDetails : option Admin.t.
Variable registration : RegistrationWithDetails.t.
Variable w : World State.
Variable message : string.
Hypothesis allowed : canModifyRegistration adminDetails registration = true.
Hypothesis fault : faults w (sent w) = Some message.

Lemma verify_failed :
  exec (handleVerifyRegistration adminDetails registration) w
  = status_failed w "Error verifying payment" message.
Proof.
  unfold handleVerifyRegistration. rewrite allowed. run.
  rewrite fault. reflexivity.
Qed.

Lemma reject_failed :
  exec (handleRejectRegistration adminDetails registration) w
  = status_failed w "Error rejecting payment" message.
Proof.
  unfold handleRejectRegistration. rewrite allowed. run.
  rewrite fault. reflexivity.
Qed.

Lemma reset_failed :
  exec (handleResetPaymentStatus adminDetails registration) w
  = status_failed w "Error resetting status" message.
Proof.
  unfold handleResetPaymentStatus. rewrite allowed. run.
  rewrite fault. reflexivity.
Qed.
End StatusFailures.

(** X1.  When the backend turns the update down, each of the three status
    handlers shows a destructive toast carrying the backend's message (or
    "Please try again later." when the message is empty) and changes
    neither the table nor the list on screen. *)
Theorem status_failure_changes_nothing :
  forall (adminDetails : option Admin.t)
         (registration : RegistrationWithDetails.t)
         (w : World RegistrationsManagement.State) (message : string),
    RegistrationsManagement.canModifyRegistration adminDetails registration
      = true ->
    faults w (sent w) = Some message ->
    forall run_it title,
      In (run_it, title)
         [(RegistrationsManagement.handleVerifyRegistration
             adminDetails registration, "Error verifying payment");
          (RegistrationsManagement.handleRejectRegistration
             adminDetails registration, "Error rejecting payment");
          (RegistrationsManagement.handleResetPaymentStatus
             adminDetails registration, "Error resetting status")] ->
      let w' := exec run_it w in
      backend w' = backend w
      /\ ui w' = ui w
      /\ toasts w'
         = (toasts w
            ++ [mkToast Destructive title
                  (if String.eqb message ""
                   then "Please try again later." else message)])%list.
Proof.
  intros adminDetails registration w message Hcan Hf run_it title Hin.
  assert (shape : forall t,
             let w' := status_failed w t message in
             backend w' = backend w
             /\ ui w' = ui w
             /\ toasts w'
                = (toasts w
                   ++ [mkToast Destructive t
                         (if String.eqb message ""
                          then "Please try again later."
                          else message)])%list).
  { intros t. unfold status_failed, or_else, truthy. cbn.
    destruct (String.eqb message ""); auto. }
  destruct Hin as [E | [E | [E | []]]]; injection E as <- <-; cbv zeta.
  - rewrite (verify_failed adminDetails registration w message Hcan Hf).
    apply shape.
  - rewrite (reject_failed adminDetails registration w message Hcan Hf).
    apply shape.
  - rewrite (reset_failed adminDetails registration w message Hcan Hf).
    apply shape.
Qed.

Lemma status_failure_witness :
  RegistrationsManagement.canModifyRegistration
    (Some root_admin) (hack_row "Pending") = true
  /\ faults desk_offline (sent desk_offline) = Some ""
  /\ toasts (exec (RegistrationsManagement.handleRejectRegistration
                     (Some root_admin) (hack_row "Pending")) desk_offline)
     = [mkToast Destructive "Error rejecting payment"
          "Please try again later."].
Proof.
  split; [reflexivity|]. split; [reflexivity|].
  exact (proj2 (proj2
           (status_failure_changes_nothing
              (Some root_admin) (hack_row "Pending") desk_offline ""
              eq_refl eq_refl _ _ (or_intror (or_introl eq_refl))))).
Defined.

(** X2.  The status handlers do not look at the status a registration
    has: after any of the three, a second one (both accepted by the
    backend) leaves the table and the list on screen as if it alone had
    run on the state before the first. *)
Theorem status_last_write_wins :
  forall (adminDetails : option Admin.t)
         (registration : RegistrationWithDetails.t)
         (w : World RegistrationsManagement.State),
    RegistrationsManagement.canModifyRegistration adminDetails registration
      = true ->
    faults w (sent w) = None ->
    faults w (S (sent w)) = None ->
    forall first second,
      In first
         [RegistrationsManagement.handleVerifyRegistration
            adminDetails registration;
          RegistrationsManagement.handleRejectRegistration
            adminDetails registration;
          RegistrationsManagement.handleResetPaymentStatus
            adminDetails registration] ->
      In second
         [RegistrationsManagement.handleVerifyRegistration
            adminDetails registration;
          RegistrationsManagement.handleRejectRegistration
            adminDetails registration;
          RegistrationsManagement.handleResetPaymentStatus
            adminDetails registration] ->
      backend (exec second (exec first w)) = backend (exec second w)
      /\ ui (exec second (exec first w)) = ui (exec second w).
Proof.
  intros adminDetails registration w Hcan Hf1 Hf2 first second H1 H2.
  assert (after : forall s t x,
             faults (status_written registration w s t x)
                    (sent (status_written registration w s t x)) = None)
    by (intros; exact Hf2).
  destruct H1 as [<- | [<- | [<- | []]]];
    [rewrite (verify_ok adminDetails registration w Hcan Hf1)
    |rewrite (reject_ok adminDetails registration w Hcan Hf1)
    |rewrite (reset_ok adminDetails registration w Hcan Hf1)];
    (destruct H2 as [<- | [<- | [<- | []]]];
     [rewrite (verify_ok adminDetails registration _ Hcan (after _ _ _)),
        (verify_ok adminDetails registration w Hcan Hf1)
     |rewrite (reject_ok adminDetails registration _ Hcan (after _ _ _)),
        (reject_ok adminDetails registration w Hcan Hf1)
     |rewrite (reset_ok adminDetails registration _ Hcan (after _ _ _)),
        (reset_ok adminDetails registration w Hcan Hf1)]);
    unfold status_written; cbn [backend ui];
    now rewrite update_payment_status_twice, mark_local_twice.
Qed.

Lemma status_last_write_witness :
  RegistrationsManagement.canModifyRegistration
    (Some root_admin) (hack_row "Pending") = true
  /\ map Registration.payment_status
       (Backend.registrations
          (backend
             (exec (RegistrationsManagement.handleResetPaymentStatus
                      (Some root_admin) (hack_row "Pending"))
                (exec (RegistrationsManagement.handleVerifyRegistration
                         (Some root_admin) (hack_row "Pending"))
                      (desk "Pending")))))
     = ["Pending"].
Proof.
  split; [reflexivity|].
  rewrite (proj1 (status_last_write_wins
                    (Some root_admin) (hack_row "Pending") (desk "Pending")
                    eq_refl eq_refl eq_refl _ _
                    (or_introl eq_refl)
                    (or_intror (or_intror (or_introl eq_refl))))).
  reflexivity.
Defined.

(** X3.  Whatever a status handler does (refuse, fail or write), it keeps
    the list on screen inside the table: if every registration shown was a
    row of the table before, every registration shown is a row of the
    table after. *)
Theorem status_handlers_keep_screen_in_table :
  forall (adminDetails : option Admin.t)
         (registration : RegistrationWithDetails.t)
         (w : World RegistrationsManagement.State),
    on_screen_in_table w ->
    on_screen_in_table
      (exec (RegistrationsManagement.handleVerifyRegistration
               adminDetails registration) w)
    /\ on_screen_in_table
         (exec (RegistrationsManagement.handleRejectRegistration
                  adminDetails registration) w)
    /\ on_screen_in_table
         (exec (RegistrationsManagement.handleResetPaymentStatus
                  adminDetails registration) w).
Proof.
  intros adminDetails registration w Hw.
  assert (written : forall s t x,
             on_screen_in_table (status_written registration w s t x)).
  { intros s t x r. unfold status_written.
    cbn [ui backend RegistrationsManagement.mark_local
         RegistrationsManagement.registrations
         Db.update_payment_status Db.set_registrations
         Backend.registrations].
    rewrite !in_map_iff. intros (r0 & <- & Hin).
    exists (RegistrationWithDetails.reg r0). split; [|now apply Hw].
    unfold RegistrationWithDetails.id.
    now destruct (String.eqb _ _). }
  destruct (RegistrationsManagement.canModifyRegistration
              adminDetails registration) eqn:Hcan.
  - destruct (faults w (sent w)) as [message|] eqn:Hf.
    + rewrite (verify_failed adminDetails registration w message Hcan Hf),
        (reject_failed adminDetails registration w message Hcan Hf),
        (reset_failed adminDetails registration w message Hcan Hf).
      repeat split; exact Hw.
    + rewrite (verify_ok adminDetails registration w Hcan Hf),
        (reject_ok adminDetails registration w Hcan Hf),
        (reset_ok adminDetails registration w Hcan Hf).
      repeat split; apply written.
  - rewrite (verify_denied adminDetails registration w Hcan),
      (reject_denied adminDetails registration w Hcan),
      (reset_denied adminDetails registration w Hcan).
    repeat split; exact Hw.
Qed.

Lemma status_handlers_keep_screen_witness :
  on_screen_in_table (desk "Pending")
  /\ on_screen_in_table
       (exec (RegistrationsManagement.handleVerifyRegistration
                (Some root_admin) (hack_row "Pending")) (desk "Pending")).
Proof.
  assert (start : on_screen_in_table (desk "Pending")).
  { intros r [<- | []]. left. reflexivity. }
  split; [exact start|].
  exact (proj1 (status_handlers_keep_screen_in_table
                  (Some root_admin) (hack_row "Pending") (desk "Pending")
                  start)).
Defined.

(** ** Loading the registrations list *)

Lemma in_insert_by {A} (le : A -> A -> bool) (x y : A) (l : list A) :
  In x (insert_by le y l) <-> x = y \/ In x l.
Proof.
  induction l as [|z l IH]; cbn [insert_by].
  - cbn. intuition auto.
  - destruct (le y z); cbn [In]; [intuition auto|].
    rewrite IH. intuition auto.
Qed.

Lemma in_sort_by {A} (le : A -> A -> bool) (x : A) (l : list A) :
  In x (sort_by le l) <-> In x l.
Proof.
  unfold sort_by. induction l as [|y l IH]; cbn [fold_right In].
  - tauto.
  - rewrite in_insert_by, IH. intuition auto.
Qed.

Lemma or_else_empty (x : string) : or_else x "" = x.
Proof.
  unfold or_else, truthy. destruct (String.eqb_spec x ""); cbn; congruence.
Qed.

Lemma enhanced_reg (reg : Registration.t) (event : Event.t)
  (department : option Department.t) :
  RegistrationWithDetails.reg
    (RegistrationsListing.enhanced reg event department) = reg.
Proof.
  unfold RegistrationsListing.enhanced. cbn [RegistrationWithDetails.reg].
  destruct reg as [i e u t members st m c up]. cbn. f_equal.
  rewrite <- (map_id members) at 2. apply map_ext.
  intros [n s p]. unfold RegistrationsListing.normalise. cbn.
  now rewrite !or_else_empty.
Qed.

Lemma in_enhance (eventData : list Event.t) (deptData : list Department.t)
  (regData : list Registration.t) (r : RegistrationWithDetails.t) :
  In r (RegistrationsListing.enhance eventData deptData regData)
  <-> exists reg event,
      In reg regData
      /\ find (fun e => String.eqb (Event.id e) (Registration.event_id reg))
              eventData = Some event
      /\ r = RegistrationsListing.enhanced reg event
               (find (fun d => String.eqb (Department.id d)
                                          (Event.department_id event))
                     deptData).
Proof.
  induction regData as [|reg rest IH]; cbn [RegistrationsListing.enhance].
  - split; [intros []|intros (? & ? & [] & _)].
  - destruct (find _ eventData) as [event|] eqn:Hfind; cbn [In];
      rewrite ?IH; split.
    + intros [<- | (reg' & event' & Hin & Hf & ->)].
      * exists reg, event. auto.
      * exists reg', event'. auto.
    + intros (reg' & event' & [<- | Hin] & Hf & ->).
      * left. rewrite Hfind in Hf. now injection Hf as <-.
      * right. exists reg', event'. auto.
    + intros (reg' & event' & Hin & Hf & ->).
      exists reg', event'. auto.
    + intros (reg' & event' & [<- | Hin] & Hf & ->).
      * rewrite Hfind in Hf. discriminate.
      * exists reg', event'. auto.
Qed.

Lemma answered_next {St} (w : World St) (n k : nat) :
  answered w n -> (k < n)%nat -> faults w (k + sent w) = None.
Proof. intros H Hk. rewrite Nat.add_comm. now apply H. Qed.

Section ListingFacts.
Import RegistrationsListing.
Variable adminDetails : option Admin.t.
Variable w : World State.

(** With the three requests answered, the list is the join of the three
    query results, also when a department without events cuts the
    sequence short. *)
Lemma fetchData_listed :
  answered w 3 ->
  listed adminDetails w
  = enhance (eventQuery adminDetails (backend w))
            (Backend.departments (backend w))
            (registrationQuery adminDetails
               (eventQuery adminDetails (backend w)) (backend w)).
Proof.
  intros Hans.
  pose proof (answered_next w 3 0 Hans ltac:(lia)) as H0.
  pose proof (answered_next w 3 1 Hans ltac:(lia)) as H1.
  pose proof (answered_next w 3 2 Hans ltac:(lia)) as H2.
  cbn [Nat.add] in H0, H1, H2.
  unfold listed, fetchData. run. rewrite H0. proj. rewrite H1. proj.
  destruct (department_scope adminDetails) as [d|] eqn:Hd.
  - destruct (deptEventIds d (eventQuery adminDetails (backend w)))
      as [|i ids] eqn:Hids; cbn [List.length Nat.eqb]; proj.
    + unfold registrationQuery. rewrite Hd, Hids. cbn [existsb].
      replace (filter (fun _ => false) (Backend.registrations (backend w)))
        with (@nil Registration.t)
        by (induction (Backend.registrations (backend w)); auto).
      reflexivity.
    + rewrite H2. reflexivity.
  - proj. rewrite H2. reflexivity.
Qed.
End ListingFacts.

Lemma find_event_by_id (es : list Event.t) (eid : string) (e : Event.t) :
  find (fun x => String.eqb (Event.id x) eid) es = Some e ->
  In e es /\ Event.id e = eid.
Proof.
  intros H. apply find_some in H. now rewrite String.eqb_eq in H.
Qed.

Lemma in_eventQuery (adminDetails : option Admin.t) (b : Backend.t)
  (e : Event.t) :
  In e (RegistrationsListing.eventQuery adminDetails b) ->
  In e (Backend.events b).
Proof.
  unfold RegistrationsListing.eventQuery.
  destruct (RegistrationsListing.department_scope adminDetails);
    [|destruct (RegistrationsListing.event_scope adminDetails)];
    rewrite ?filter_In; tauto.
Qed.

Lemma in_registrationQuery (adminDetails : option Admin.t)
  (eventData : list Event.t) (b : Backend.t) (r : Registration.t) :
  In r (RegistrationsListing.registrationQuery adminDetails eventData b) ->
  In r (Backend.registrations b).
Proof.
  unfold RegistrationsListing.registrationQuery,
    RegistrationsListing.newest_first.
  rewrite in_sort_by.
  destruct (RegistrationsListing.department_scope adminDetails);
    [|destruct (RegistrationsListing.event_scope adminDetails)];
    rewrite ?filter_In; tauto.
Qed.

(** X4.  After a load whose three requests are answered, every
    registration on screen carries the columns of a row of the table
    (team_members aside, which the load rebuilds), joined with the event
    row whose id is its event_id and with the department row of that
    event (none if there is no such department). *)
Theorem listed_rows_are_joined :
  forall (adminDetails : option Admin.t)
         (w : World RegistrationsListing.State)
         (r : RegistrationWithDetails.t),
    answered w 3 ->
    In r (listed adminDetails w) ->
    (exists row,
        In row (Backend.registrations (backend w))
        /\ same_but_team_members row (RegistrationWithDetails.reg r))
    /\ In (RegistrationWithDetails.event r) (Backend.events (backend w))
    /\ Event.id (RegistrationWithDetails.event r)
       = RegistrationWithDetails.event_id r
    /\ RegistrationWithDetails.department r
       = find (fun d => String.eqb
                          (Department.id d)
                          (Event.department_id
                             (RegistrationWithDetails.event r)))
              (Backend.departments (backend w)).
Proof.
  intros adminDetails w r Hans Hin.
  rewrite fetchData_listed in Hin by exact Hans.
  apply in_enhance in Hin. destruct Hin as (reg & event & Hreg & Hf & ->).
  apply find_event_by_id in Hf. destruct Hf as [He Hid].
  unfold RegistrationWithDetails.event_id.
  cbn [RegistrationsListing.enhanced RegistrationWithDetails.event
       RegistrationWithDetails.department RegistrationWithDetails.reg
       Registration.event_id].
  split; [|split; [|split]].
  - exists reg. split; [now apply in_registrationQuery in Hreg|].
    unfold same_but_team_members. cbn. auto 10.
  - now apply in_eventQuery in He.
  - exact Hid.
  - reflexivity.
Qed.

Lemma listed_rows_witness :
  answered listing_desk 3
  /\ map (fun r => (RegistrationWithDetails.id r,
                    Event.title (RegistrationWithDetails.event r)))
         (listed (Some root_admin) listing_desk)
     = [("R5", "Quiz"); ("R1", "Hackathon")]
  /\ forall r, In r (listed (Some root_admin) listing_desk) ->
               Event.id (RegistrationWithDetails.event r)
               = RegistrationWithDetails.event_id r.
Proof.
  assert (ok : answered listing_desk 3) by (intros k _; reflexivity).
  split; [exact ok|]. split; [reflexivity|].
  intros r Hin.
  exact (proj1 (proj2 (proj2 (listed_rows_are_joined
                                (Some root_admin) listing_desk r ok Hin)))).
Defined.

Lemma scopes_of_main (a : Admin.t) :
  Admin.role a = "main_admin" ->
  RegistrationsListing.department_scope (Some a) = None
  /\ RegistrationsListing.event_scope (Some a) = None.
Proof.
  intros H. unfold RegistrationsListing.department_scope,
    RegistrationsListing.event_scope. now rewrite H.
Qed.

Lemma scopes_of_department (a : Admin.t) (d : string) :
  Admin.role a = "department_admin" ->
  Admin.department_id a = Val d -> d <> "" ->
  RegistrationsListing.department_scope (Some a) = Some d.
Proof.
  intros Hr Hd Hne. unfold RegistrationsListing.department_scope.
  rewrite Hr, Hd. cbn. now rewrite (proj2 (truthy_true d) Hne).
Qed.

Lemma scopes_of_event (a : Admin.t) (e : string) :
  Admin.role a = "event_admin" ->
  Admin.event_id a = Val e -> e <> "" ->
  RegistrationsListing.department_scope (Some a) = None
  /\ RegistrationsListing.event_scope (Some a) = Some e.
Proof.
  intros Hr He Hne. unfold RegistrationsListing.department_scope,
    RegistrationsListing.event_scope.
  rewrite Hr, He. cbn. now rewrite (proj2 (truthy_true e) Hne).
Qed.

Lemma scopes_of_lacking (a : Admin.t) :
  lacks_scope a ->
  RegistrationsListing.department_scope (Some a) = None
  /\ RegistrationsListing.event_scope (Some a) = None.
Proof.
  unfold RegistrationsListing.department_scope,
    RegistrationsListing.event_scope.
  intros [[Hr Hn] | [Hr Hn]]; rewrite Hr, Hn; split; reflexivity.
Qed.

(** X5.  What a scoped admin is shown, the admin may change: for a main
    admin, a department admin with a department or an event admin with an
    event, [canModifyRegistration] holds of every registration on screen
    after a load whose requests are answered. *)
Theorem listed_rows_are_modifiable :
  forall (a : Admin.t) (w : World RegistrationsListing.State)
         (r : RegistrationWithDetails.t),
    has_scope a ->
    answered w 3 ->
    In r (listed (Some a) w) ->
    RegistrationsManagement.canModifyRegistration (Some a) r = true.
Proof.
  intros a w r Hscope Hans Hin.
  rewrite fetchData_listed in Hin by exact Hans.
  apply in_enhance in Hin. destruct Hin as (reg & event & Hreg & Hf & ->).
  apply find_event_by_id in Hf. destruct Hf as [He Hid].
  unfold RegistrationsManagement.canModifyRegistration, role_is,
    RegistrationWithDetails.event_id.
  rewrite enhanced_reg.
  cbn [RegistrationsListing.enhanced RegistrationWithDetails.event].
  destruct Hscope as [Hm | [(Hr & d & Hd & Hne) | (Hr & e & Hev & Hne)]].
  - now rewrite Hm.
  - rewrite Hr, Hd. cbn [String.eqb Ascii.eqb Bool.eqb andb].
    unfold RegistrationsListing.eventQuery in He.
    rewrite (scopes_of_department a d Hr Hd Hne) in He.
    apply filter_In in He. destruct He as [_ He].
    cbn [strict_eq]. now rewrite He.
  - rewrite Hr, Hev. cbn [String.eqb Ascii.eqb Bool.eqb andb].
    unfold RegistrationsListing.registrationQuery,
      RegistrationsListing.newest_first in Hreg.
    destruct (scopes_of_event a e Hr Hev Hne) as [Hsd Hse].
    rewrite Hsd, Hse, in_sort_by in Hreg.
    apply filter_In in Hreg. destruct Hreg as [_ Hreg].
    cbn [strict_eq]. now rewrite Hreg.
Qed.

Lemma listed_rows_modifiable_witness :
  has_scope quiz_admin
  /\ answered listing_desk 3
  /\ map RegistrationWithDetails.id (listed (Some quiz_admin) listing_desk)
     = ["R5"]
  /\ forall r, In r (listed (Some quiz_admin) listing_desk) ->
               RegistrationsManagement.canModifyRegistration
                 (Some quiz_admin) r = true.
Proof.
  assert (scope : has_scope quiz_admin).
  { right. right. split; [reflexivity|].
    exists "E1". split; [reflexivity|discriminate]. }
  assert (ok : answered listing_desk 3) by (intros k _; reflexivity).
  split; [exact scope|]. split; [exact ok|]. split; [reflexivity|].
  intros r Hin.
  exact (listed_rows_are_modifiable quiz_admin listing_desk r scope ok Hin).
Defined.

(** X6.  A department admin whose row has no department_id, or an event
    admin whose row has no event_id, is served the unrestricted queries
    (the load runs exactly as for a main admin), but
    [canModifyRegistration] refuses every registration. *)
Theorem unscoped_admin_sees_all_changes_none :
  forall (a m : Admin.t) (w : World RegistrationsListing.State),
    lacks_scope a ->
    Admin.role m = "main_admin" ->
    exec (RegistrationsListing.fetchData (Some a)) w
    = exec (RegistrationsListing.fetchData (Some m)) w
    /\ forall r,
        RegistrationsManagement.canModifyRegistration (Some a) r = false.
Proof.
  intros a m w Hlack Hmain.
  destruct (scopes_of_lacking a Hlack) as [Had Hae].
  destruct (scopes_of_main m Hmain) as [Hmd Hme].
  split.
  - unfold RegistrationsListing.fetchData,
      RegistrationsListing.eventQuery,
      RegistrationsListing.registrationQuery.
    now rewrite Had, Hae, Hmd, Hme.
  - intros r.
    unfold RegistrationsManagement.canModifyRegistration, role_is.
    destruct Hlack as [[Hr Hn] | [Hr Hn]]; rewrite Hr, Hn; reflexivity.
Qed.

Lemma unscoped_admin_witness :
  lacks_scope lost_admin
  /\ Admin.role root_admin = "main_admin"
  /\ map RegistrationWithDetails.id (listed (Some lost_admin) listing_desk)
     = ["R5"; "R1"]
  /\ forallb (RegistrationsManagement.canModifyRegistration
                (Some lost_admin))
             (listed (Some lost_admin) listing_desk)
     = false.
Proof.
  assert (lack : lacks_scope lost_admin) by (left; split; reflexivity).
  split; [exact lack|]. split; [reflexivity|]. split.
  - unfold listed.
    rewrite (proj1 (unscoped_admin_sees_all_changes_none
                      lost_admin root_admin listing_desk lack eq_refl)).
    reflexivity.
  - reflexivity.
Defined.

Lemma find_event_exists (es : list Event.t) (eid : string) :
  (exists e, In e es /\ Event.id e = eid) ->
  exists e, find (fun x => String.eqb (Event.id x) eid) es = Some e.
Proof.
  intros (e & Hin & Hid).
  destruct (find (fun x => String.eqb (Event.id x) eid) es) as [e'|] eqn:Hf.
  - now exists e'.
  - exfalso. apply (find_none _ _ Hf) in Hin.
    rewrite Hid, String.eqb_refl in Hin. discriminate.
Qed.

(** X7.  For a main admin, a load whose requests are answered shows
    exactly the registrations whose event_id is the id of an event row:
    a registration that points at no event is left out without a word. *)
Theorem main_admin_sees_registrations_with_event :
  forall (m : Admin.t) (w : World RegistrationsListing.State)
         (x : Registration.t),
    Admin.role m = "main_admin" ->
    answered w 3 ->
    ((exists r, In r (listed (Some m) w)
                /\ RegistrationWithDetails.reg r = x)
     <-> In x (Backend.registrations (backend w))
         /\ exists e, In e (Backend.events (backend w))
                      /\ Event.id e = Registration.event_id x).
Proof.
  intros m w x Hmain Hans.
  destruct (scopes_of_main m Hmain) as [Hmd Hme].
  rewrite fetchData_listed by exact Hans.
  unfold RegistrationsListing.eventQuery,
    RegistrationsListing.registrationQuery,
    RegistrationsListing.newest_first.
  rewrite Hmd, Hme. split.
  - intros (r & Hin & <-).
    apply in_enhance in Hin. destruct Hin as (reg & event & Hreg & Hf & ->).
    rewrite enhanced_reg. apply in_sort_by in Hreg.
    apply find_event_by_id in Hf. split; [exact Hreg|].
    exists event. exact Hf.
  - intros (Hx & Hev).
    destruct (find_event_exists _ _ Hev) as (event & Hf).
    eexists. split.
    + apply in_enhance. exists x, event.
      split; [now apply in_sort_by|]. split; [exact Hf|reflexivity].
    + apply enhanced_reg.
Qed.

Lemma main_admin_sees_witness :
  Admin.role root_admin = "main_admin"
  /\ answered listing_desk 3
  /\ In stray_entry (Backend.registrations (backend listing_desk))
  /\ ~ exists r, In r (listed (Some root_admin) listing_desk)
                 /\ RegistrationWithDetails.reg r = stray_entry.
Proof.
  assert (ok : answered listing_desk 3) by (intros k _; reflexivity).
  split; [reflexivity|]. split; [exact ok|].
  split; [right; left; reflexivity|].
  intros shown.
  apply (proj1 (main_admin_sees_registrations_with_event
                  root_admin listing_desk stray_entry eq_refl ok)) in shown.
  destruct shown as (_ & e & [<- | [<- | []]] & Hid); discriminate.
Defined.

(** ** Deleting an event *)

Lemma zoom_backend {St Part A} (get : St -> Part) (set : Part -> St -> St)
  (m : M Part A) (w : World St) :
  backend (exec (zoom get set m) w)
  = backend (exec m (mkWorld (backend w) (get (ui w)) (toasts w)
                             (faults w) (sent w))).
Proof. unfold exec, zoom. now destruct (m _). Qed.

Lemma strict_eq_true (x y : nullable string) :
  strict_eq x y = true -> x = y.
Proof.
  destruct x, y; cbn; try discriminate; auto.
  intros H. apply String.eqb_eq in H. now subst.
Qed.

Section EventDeletionFacts.
Import EventDeletion.
Variable adminDetails : option Admin.t.
Variable w : World State.
Variable eid : string.
Hypothesis chosen : eventToDelete (ui w) = Val eid.
Hypothesis named : eid <> "".

Lemma handleDeleteEvent_event_admin :
  role_is adminDetails "event_admin" = true ->
  exec (handleDeleteEvent adminDetails) w
  = mkWorld (backend w) (setIsDeleteDialogOpen false (ui w))
            (toasts w ++ [mkToast Destructive "Permission denied"
                            "Event admins cannot delete events."])
            (faults w) (sent w).
Proof.
  intros H. unfold handleDeleteEvent. run. rewrite chosen.
  rewrite (proj2 (truthy_true eid) named). proj. rewrite H. reflexivity.
Qed.

Lemma handleDeleteEvent_foreign :
  role_is adminDetails "event_admin" = false ->
  foreign_event adminDetails (ui w) eid = true ->
  exec (handleDeleteEvent adminDetails) w
  = mkWorld (backend w) (setIsDeleteDialogOpen false (ui w))
            (toasts w
             ++ [mkToast Destructive "Permission denied"
                   "You can only delete events from your department."])
            (faults w) (sent w).
Proof.
  intros H1 H2. unfold handleDeleteEvent. run. rewrite chosen.
  rewrite (proj2 (truthy_true eid) named). proj. rewrite H1, H2.
  reflexivity.
Qed.

Lemma handleDeleteEvent_deleted :
  role_is adminDetails "event_admin" = false ->
  foreign_event adminDetails (ui w) eid = false ->
  faults w (sent w) = None ->
  backend (exec (handleDeleteEvent adminDetails) w)
  = delete_event eid (backend w).
Proof.
  intros H1 H2 Hf. unfold handleDeleteEvent. run. rewrite chosen.
  rewrite (proj2 (truthy_true eid) named). proj. rewrite H1, H2. proj.
  rewrite Hf. proj.
  match goal with
  | |- context [zoom page setPage ?m ?w0] =>
      pose proof (zoom_backend page setPage m w0) as Hb;
      unfold exec in Hb; destruct (zoom page setPage m w0) as [u w1]
  end.
  proj. cbn [snd] in Hb. rewrite Hb.
  match goal with
  | |- context [EventsManagement.fetchData adminDetails ?w0] =>
      pose proof (fetchData_backend adminDetails w0) as Hb2
  end.
  unfold exec in Hb2. rewrite Hb2. reflexivity.
Qed.
End EventDeletionFacts.

(** X8.  [handleDeleteEvent] does nothing at all when no event is chosen.
    For an event admin it always refuses, and for a department admin it
    refuses an event that is not in the list on screen or whose
    department is not the admin's: a "Permission denied" toast, the
    dialog closed, no request sent. *)
Theorem delete_event_refusals :
  forall (adminDetails : option Admin.t) (w : World EventDeletion.State),
    let w' := exec (EventDeletion.handleDeleteEvent adminDetails) w in
    ((forall eid, EventDeletion.eventToDelete (ui w) = Val eid -> eid = "")
     -> w' = w)
    /\ (forall a eid,
           adminDetails = Some a ->
           EventDeletion.eventToDelete (ui w) = Val eid ->
           eid <> "" ->
           Admin.role a = "event_admin"
           \/ (Admin.role a = "department_admin"
               /\ Admin.department_id a <> Undefined
               /\ forall e,
                   find (fun x => String.eqb (Event.id x) eid)
                        (EventsManagement.events
                           (EventDeletion.page (ui w))) = Some e ->
                   Admin.department_id a <> Val (Event.department_id e)) ->
           refused w w'
           /\ EventDeletion.isDeleteDialogOpen (ui w') = false
           /\ EventDeletion.eventToDelete (ui w') = Val eid).
Proof.
  intros adminDetails w w'. subst w'. split.
  - intros Hnone. unfold EventDeletion.handleDeleteEvent. run.
    destruct (EventDeletion.eventToDelete (ui w)) as [| |eid] eqn:E;
      try (now destruct w).
    rewrite (Hnone eid eq_refl). now destruct w.
  - intros a eid -> Hsel Hne [Hrole | (Hrole & Hdef & Hother)].
    + rewrite (handleDeleteEvent_event_admin (Some a) w eid Hsel Hne).
      * unfold refused. cbn. repeat split; eauto.
      * cbn. now rewrite Hrole.
    + rewrite (handleDeleteEvent_foreign (Some a) w eid Hsel Hne).
      * unfold refused. cbn. repeat split; eauto.
      * cbn. now rewrite Hrole.
      * unfold EventDeletion.foreign_event, EventDeletion.listed_department.
        rewrite Hrole. cbn [String.eqb Ascii.eqb Bool.eqb andb].
        apply negb_true_iff.
        destruct (strict_eq _ (Admin.department_id a)) eqn:E;
          [|reflexivity].
        apply strict_eq_true in E. exfalso.
        destruct (find _ _) as [e|] eqn:Hf.
        -- now apply (Hother e).
        -- now apply Hdef.
Qed.

Lemma delete_event_refusals_witness :
  let w := delete_desk "E2" in
  Admin.role cse_admin = "department_admin"
  /\ EventDeletion.eventToDelete (ui w) = Val "E2"
  /\ refused w (exec (EventDeletion.handleDeleteEvent (Some cse_admin)) w)
  /\ refused w (exec (EventDeletion.handleDeleteEvent (Some quiz_admin)) w)
  /\ exec (EventDeletion.handleDeleteEvent (Some root_admin))
          (delete_desk "")
     = delete_desk "".
Proof.
  cbv zeta.
  split; [reflexivity|]. split; [reflexivity|]. split; [|split].
  - apply (proj2 (delete_event_refusals (Some cse_admin) (delete_desk "E2"))
             cse_admin "E2" eq_refl eq_refl); [discriminate|].
    right. split; [reflexivity|]. split; [discriminate|].
    intros e Hf. cbn in Hf. discriminate.
  - apply (proj2 (delete_event_refusals (Some quiz_admin) (delete_desk "E2"))
             quiz_admin "E2" eq_refl eq_refl); [discriminate|].
    left. reflexivity.
  - apply (proj1 (delete_event_refusals (Some root_admin) (delete_desk ""))).
    intros eid [= <-]. reflexivity.
Defined.

(** X9.  A deletion that passes both guards and that the backend accepts
    removes from the events table exactly the rows with the chosen id;
    every other event row stays as it was, in place. *)
Theorem delete_event_removes_chosen :
  forall (adminDetails : option Admin.t) (w : World EventDeletion.State)
         (eid : string),
    EventDeletion.eventToDelete (ui w) = Val eid ->
    eid <> "" ->
    role_is adminDetails "event_admin" = false ->
    EventDeletion.foreign_event adminDetails (ui w) eid = false ->
    faults w (sent w) = None ->
    let w' := exec (EventDeletion.handleDeleteEvent adminDetails) w in
    Backend.events (backend w')
    = filter (fun e => negb (String.eqb (Event.id e) eid))
             (Backend.events (backend w))
    /\ (forall e, In e (Backend.events (backend w')) <->
                  In e (Backend.events (backend w)) /\ Event.id e <> eid).
Proof.
  intros adminDetails w eid Hsel Hne Hrole Hown Hf w'. subst w'.
  rewrite (handleDeleteEvent_deleted adminDetails w eid Hsel Hne Hrole
             Hown Hf).
  unfold EventDeletion.delete_event, Db.set_events. cbn [Backend.events].
  split; [reflexivity|].
  intros e. rewrite filter_In, negb_true_iff.
  destruct (String.eqb_spec (Event.id e) eid); intuition congruence.
Qed.

Lemma delete_event_removes_witness :
  let w := delete_desk "E1" in
  EventDeletion.foreign_event (Some cse_admin) (ui w) "E1" = false
  /\ map Event.id
         (Backend.events
            (backend (exec (EventDeletion.handleDeleteEvent (Some cse_admin))
                           w)))
     = ["E2"].
Proof.
  cbv zeta. split; [reflexivity|].
  rewrite (proj1 (delete_event_removes_chosen
                    (Some cse_admin) (delete_desk "E1") "E1"
                    eq_refl ltac:(discriminate) eq_refl eq_refl eq_refl)).
  reflexivity.
Defined.

(** ** Saving an event: who can write what *)

Section SavingFacts.
Import EventsManagement.
Variable adminDetails : option Admin.t.
Variable values : EventFormValues.t.
Variable w : World State.

Lemma handleAddEdit_backend :
  backend (exec (handleAddEdit adminDetails values) w)
  = saved_backend adminDetails values w.
Proof.
  unfold saved_backend.
  destruct (wrong_department adminDetails values) eqn:H1.
  { now rewrite handleAddEdit_wrong_department. }
  destruct (wrong_event adminDetails (ui w)) eqn:H2.
  { now rewrite handleAddEdit_wrong_event. }
  cbn [orb].
  unfold handleAddEdit. run. rewrite H1, H2. proj.
  destruct (currentEvent (ui w)) as [cur|]; proj;
    (destruct (faults w (sent w)); proj; [reflexivity|]);
    match goal with
    | |- context [fetchData adminDetails ?w0] =>
        pose proof (fetchData_backend adminDetails w0) as Hb;
        unfold exec in Hb; destruct (fetchData adminDetails w0) as [u w1]
    end;
    proj; cbn [snd] in Hb; exact Hb.
Qed.

(** With its two requests answered, [fetchData] puts the query result on
    screen. *)
Lemma fetchData_events (w0 : World State) :
  answered w0 2 ->
  exec (fetchData adminDetails) w0
  = mkWorld (backend w0)
            (setIsLoading false
               (setDepartments (Db.by_name (Backend.departments (backend w0)))
                  (setEvents (eventQuery adminDetails (backend w0))
                     (setIsLoading true (ui w0)))))
            (toasts w0) (faults w0) (S (S (sent w0))).
Proof.
  intros Hans.
  pose proof (answered_next w0 2 0 Hans ltac:(lia)) as H0.
  pose proof (answered_next w0 2 1 Hans ltac:(lia)) as H1.
  cbn [Nat.add] in H0, H1.
  unfold fetchData. run. rewrite H0. proj. rewrite H1. reflexivity.
Qed.
End SavingFacts.

Lemma update_event_ids (eid : string) (d : EventData.t) (b : Backend.t) :
  map Event.id (Backend.events (Db.update_event eid d b))
  = map Event.id (Backend.events b).
Proof.
  unfold Db.update_event, Db.set_events. cbn [Backend.events].
  rewrite map_map. apply map_ext. intros e.
  now destruct (String.eqb (Event.id e) eid).
Qed.

Lemma update_event_rows (eid : string) (d : EventData.t) (b : Backend.t)
  (e' : Event.t) :
  In e' (Backend.events (Db.update_event eid d b)) ->
  In e' (Backend.events b)
  \/ (Event.id e' = eid
      /\ Event.department_id e' = EventData.department_id d).
Proof.
  unfold Db.update_event, Db.set_events. cbn [Backend.events].
  rewrite in_map_iff. intros (e & <- & Hin).
  destruct (String.eqb_spec (Event.id e) eid); auto.
Qed.

Lemma insert_event_rows (d : EventData.t) (b : Backend.t) (e' : Event.t) :
  In e' (Backend.events (Db.insert_event d b)) ->
  In e' (Backend.events b)
  \/ Event.department_id e' = EventData.department_id d.
Proof.
  unfold Db.insert_event, Db.fresh, Db.set_events. cbn [Backend.events].
  rewrite in_app_iff. intros [H | [<- | []]]; auto.
Qed.

(** X10.  Whatever a department admin submits through [handleAddEdit],
    an event row that the save adds or changes carries the admin's own
    department_id. *)
Theorem department_admin_saves_in_own_department :
  forall (a : Admin.t) (values : EventFormValues.t)
         (w : World EventsManagement.State) (e' : Event.t),
    Admin.role a = "department_admin" ->
    In e' (Backend.events
             (backend (exec (EventsManagement.handleAddEdit (Some a) values)
                            w))) ->
    ~ In e' (Backend.events (backend w)) ->
    Admin.department_id a = Val (Event.department_id e').
Proof.
  intros a values w e' Hrole Hnew Hold.
  rewrite handleAddEdit_backend in Hnew. unfold saved_backend in Hnew.
  destruct (EventsManagement.wrong_department (Some a) values) eqn:Hd;
    [contradiction|].
  assert (own : Admin.department_id a
                = Val (EventFormValues.department_id values)).
  { unfold EventsManagement.wrong_department in Hd. rewrite Hrole in Hd.
    cbn [String.eqb Ascii.eqb Bool.eqb andb] in Hd.
    apply negb_false_iff, strict_eq_true in Hd. exact Hd. }
  destruct (EventsManagement.wrong_event (Some a) (ui w));
    [contradiction|].
  cbn [orb] in Hnew.
  destruct (faults w (sent w)); [contradiction|].
  destruct (EventsManagement.currentEvent (ui w)) as [cur|].
  - apply update_event_rows in Hnew.
    destruct Hnew as [Hin | [_ Hdep]]; [contradiction|].
    now rewrite Hdep.
  - apply insert_event_rows in Hnew.
    destruct Hnew as [Hin | Hdep]; [contradiction|].
    now rewrite Hdep.
Qed.

Lemma department_admin_saves_witness :
  let w' := exec (EventsManagement.handleAddEdit
                    (Some cse_admin) (quiz_form "D1")) (events_desk None) in
  Admin.role cse_admin = "department_admin"
  /\ map Event.id (Backend.events (backend w')) = ["E1"; "E2"; "R2"]
  /\ forall e', In e' (Backend.events (backend w')) ->
                ~ In e' (Backend.events (backend (events_desk None))) ->
                Admin.department_id cse_admin = Val (Event.department_id e').
Proof.
  cbv zeta. split; [reflexivity|]. split; [reflexivity|].
  intros e' Hnew Hold.
  exact (department_admin_saves_in_own_department
           cse_admin (quiz_form "D1") (events_desk None) e'
           eq_refl Hnew Hold).
Defined.

(** X11.  An event admin (whose event_id is a string or null, as rows of
    the admins table have it) never adds or removes an event through
    [handleAddEdit]: the ids of the events table are the same before and
    after, and a row that is changed has the admin's event_id as id. *)
Theorem event_admin_save_keeps_rows :
  forall (a : Admin.t) (values : EventFormValues.t)
         (w : World EventsManagement.State),
    Admin.role a = "event_admin" ->
    Admin.event_id a <> Undefined ->
    let w' := exec (EventsManagement.handleAddEdit (Some a) values) w in
    map Event.id (Backend.events (backend w'))
    = map Event.id (Backend.events (backend w))
    /\ forall e', In e' (Backend.events (backend w')) ->
                  ~ In e' (Backend.events (backend w)) ->
                  Admin.event_id a = Val (Event.id e').
Proof.
  intros a values w Hrole Hdef w'. subst w'.
  rewrite handleAddEdit_backend. unfold saved_backend.
  destruct (EventsManagement.wrong_department (Some a) values);
    [split; [reflexivity|intros; contradiction]|].
  destruct (EventsManagement.wrong_event (Some a) (ui w)) eqn:He;
    [split; [reflexivity|intros; contradiction]|].
  cbn [orb].
  destruct (faults w (sent w));
    [split; [reflexivity|intros; contradiction]|].
  unfold EventsManagement.wrong_event,
    EventsManagement.currentEvent_id in He.
  rewrite Hrole in He. cbn [String.eqb Ascii.eqb Bool.eqb andb] in He.
  apply negb_false_iff, strict_eq_true in He.
  destruct (EventsManagement.currentEvent (ui w)) as [cur|].
  - split; [apply update_event_ids|].
    intros e' Hnew Hold. apply update_event_rows in Hnew.
    destruct Hnew as [Hin | [Hid _]]; [contradiction|].
    now rewrite Hid, <- He.
  - exfalso. apply Hdef. now rewrite <- He.
Qed.

Lemma event_admin_save_witness :
  Admin.role quiz_admin = "event_admin"
  /\ Admin.event_id quiz_admin <> Undefined
  /\ map Event.id
         (Backend.events
            (backend (exec (EventsManagement.handleAddEdit
                              (Some quiz_admin) (quiz_form "D1"))
                           (events_desk None))))
     = ["E1"; "E2"].
Proof.
  assert (known : Admin.event_id quiz_admin <> Undefined) by discriminate.
  split; [reflexivity|]. split; [exact known|].
  exact (proj1 (event_admin_save_keeps_rows
                  quiz_admin (quiz_form "D1") (events_desk None)
                  eq_refl known)).
Defined.

(** X12.  After [fetchData] with both requests answered, the events on
    screen are, for a main admin, the rows of the events table; for a
    department admin with a department_id, the rows of that department;
    for an event admin with an event_id, the rows with that id. *)
Theorem events_on_screen_follow_scope :
  forall (a : Admin.t) (w : World EventsManagement.State) (e : Event.t),
    answered w 2 ->
    let shown :=
      EventsManagement.events
        (ui (exec (EventsManagement.fetchData (Some a)) w)) in
    (Admin.role a = "main_admin" ->
     (In e shown <-> In e (Backend.events (backend w))))
    /\ (forall d,
           Admin.role a = "department_admin" ->
           Admin.department_id a = Val d -> d <> "" ->
           (In e shown <->
            In e (Backend.events (backend w))
            /\ Event.department_id e = d))
    /\ (forall x,
           Admin.role a = "event_admin" ->
           Admin.event_id a = Val x -> x <> "" ->
           (In e shown <->
            In e (Backend.events (backend w)) /\ Event.id e = x)).
Proof.
  intros a w e Hans shown. subst shown.
  rewrite fetchData_events by exact Hans. cbn [ui].
  unfold EventsManagement.setIsLoading, EventsManagement.setDepartments,
    EventsManagement.setEvents. cbn [EventsManagement.events].
  unfold EventsManagement.eventQuery, Db.newest_first.
  split; [|split].
  - intros Hr. rewrite in_sort_by, Hr.
    cbn [String.eqb Ascii.eqb Bool.eqb andb]. reflexivity.
  - intros d Hr Hd Hne. rewrite in_sort_by, Hr, Hd.
    cbn [String.eqb Ascii.eqb Bool.eqb andb truthy_n].
    rewrite (proj2 (truthy_true d) Hne), filter_In.
    unfold Db.col_eq. now rewrite String.eqb_eq.
  - intros x Hr Hx Hne. rewrite in_sort_by, Hr, Hx.
    cbn [String.eqb Ascii.eqb Bool.eqb andb truthy_n].
    rewrite (proj2 (truthy_true x) Hne), filter_In.
    unfold Db.col_eq. now rewrite String.eqb_eq.
Qed.

Lemma events_on_screen_witness :
  answered (events_desk None) 2
  /\ map Event.id
         (EventsManagement.events
            (ui (exec (EventsManagement.fetchData (Some cse_admin))
                      (events_desk None))))
     = ["E1"]
  /\ (In hackathon
         (EventsManagement.events
            (ui (exec (EventsManagement.fetchData (Some cse_admin))
                      (events_desk None))))
      <-> In hackathon (Backend.events (backend (events_desk None)))
          /\ Event.department_id hackathon = "D1").
Proof.
  assert (ok : answered (events_desk None) 2) by (intros k _; reflexivity).
  split; [exact ok|]. split; [reflexivity|].
  exact (proj1 (proj2 (events_on_screen_follow_scope
                         cse_admin (events_desk None) hackathon ok))
           "D1" eq_refl eq_refl ltac:(discriminate)).
Defined.

(** X13.  A save that passes both guards, with the write and the two
    reads that follow answered, ends with the dialog closed, no current
    event, the submit flag down, one success toast, and on screen the
    result of the admin's events query on the table as saved. *)
Theorem save_then_refresh :
  forall (adminDetails : option Admin.t) (values : EventFormValues.t)
         (w : World EventsManagement.State),
    EventsManagement.wrong_department adminDetails values = false ->
    EventsManagement.wrong_event adminDetails (ui w) = false ->
    answered w 3 ->
    let w' := exec (EventsManagement.handleAddEdit adminDetails values) w in
    EventsManagement.events (ui w')
    = EventsManagement.eventQuery adminDetails (backend w')
    /\ EventsManagement.isDialogOpen (ui w') = false
    /\ EventsManagement.currentEvent (ui w') = None
    /\ EventsManagement.isSubmitting (ui w') = false
    /\ exists title text,
        toasts w' = (toasts w ++ [mkToast Default title text])%list.
Proof.
  intros adminDetails values w H1 H2 Hans w'.
  pose proof (handleAddEdit_backend adminDetails values w) as Hb.
  fold w' in Hb. rewrite Hb. subst w'.
  pose proof (answered_next w 3 0 Hans ltac:(lia)) as H0.
  cbn [Nat.add] in H0.
  unfold saved_backend. rewrite H1, H2, H0. cbn [orb].
  unfold EventsManagement.handleAddEdit. run. rewrite H1, H2. proj.
  assert (rest : forall b (u : EventsManagement.State) t,
             answered (mkWorld b u t (faults w) (S (sent w))) 2).
  { intros b u t k Hk. cbn [faults sent].
    replace (S (sent w) + k)%nat with (sent w + S k)%nat by lia.
    apply Hans. lia. }
  destruct (EventsManagement.currentEvent (ui w)) as [cur|]; proj;
    rewrite H0; proj;
    match goal with
    | |- context [EventsManagement.fetchData adminDetails ?w0] =>
        pose proof (fetchData_events adminDetails w0 (rest _ _ _)) as Hfetch;
        unfold exec in Hfetch;
        destruct (EventsManagement.fetchData adminDetails w0) as [u w1];
        cbn [snd] in Hfetch; subst w1
    end;
    proj; cbn; eauto 10.
Qed.

Lemma save_then_refresh_witness :
  let w' := exec (EventsManagement.handleAddEdit
                    (Some root_admin) (quiz_form "D2"))
                 (events_desk (Some quiz)) in
  answered (events_desk (Some quiz)) 3
  /\ map (fun e => (Event.id e, Event.department_id e))
         (EventsManagement.events (ui w'))
     = [("E2", "D2"); ("E1", "D2")]
  /\ EventsManagement.isDialogOpen (ui w') = false.
Proof.
  cbv zeta.
  assert (ok : answered (events_desk (Some quiz)) 3)
    by (intros k _; reflexivity).
  split; [exact ok|].
  destruct (save_then_refresh (Some root_admin) (quiz_form "D2")
              (events_desk (Some quiz)) eq_refl eq_refl ok)
    as (Hshown & Hclosed & _).
  split; [|exact Hclosed].
  rewrite Hshown. reflexivity.
Defined.

(** ** Admin accounts: creating, deleting, signing in *)

Lemma replaced_absent (a : Admin.t) (l : list Admin.t) :
  (forall y, In y l -> Admin.id y <> Admin.id a) ->
  filter (fun x => String.eqb (Admin.id x) (Admin.id a))
         (map (fun x => if String.eqb (Admin.id x) (Admin.id a)
                        then a else x) l)
  = [].
Proof.
  induction l as [|y l IH]; intros Hl; [reflexivity|].
  cbn [map filter].
  destruct (String.eqb_spec (Admin.id y) (Admin.id a)) as [E|E].
  - exfalso. apply (Hl y); [now left|exact E].
  - destruct (String.eqb_spec (Admin.id y) (Admin.id a)); [contradiction|].
    apply IH. intros z Hz. apply Hl. now right.
Qed.

Lemma replaced_once (a : Admin.t) (l : list Admin.t) :
  NoDup (map Admin.id l) ->
  existsb (fun x => String.eqb (Admin.id x) (Admin.id a)) l = true ->
  filter (fun x => String.eqb (Admin.id x) (Admin.id a))
         (map (fun x => if String.eqb (Admin.id x) (Admin.id a)
                        then a else x) l)
  = [a].
Proof.
  induction l as [|x l IH]; intros Hnd Hex; [discriminate|].
  cbn [map existsb filter] in *.
  inversion Hnd as [|? ? Hnotin Hnd']; subst.
  destruct (String.eqb_spec (Admin.id x) (Admin.id a)) as [E|E].
  - rewrite String.eqb_refl. f_equal. apply replaced_absent.
    intros y Hy Hid. apply Hnotin. rewrite E, <- Hid. now apply in_map.
  - destruct (String.eqb_spec (Admin.id x) (Admin.id a)); [contradiction|].
    now apply IH.
Qed.

Lemma upsert_admin_lookup (a : Admin.t) (b : Backend.t) :
  NoDup (map Admin.id (Backend.admins b)) ->
  filter (fun x => String.eqb (Admin.id x) (Admin.id a))
         (Backend.admins (Db.upsert_admin a b))
  = [a].
Proof.
  unfold Db.upsert_admin. intros Hnd.
  destruct (existsb _ (Backend.admins b)) eqn:Hex;
    cbn [Db.set_admins Backend.admins].
  - now apply replaced_once.
  - rewrite filter_app. cbn [filter]. rewrite String.eqb_refl.
    replace (filter _ (Backend.admins b)) with (@nil Admin.t);
      [reflexivity|].
    symmetry. induction (Backend.admins b) as [|x l IH]; [reflexivity|].
    cbn [existsb filter] in *. apply orb_false_iff in Hex.
    destruct Hex as [Hx Hl]. rewrite Hx. apply IH; [|exact Hl].
    now inversion Hnd.
Qed.

Lemma delete_admin_lookup (adminId : string) (b : Backend.t) :
  filter (fun x => String.eqb (Admin.id x) adminId)
         (Backend.admins (AdminAccounts.delete_admin adminId b))
  = [].
Proof.
  unfold AdminAccounts.delete_admin, Db.set_admins. cbn [Backend.admins].
  induction (Backend.admins b) as [|x l IH]; [reflexivity|].
  cbn [filter]. destruct (String.eqb (Admin.id x) adminId) eqn:E; cbn.
  - exact IH.
  - now rewrite E.
Qed.

Lemma handleDeleteAdmin_backend (adminDetails : option Admin.t)
  (adminId : string) (w : World AdminUserManagement.State) :
  faults w (sent w) = None ->
  backend (exec (AdminAccounts.handleDeleteAdmin adminDetails adminId) w)
  = AdminAccounts.delete_admin adminId (backend w).
Proof.
  intros Hf. unfold AdminAccounts.handleDeleteAdmin. run. rewrite Hf. proj.
  rewrite fetchAdmins_sent_run. proj.
  apply (fetchAdmins_answered_backend _
           (mkWorld (AdminAccounts.delete_admin adminId (backend w))
                    _ _ _ _)).
Qed.

Lemma checkIfAdmin_result (userId : string) (v : World AuthContext.State) :
  faults v (sent v) = None ->
  ui (exec (AuthContext.checkIfAdmin userId) v)
  = AuthContext.setAdmin
      (AuthContext.single
         (filter (fun x => String.eqb (Admin.id x) userId)
                 (Backend.admins (backend v))))
      (ui v).
Proof.
  intros Hf. unfold AuthContext.checkIfAdmin. run. rewrite Hf. reflexivity.
Qed.

(** X14.  Creating an admin and signing in round-trip: after a
    [handleCreateAdmin] that went through on a table with one row per id,
    [checkIfAdmin] for the chosen user finds the account, with the
    selected role and the row that was written. *)
Theorem created_admin_can_sign_in :
  forall (adminDetails : option Admin.t) (created updated uid : string)
         (w : World AdminUserManagement.State)
         (v : World AuthContext.State),
    filled (ui w) uid ->
    AdminUserManagement.includes
      (AdminUserManagement.allowedRoles adminDetails)
      (AdminUserManagement.selectedRole (ui w)) = true ->
    faults w (sent w) = None ->
    NoDup (map Admin.id (Backend.admins (backend w))) ->
    backend v
    = backend (exec (AdminUserManagement.handleCreateAdmin
                       adminDetails created updated) w) ->
    faults v (sent v) = None ->
    let v' := exec (AuthContext.checkIfAdmin uid) v in
    AuthContext.isAdmin (ui v') = true
    /\ AuthContext.adminRole (ui v')
       = Some (AdminUserManagement.selectedRole (ui w))
    /\ AuthContext.adminDetails (ui v')
       = Some (AdminUserManagement.adminData created updated uid (ui w)).
Proof.
  intros adminDetails created updated uid w v Hfill Hin Hf Hnd Hv Hfv v'.
  subst v'. rewrite checkIfAdmin_result by exact Hfv. rewrite Hv.
  rewrite (handleCreateAdmin_ok adminDetails created updated w uid
             Hfill Hin Hf), admin_written_backend.
  pose proof (upsert_admin_lookup
                (AdminUserManagement.adminData created updated uid (ui w))
                (backend w) Hnd) as Hone.
  cbn [AdminUserManagement.adminData Admin.id] in Hone.
  rewrite Hone. cbn. auto.
Qed.

Lemma created_admin_sign_in_witness :
  let w := admin_desk "event_admin" in
  let b := backend (exec (AdminUserManagement.handleCreateAdmin
                            (Some cse_admin) "2025-04-08" "2025-04-09") w) in
  filled (ui w) "U2"
  /\ NoDup (map Admin.id (Backend.admins (backend w)))
  /\ AuthContext.adminRole
       (ui (exec (AuthContext.checkIfAdmin "U2") (login_screen b)))
     = Some "event_admin".
Proof.
  cbv zeta.
  assert (full : filled (ui (admin_desk "event_admin")) "U2").
  { unfold filled. cbn. repeat split; discriminate. }
  assert (keys : NoDup (map Admin.id
                          (Backend.admins
                             (backend (admin_desk "event_admin"))))).
  { cbn. repeat constructor; cbn; intuition discriminate. }
  split; [exact full|]. split; [exact keys|].
  exact (proj1 (proj2 (created_admin_can_sign_in
                         (Some cse_admin) "2025-04-08" "2025-04-09" "U2"
                         (admin_desk "event_admin") (login_screen _)
                         full eq_refl eq_refl keys eq_refl eq_refl))).
Defined.

(** X15.  [handleDeleteAdmin] asks nothing about the caller: for any
    admin record, or none, a deletion the backend accepts removes exactly
    the admin rows with the given id and leaves the other rows as they
    were. *)
Theorem delete_admin_has_no_guard :
  forall (adminDetails : option Admin.t) (adminId : string)
         (w : World AdminUserManagement.State),
    faults w (sent w) = None ->
    let w' := exec (AdminAccounts.handleDeleteAdmin adminDetails adminId)
                   w in
    Backend.admins (backend w')
    = filter (fun x => negb (String.eqb (Admin.id x) adminId))
             (Backend.admins (backend w))
    /\ (forall x, In x (Backend.admins (backend w')) <->
                  In x (Backend.admins (backend w))
                  /\ Admin.id x <> adminId).
Proof.
  intros adminDetails adminId w Hf w'. subst w'.
  rewrite handleDeleteAdmin_backend by exact Hf.
  unfold AdminAccounts.delete_admin, Db.set_admins. cbn [Backend.admins].
  split; [reflexivity|].
  intros x. rewrite filter_In, negb_true_iff.
  destruct (String.eqb_spec (Admin.id x) adminId); intuition congruence.
Qed.

Lemma delete_admin_witness :
  faults (admin_desk "event_admin") (sent (admin_desk "event_admin")) = None
  /\ map Admin.id
         (Backend.admins
            (backend (exec (AdminAccounts.handleDeleteAdmin
                              (Some quiz_admin) "U9")
                           (admin_desk "event_admin"))))
     = ["U7"; "U8"].
Proof.
  split; [reflexivity|].
  rewrite (proj1 (delete_admin_has_no_guard
                    (Some quiz_admin) "U9" (admin_desk "event_admin")
                    eq_refl)).
  reflexivity.
Defined.

(** X16.  Deleting an admin and signing in round-trip: after an accepted
    [handleDeleteAdmin], [checkIfAdmin] for that id reports no admin. *)
Theorem deleted_admin_cannot_sign_in :
  forall (adminDetails : option Admin.t) (adminId : string)
         (w : World AdminUserManagement.State)
         (v : World AuthContext.State),
    faults w (sent w) = None ->
    backend v
    = backend (exec (AdminAccounts.handleDeleteAdmin adminDetails adminId)
                    w) ->
    let v' := exec (AuthContext.checkIfAdmin adminId) v in
    AuthContext.isAdmin (ui v') = false
    /\ AuthContext.adminRole (ui v') = None
    /\ AuthContext.adminDetails (ui v') = None.
Proof.
  intros adminDetails adminId w v Hf Hv v'. subst v'.
  unfold AuthContext.checkIfAdmin. run.
  destruct (faults v (sent v)); proj; [cbn; auto|].
  rewrite Hv, handleDeleteAdmin_backend by exact Hf.
  rewrite delete_admin_lookup. cbn. auto.
Qed.

Lemma deleted_admin_witness :
  let b := backend (exec (AdminAccounts.handleDeleteAdmin None "U9")
                         (admin_desk "event_admin")) in
  AuthContext.isAdmin
    (ui (exec (AuthContext.checkIfAdmin "U9")
              (login_screen (backend (admin_desk "event_admin")))))
  = true
  /\ AuthContext.isAdmin
       (ui (exec (AuthContext.checkIfAdmin "U9") (login_screen b)))
     = false.
Proof.
  cbv zeta. split; [reflexivity|].
  exact (proj1 (deleted_admin_cannot_sign_in
                  None "U9" (admin_desk "event_admin") (login_screen _)
                  eq_refl eq_refl)).
Defined.

Lemma fetchEvents_events (adminDetails : option Admin.t)
  (w : World AdminUserManagement.State) :
  faults w (sent w) = None ->
  AdminUserManagement.events
    (ui (exec (AdminAccounts.fetchEvents adminDetails) w))
  = AdminAccounts.eventQuery adminDetails (backend w).
Proof.
  intros Hf. unfold AdminAccounts.fetchEvents. run. rewrite Hf. reflexivity.
Qed.

(** X17.  What a department admin hands out stays in its department:
    with the events list loaded by [fetchEvents], every admin row that the
    department admin's [handleCreateAdmin] adds or replaces is an
    event_admin row whose department_id is the creator's department or
    null. *)
Theorem department_admin_creates_in_own_department :
  forall (a : Admin.t) (d created updated : string)
         (w0 w : World AdminUserManagement.State) (row : Admin.t),
    Admin.role a = "department_admin" ->
    Admin.department_id a = Val d ->
    d <> "" ->
    faults w0 (sent w0) = None ->
    AdminUserManagement.events (ui w)
    = AdminUserManagement.events
        (ui (exec (AdminAccounts.fetchEvents (Some a)) w0)) ->
    In row (Backend.admins
              (backend (exec (AdminUserManagement.handleCreateAdmin
                                (Some a) created updated) w))) ->
    ~ In row (Backend.admins (backend w)) ->
    Admin.role row = "event_admin"
    /\ (Admin.department_id row = Null \/ Admin.department_id row = Val d).
Proof.
  intros a d created updated w0 w row Hrole Hd Hne Hf Hev Hnew Hold.
  rewrite fetchEvents_events in Hev by exact Hf.
  destruct (handleCreateAdmin_cases (Some a) created updated w)
    as [(text & E) | (uid & Hfilled & Hin & [(text & _ & E) | (_ & E)])];
    cbv zeta in E; rewrite E in Hnew; try contradiction.
  rewrite admin_written_backend in Hnew.
  apply upsert_admin_rows in Hnew. destruct Hnew as [-> | Hnew];
    [|contradiction].
  apply includes_allowedRoles in Hin.
  destruct Hin as [[Hmain _] | [_ Hsel]].
  { cbn in Hmain. rewrite Hrole in Hmain. discriminate. }
  cbn [AdminUserManagement.adminData Admin.role Admin.department_id].
  split; [exact Hsel|]. rewrite Hsel.
  cbn [String.eqb Ascii.eqb Bool.eqb].
  destruct (AdminUserManagement.find_event _ _) as [e|] eqn:Hfind;
    [|now left].
  destruct (truthy (Event.department_id e)); [|now left].
  right. f_equal.
  unfold AdminUserManagement.find_event in Hfind.
  apply find_some in Hfind. destruct Hfind as [Hin _].
  rewrite Hev in Hin.
  unfold AdminAccounts.eventQuery, AdminAccounts.by_title in Hin.
  rewrite in_sort_by, Hrole, Hd in Hin.
  cbn [String.eqb Ascii.eqb Bool.eqb andb truthy_n] in Hin.
  rewrite (proj2 (truthy_true d) Hne), filter_In in Hin.
  destruct Hin as [_ Hin]. unfold Db.col_eq in Hin.
  now apply String.eqb_eq in Hin.
Qed.

Lemma department_admin_creates_witness :
  map Event.id (AdminUserManagement.events (ui cse_desk)) = ["E1"]
  /\ AdminUserManagement.selectedEvent (ui cse_desk) = "E2"
  /\ forall row,
      In row (Backend.admins
                (backend (exec (AdminUserManagement.handleCreateAdmin
                                  (Some cse_admin) "2025-04-08" "2025-04-09")
                               cse_desk))) ->
      ~ In row (Backend.admins (backend cse_desk)) ->
      Admin.department_id row = Null \/ Admin.department_id row = Val "D1".
Proof.
  split; [reflexivity|]. split; [reflexivity|].
  intros row Hnew Hold.
  assert (named : "D1" <> "") by discriminate.
  exact (proj2 (department_admin_creates_in_own_department
                  cse_admin "D1" "2025-04-08" "2025-04-09"
                  (admin_desk "event_admin") cse_desk row
                  eq_refl eq_refl named eq_refl eq_refl Hnew Hold)).
Defined.

(** X18.  After [handleCreateAdmin] went through and the refresh it
    starts was answered, the form is reset (role "event_admin", nothing
    selected, dialog closed) and the list on screen holds the new row
    when the creator is a main admin, or a department admin and the row
    carries the creator's department_id. *)
Theorem created_admin_is_listed :
  forall (adminDetails : option Admin.t) (created updated uid : string)
         (w : World AdminUserManagement.State),
    filled (ui w) uid ->
    AdminUserManagement.includes
      (AdminUserManagement.allowedRoles adminDetails)
      (AdminUserManagement.selectedRole (ui w)) = true ->
    answered w 2 ->
    let row := AdminUserManagement.adminData created updated uid (ui w) in
    let w' := exec (AdminUserManagement.handleCreateAdmin
                      adminDetails created updated) w in
    (AdminUserManagement.selectedRole (ui w') = "event_admin"
     /\ AdminUserManagement.selectedUserId (ui w') = Null
     /\ AdminUserManagement.selectedDepartment (ui w') = ""
     /\ AdminUserManagement.selectedEvent (ui w') = ""
     /\ AdminUserManagement.isDialogOpen (ui w') = false)
    /\ (role_is adminDetails "main_admin" = true ->
        In row (AdminUserManagement.admins (ui w')))
    /\ (forall a d,
           adminDetails = Some a ->
           Admin.role a = "department_admin" ->
           Admin.department_id a = Val d ->
           Admin.department_id row = Val d ->
           In row (AdminUserManagement.admins (ui w'))).
Proof.
  intros adminDetails created updated uid w Hfill Hin Hans row w'.
  subst w'.
  pose proof (answered_next w 2 0 Hans ltac:(lia)) as H0.
  pose proof (answered_next w 2 1 Hans ltac:(lia)) as H1.
  cbn [Nat.add] in H0, H1.
  rewrite (handleCreateAdmin_ok adminDetails created updated w uid
             Hfill Hin H0).
  unfold admin_written. rewrite fetchAdmins_sent_run.
  cbn [fst snd faults sent]. rewrite H1.
  unfold AdminUserManagement.fetchAdmins_answered. run.
  cbn [ui backend AdminUserManagement.resetForm
       AdminUserManagement.setIsLoading AdminUserManagement.setAdmins
       AdminUserManagement.admins AdminUserManagement.selectedRole
       AdminUserManagement.selectedUserId
       AdminUserManagement.selectedDepartment
       AdminUserManagement.selectedEvent AdminUserManagement.isDialogOpen].
  split; [auto 10|]. split.
  - intros Hmain. unfold AdminUserManagement.adminQuery.
    destruct adminDetails as [a|]; [|discriminate].
    cbn in Hmain. apply String.eqb_eq in Hmain. rewrite Hmain.
    cbn [String.eqb Ascii.eqb Bool.eqb]. apply upsert_admin_in.
  - intros a d -> Hrole Hd Hrow. unfold AdminUserManagement.adminQuery.
    rewrite Hrole. cbn [String.eqb Ascii.eqb Bool.eqb].
    apply filter_In. split; [apply upsert_admin_in|].
    fold row. rewrite Hrow, Hd. cbn. apply String.eqb_refl.
Qed.

Lemma created_admin_listed_witness :
  let w := admin_desk "event_admin" in
  let w' := exec (AdminUserManagement.handleCreateAdmin
                    (Some cse_admin) "2025-04-08" "2025-04-09") w in
  filled (ui w) "U2"
  /\ answered w 2
  /\ map Admin.id (AdminUserManagement.admins (ui w')) = ["U7"; "U8"; "U2"]
  /\ In (AdminUserManagement.adminData "2025-04-08" "2025-04-09" "U2" (ui w))
        (AdminUserManagement.admins (ui w')).
Proof.
  cbv zeta.
  assert (full : filled (ui (admin_desk "event_admin")) "U2").
  { unfold filled. cbn. repeat split; discriminate. }
  assert (ok : answered (admin_desk "event_admin") 2)
    by (intros k _; reflexivity).
  split; [exact full|]. split; [exact ok|]. split; [reflexivity|].
  exact (proj2 (proj2 (created_admin_is_listed
                         (Some cse_admin) "2025-04-08" "2025-04-09" "U2"
                         (admin_desk "event_admin") full eq_refl ok))
           cse_admin "D1" eq_refl eq_refl eq_refl eq_refl).
Defined.

(** ** The registration form *)

Lemma without_length (index i : nat) (members : list TeamMember.t) :
  (List.length members - 1 <= List.length (RegistrationForm.without
                                              index i members)
   <= List.length members)%nat.
Proof.
  revert i. induction members as [|m rest IH]; intros i; cbn; [lia|].
  destruct (Nat.eqb_spec i index) as [E|E]; cbn.
  - assert (later : forall l j, (index < j)%nat ->
                                RegistrationForm.without index j l = l).
    { induction l as [|x l IHl]; intros j Hj; cbn; [reflexivity|].
      destruct (Nat.eqb_spec j index); [lia|]. f_equal. apply IHl. lia. }
    rewrite later by lia. lia.
  - specialize (IH (S i)). lia.
Qed.

Lemma without_after (index i : nat) (members : list TeamMember.t) :
  (index < i)%nat -> RegistrationForm.without index i members = members.
Proof.
  revert i. induction members as [|m rest IH]; intros i Hi; cbn;
    [reflexivity|].
  destruct (Nat.eqb_spec i index); [lia|]. f_equal. apply IH. lia.
Qed.

Lemma without_split (index i : nat) (members : list TeamMember.t) :
  (i <= index)%nat ->
  RegistrationForm.without index i members
  = (firstn (index - i) members ++ skipn (S (index - i)) members)%list.
Proof.
  revert i. induction members as [|m rest IH]; intros i Hi.
  - cbn. now rewrite firstn_nil.
  - cbn [RegistrationForm.without].
    destruct (Nat.eqb_spec i index) as [E|E].
    + subst. rewrite Nat.sub_diag. cbn. apply without_after. lia.
    + rewrite IH by lia.
      replace (index - i)%nat with (S (index - S i)) by lia.
      reflexivity.
Qed.

(** X19.  Starting from the default form and clicking "Add Team Member"
    and the remove buttons in any order, the number of members stays
    between 1 and the event's team_size (if that is at least 1): the
    buttons cannot produce a list that the schema's array bounds reject. *)
Theorem member_buttons_keep_bounds :
  forall (profile : option Profile.t) (e : Event.t)
         (clicks : list RegistrationForm.Click),
    (1 <= Event.team_size e)%Z ->
    let members :=
      fold_left (RegistrationForm.click (Some e)) clicks
                (RegistrationForm.defaultMembers profile) in
    z.array_min 1 members = true
    /\ z.array_max (Event.team_size e) members = true.
Proof.
  intros profile e clicks Hsize members. subst members.
  assert (start : (1 <= Z.of_nat (List.length
                                    (RegistrationForm.defaultMembers profile))
                   <= Event.team_size e)%Z).
  { destruct profile; cbn [RegistrationForm.defaultMembers List.length];
      lia. }
  revert start. generalize (RegistrationForm.defaultMembers profile).
  induction clicks as [|c clicks IH]; intros members Hm; cbn [fold_left].
  - unfold z.array_min, z.array_max. rewrite !Z.leb_le. exact Hm.
  - apply IH. destruct c as [|index]; cbn [RegistrationForm.click].
    + unfold RegistrationForm.addTeamMember.
      destruct (Z.ltb_spec (Z.of_nat (List.length members))
                           (Event.team_size e)); [|exact Hm].
      rewrite length_app. cbn [List.length]. lia.
    + unfold RegistrationForm.removeTeamMember.
      destruct (Nat.ltb_spec 1 (List.length members)); [|exact Hm].
      pose proof (without_length index 0 members). lia.
Qed.

Lemma member_buttons_witness :
  (1 <= Event.team_size quiz)%Z
  /\ List.length
       (fold_left (RegistrationForm.click (Some quiz))
          [RegistrationForm.Add; RegistrationForm.Add; RegistrationForm.Add;
           RegistrationForm.Remove 0; RegistrationForm.Remove 0]
          (RegistrationForm.defaultMembers (Some asha_profile)))
     = 1%nat
  /\ z.array_max (Event.team_size quiz)
       (fold_left (RegistrationForm.click (Some quiz))
          [RegistrationForm.Add; RegistrationForm.Add; RegistrationForm.Add]
          (RegistrationForm.defaultMembers (Some asha_profile)))
     = true.
Proof.
  assert (size : (1 <= Event.team_size quiz)%Z) by (cbn; lia).
  split; [exact size|]. split; [reflexivity|].
  exact (proj2 (member_buttons_keep_bounds
                  (Some asha_profile) quiz
                  [RegistrationForm.Add; RegistrationForm.Add;
                   RegistrationForm.Add] size)).
Defined.

(** X20.  [removeTeamMember] leaves a single member alone; with more
    than one member it drops exactly the member at the index and keeps
    the others in order, and drops nothing when the index is past the
    end.  Removing the member that [addTeamMember] has just appended
    gives back the list as it was. *)
Theorem remove_member_at_index :
  forall (index : nat) (members : list TeamMember.t),
    ((List.length members <= 1)%nat ->
     RegistrationForm.removeTeamMember index members = members)
    /\ ((1 < List.length members)%nat ->
        RegistrationForm.removeTeamMember index members
        = (firstn index members ++ skipn (S index) members)%list)
    /\ ((List.length members <= index)%nat ->
        RegistrationForm.removeTeamMember index members = members)
    /\ (forall e,
           (1 <= List.length members)%nat ->
           RegistrationForm.removeTeamMember (List.length members)
             (RegistrationForm.addTeamMember (Some e) members)
           = members).
Proof.
  intros index members.
  assert (many : (1 < List.length members)%nat ->
                 RegistrationForm.removeTeamMember index members
                 = (firstn index members ++ skipn (S index) members)%list).
  { intros H. unfold RegistrationForm.removeTeamMember.
    destruct (Nat.ltb_spec 1 (List.length members)); [|lia].
    rewrite without_split by lia. now rewrite Nat.sub_0_r. }
  assert (past : forall l : list TeamMember.t,
             (List.length l <= index)%nat ->
             (firstn index l ++ skipn (S index) l)%list = l).
  { intros l H. rewrite firstn_all2 by lia. rewrite skipn_all2 by lia.
    apply app_nil_r. }
  split; [|split; [exact many|split]].
  - intros H. unfold RegistrationForm.removeTeamMember.
    destruct (Nat.ltb_spec 1 (List.length members)); [lia|reflexivity].
  - intros H. unfold RegistrationForm.removeTeamMember.
    destruct (Nat.ltb_spec 1 (List.length members)); [|reflexivity].
    rewrite without_split by lia. rewrite Nat.sub_0_r. now apply past.
  - intros e H. unfold RegistrationForm.addTeamMember.
    destruct (Z.ltb (Z.of_nat (List.length members)) (Event.team_size e)).
    + unfold RegistrationForm.removeTeamMember.
      rewrite length_app. cbn [List.length].
      destruct (Nat.ltb_spec 1 (List.length members + 1)); [|lia].
      rewrite without_split by lia. rewrite Nat.sub_0_r.
      rewrite firstn_app, Nat.sub_diag, firstn_all. cbn [firstn].
      rewrite skipn_all2 by (rewrite length_app; cbn; lia).
      now rewrite !app_nil_r.
    + unfold RegistrationForm.removeTeamMember.
      destruct (Nat.ltb_spec 1 (List.length members)); [|reflexivity].
      rewrite without_split by lia. rewrite Nat.sub_0_r.
      rewrite firstn_all. rewrite skipn_all2 by lia. apply app_nil_r.
Qed.

Lemma remove_member_witness :
  (1 < List.length [asha; lettered; asha])%nat
  /\ RegistrationForm.removeTeamMember 1 [asha; lettered; asha]
     = [asha; asha]
  /\ RegistrationForm.removeTeamMember 0 [asha] = [asha].
Proof.
  assert (three : (1 < List.length [asha; lettered; asha])%nat)
    by (cbn; lia).
  assert (one : (List.length [asha] <= 1)%nat) by (cbn; lia).
  split; [exact three|]. split.
  - exact (proj1 (proj2 (remove_member_at_index 1 [asha; lettered; asha]))
             three).
  - exact (proj1 (remove_member_at_index 0 [asha]) one).
Defined.

Section SubmissionFacts.
Import RegistrationPage.
Variable user : option User.t.
Variable profile : option Profile.t.
Variable uuidv4 : string.
Variable data : RegistrationFormValues.t.
Variable w : World State.

Lemma onSubmit_absent :
  event (ui w) = None \/ user = None \/ profile = None ->
  exec (onSubmit user profile uuidv4 data) w = w.
Proof.
  intros H. unfold onSubmit. run.
  destruct (event (ui w)), user, profile;
    try (now destruct w); destruct H as [H | [H | H]]; discriminate.
Qed.

Lemma onSubmit_failed (e : Event.t) (u : User.t) (p : Profile.t)
  (message : string) :
  event (ui w) = Some e -> user = Some u -> profile = Some p ->
  faults w (sent w) = Some message ->
  exec (onSubmit user profile uuidv4 data) w
  = mkWorld (backend w)
            (setIsSubmitting false (setIsSubmitting true (ui w)))
            (toasts w
             ++ [mkToast Destructive "Registration failed"
                   "There was an error processing your registration."])
            (faults w) (S (sent w)).
Proof.
  intros He Hu Hp Hf. unfold onSubmit. run. rewrite He, Hu, Hp. proj.
  rewrite Hf. reflexivity.
Qed.
End SubmissionFacts.

(** X21.  [onSubmit] stores nothing in two cases.  Without an event, a
    signed-in user or a profile it returns at once: no toast, no request,
    no change.  When the backend turns the insert down it shows
    "Registration failed", leaves the table as it was, lowers the submit
    flag, and neither opens the QR dialog nor leaves the page. *)
Theorem submission_that_stores_nothing :
  forall (user : option User.t) (profile : option Profile.t)
         (uuidv4 : string) (data : RegistrationFormValues.t)
         (w : World RegistrationPage.State),
    let w' := exec (RegistrationPage.onSubmit user profile uuidv4 data) w in
    (RegistrationPage.event (ui w) = None \/ user = None \/ profile = None
     -> w' = w)
    /\ (forall e u p message,
           RegistrationPage.event (ui w) = Some e ->
           user = Some u ->
           profile = Some p ->
           faults w (sent w) = Some message ->
           backend w' = backend w
           /\ RegistrationPage.isSubmitting (ui w') = false
           /\ RegistrationPage.showQRDialog (ui w')
              = RegistrationPage.showQRDialog (ui w)
           /\ RegistrationPage.location (ui w')
              = RegistrationPage.location (ui w)
           /\ toasts w'
              = (toasts w
                 ++ [mkToast Destructive "Registration failed"
                       "There was an error processing your registration."]
                )%list).
Proof.
  intros user profile uuidv4 data w w'. subst w'. split.
  - apply onSubmit_absent.
  - intros e u p message He Hu Hp Hm.
    rewrite (onSubmit_failed user profile uuidv4 data w e u p message
               He Hu Hp Hm).
    cbn. auto 10.
Qed.

Lemma submission_stores_nothing_witness :
  RegistrationPage.event (ui quiz_page_offline) = Some quiz
  /\ faults quiz_page_offline (sent quiz_page_offline) = Some ""
  /\ backend (exec (RegistrationPage.onSubmit
                      (Some asha_user) (Some asha_profile)
                      "3f2504e0-4f89-41d3-9a0c-0305e82c3301" solo_entry)
                   quiz_page_offline)
     = backend quiz_page_offline
  /\ exec (RegistrationPage.onSubmit
             (Some asha_user) None
             "3f2504e0-4f89-41d3-9a0c-0305e82c3301" solo_entry) quiz_page
     = quiz_page.
Proof.
  split; [reflexivity|]. split; [reflexivity|]. split.
  - exact (proj1 (proj2 (submission_that_stores_nothing
                           (Some asha_user) (Some asha_profile)
                           "3f2504e0-4f89-41d3-9a0c-0305e82c3301" solo_entry
                           quiz_page_offline)
                    quiz asha_user asha_profile ""
                    eq_refl eq_refl eq_refl eq_refl)).
  - apply (proj1 (submission_that_stores_nothing
                    (Some asha_user) None
                    "3f2504e0-4f89-41d3-9a0c-0305e82c3301" solo_entry
                    quiz_page)).
    right. right. reflexivity.
Defined.

(** X22.  Every registration row added through the form of a loaded page
    respects the event's team size: whatever is submitted, a row that
    [handleSubmit] adds to the table is "Pending", belongs to the page's
    event, has between 1 and team_size members, and every member within
    the schema's length bounds. *)
Theorem stored_rows_respect_team_size :
  forall (user : option User.t) (profile : option Profile.t)
         (uuidv4 : string) (data : RegistrationFormValues.t) (e : Event.t)
         (w : World RegistrationPage.State) (row : Registration.t),
    page_ready (ui w) e ->
    In row (Backend.registrations
              (backend (exec (RegistrationPage.handleSubmit
                                user profile uuidv4 data) w))) ->
    ~ In row (Backend.registrations (backend w)) ->
    Registration.payment_status row = "Pending"
    /\ Registration.event_id row = Event.id e
    /\ (1 <= Z.of_nat (List.length (Registration.team_members row))
         <= Event.team_size e)%Z
    /\ Forall member_in_bounds (Registration.team_members row).
Proof.
  intros user profile uuidv4 data e w row (He & Hschema) Hnew Hold.
  unfold RegistrationPage.handleSubmit in Hnew.
  unfold exec, bind, getState in Hnew. cbn [fst snd] in Hnew.
  rewrite Hschema in Hnew.
  destruct (createRegistrationSchema (Event.team_size e) data) eqn:Hok;
    [|contradiction].
  apply createRegistrationSchema_bounds in Hok.
  destruct Hok as (_ & Hmembers & Hcount).
  change (snd (RegistrationPage.onSubmit user profile uuidv4 data w))
    with (exec (RegistrationPage.onSubmit user profile uuidv4 data) w)
    in Hnew.
  destruct user as [u|]; [destruct profile as [p|]|];
    try (rewrite onSubmit_absent in Hnew by auto; contradiction).
  destruct (faults w (sent w)) as [message|] eqn:Hf.
  - rewrite (onSubmit_failed (Some u) (Some p) uuidv4 data w e u p message
               He eq_refl eq_refl Hf) in Hnew.
    contradiction.
  - rewrite (onSubmit_ok u p uuidv4 data e w He Hf) in Hnew.
    unfold submitted in Hnew. cbn [backend Backend.registrations] in Hnew.
    apply in_app_iff in Hnew. destruct Hnew as [Hin | [<- | []]];
      [contradiction|].
    unfold stored_row. cbn. auto.
Qed.

Lemma stored_rows_witness :
  page_ready (ui quiz_page) quiz
  /\ forall row,
      In row (Backend.registrations
                (backend (exec (RegistrationPage.handleSubmit
                                  (Some asha_user) (Some asha_profile)
                                  "3f2504e0-4f89-41d3-9a0c-0305e82c3301"
                                  solo_entry) quiz_page))) ->
      ~ In row (Backend.registrations (backend quiz_page)) ->
      (1 <= Z.of_nat (List.length (Registration.team_members row)) <= 2)%Z.
Proof.
  assert (ready : page_ready (ui quiz_page) quiz) by (split; reflexivity).
  split; [exact ready|].
  intros row Hnew Hold.
  exact (proj1 (proj2 (proj2 (stored_rows_respect_team_size
                                (Some asha_user) (Some asha_profile)
                                "3f2504e0-4f89-41d3-9a0c-0305e82c3301"
                                solo_entry quiz quiz_page row
                                ready Hnew Hold)))).
Defined.

(** ** The countdown and the counters *)

Local Open Scope Z_scope.

(** X23.  While the shifted clock is before the target, the countdown's
    hours are below 24, its minutes and seconds below 60, nothing is
    negative, and days, hours, minutes and seconds add up to the time
    left, short of it by less than a second; at or after the target all
    four are 0. *)
Theorem countdown_parts_add_up :
  forall now utcOffsetMinutes : Z,
    let left := Countdown.targetDate
                - (now + (330 + utcOffsetMinutes) * 60 * 1000) in
    let t := Countdown.updateCountdown now utcOffsetMinutes in
    (left <= 0 -> t = Countdown.mk 0 0 0 0)
    /\ (0 < left ->
        0 <= Countdown.days t
        /\ 0 <= Countdown.hours t < 24
        /\ 0 <= Countdown.minutes t < 60
        /\ 0 <= Countdown.seconds t < 60
        /\ left - 1000
           < (((Countdown.days t * 24 + Countdown.hours t) * 60
               + Countdown.minutes t) * 60
              + Countdown.seconds t) * 1000
           <= left).
Proof.
  intros now utcOffsetMinutes left t. subst t.
  unfold Countdown.updateCountdown. fold left.
  change (1000 * 60 * 60 * 24) with 86400000.
  change (1000 * 60 * 60) with 3600000.
  change (1000 * 60) with 60000.
  split.
  - intros H. destruct (Z.leb_spec left 0); [reflexivity|lia].
  - intros H. destruct (Z.leb_spec left 0); [lia|].
    cbn [Countdown.days Countdown.hours Countdown.minutes
         Countdown.seconds].
    pose proof (Z.div_mod left 86400000 ltac:(lia)) as Ed.
    pose proof (Z.mod_pos_bound left 86400000 ltac:(lia)) as Bd.
    pose proof (Z.div_mod (left mod 86400000) 3600000 ltac:(lia)) as Eh.
    pose proof (Z.mod_pos_bound (left mod 86400000) 3600000 ltac:(lia))
      as Bh.
    pose proof (Z.div_mod left 3600000 ltac:(lia)) as Em.
    pose proof (Z.mod_pos_bound left 3600000 ltac:(lia)) as Bm.
    pose proof (Z.div_mod (left mod 3600000) 60000 ltac:(lia)) as Emm.
    pose proof (Z.mod_pos_bound (left mod 3600000) 60000 ltac:(lia)) as Bmm.
    pose proof (Z.div_mod left 60000 ltac:(lia)) as Es.
    pose proof (Z.mod_pos_bound left 60000 ltac:(lia)) as Bs.
    pose proof (Z.div_mod (left mod 60000) 1000 ltac:(lia)) as Ess.
    pose proof (Z.mod_pos_bound (left mod 60000) 1000 ltac:(lia)) as Bss.
    assert (Hh : left mod 86400000 mod 3600000 = left mod 3600000).
    { apply Z.mod_mod_divide. exists 24. reflexivity. }
    assert (Hm : left mod 3600000 mod 60000 = left mod 60000).
    { apply Z.mod_mod_divide. exists 60. reflexivity. }
    rewrite Hh in Eh. rewrite Hm in Emm.
    assert (0 <= left / 86400000) by (apply Z.div_pos; lia).
    assert (0 <= left mod 86400000 / 3600000) by (apply Z.div_pos; lia).
    assert (0 <= left mod 3600000 / 60000) by (apply Z.div_pos; lia).
    assert (0 <= left mod 60000 / 1000) by (apply Z.div_pos; lia).
    assert (left mod 86400000 / 3600000 < 24)
      by (apply Z.div_lt_upper_bound; lia).
    assert (left mod 3600000 / 60000 < 60)
      by (apply Z.div_lt_upper_bound; lia).
    assert (left mod 60000 / 1000 < 60)
      by (apply Z.div_lt_upper_bound; lia).
    repeat split; try lia.
Qed.

Lemma countdown_witness :
  0 < Countdown.targetDate - (1746000000000 + (330 + -330) * 60 * 1000)
  /\ Countdown.updateCountdown 1746000000000 (-330)
     = Countdown.mk 8 10 30 0
  /\ 0 <= Countdown.hours (Countdown.updateCountdown 1746000000000 (-330))
     < 24.
Proof.
  split; [reflexivity|]. split; [reflexivity|].
  exact (proj1 (proj2 (proj2 (countdown_parts_add_up 1746000000000 (-330))
                         eq_refl))).
Defined.

(** X24.  The countdown stands at zero exactly when less than a second
    is left on a clock moved forward by 330 minutes plus the browser's
    timezone offset: only where that offset is -330 (India) does it run
    out at the target instant; a browser on UTC shows zero five and a
    half hours before it. *)
Theorem countdown_zero_depends_on_timezone :
  forall now utcOffsetMinutes : Z,
    (Countdown.updateCountdown now utcOffsetMinutes = Countdown.mk 0 0 0 0
     <-> Countdown.targetDate - now
         < 1000 + (330 + utcOffsetMinutes) * 60000)
    /\ Countdown.updateCountdown
         (Countdown.targetDate - 330 * 60000) 0
       = Countdown.mk 0 0 0 0
    /\ Countdown.updateCountdown
         (Countdown.targetDate - 330 * 60000) (-330)
       = Countdown.mk 0 5 30 0.
Proof.
  intros now utcOffsetMinutes. split; [|split; reflexivity].
  unfold Countdown.updateCountdown.
  set (left := Countdown.targetDate
               - (now + (330 + utcOffsetMinutes) * 60 * 1000)).
  assert (E : Countdown.targetDate - now
              < 1000 + (330 + utcOffsetMinutes) * 60000
              <-> left < 1000) by (subst left; lia).
  rewrite E. clearbody left. clear E.
  change (1000 * 60 * 60 * 24) with 86400000.
  change (1000 * 60 * 60) with 3600000.
  change (1000 * 60) with 60000.
  destruct (Z.leb_spec left 0) as [Hle|Hgt]; [split; [lia|reflexivity]|].
  split.
  - intros [= Hd Hh Hm Hs].
    pose proof (Z.div_mod left 60000 ltac:(lia)) as Es.
    pose proof (Z.div_mod (left mod 60000) 1000 ltac:(lia)) as Ess.
    pose proof (Z.mod_pos_bound (left mod 60000) 1000 ltac:(lia)) as Bss.
    pose proof (Z.div_mod left 3600000 ltac:(lia)) as Em.
    pose proof (Z.div_mod (left mod 3600000) 60000 ltac:(lia)) as Emm.
    pose proof (Z.div_mod left 86400000 ltac:(lia)) as Ed.
    pose proof (Z.div_mod (left mod 86400000) 3600000 ltac:(lia)) as Eh.
    assert (Hh' : left mod 86400000 mod 3600000 = left mod 3600000).
    { apply Z.mod_mod_divide. exists 24. reflexivity. }
    assert (Hm' : left mod 3600000 mod 60000 = left mod 60000).
    { apply Z.mod_mod_divide. exists 60. reflexivity. }
    rewrite Hh' in Eh. rewrite Hm' in Emm. lia.
  - intros Hlt.
    rewrite (Z.div_small left 86400000) by lia.
    rewrite (Z.mod_small left 86400000) by lia.
    rewrite (Z.mod_small left 3600000) by lia.
    rewrite (Z.mod_small left 60000) by lia.
    rewrite (Z.div_small left 3600000) by lia.
    rewrite (Z.div_small left 60000) by lia.
    rewrite (Z.div_small left 1000) by lia.
    reflexivity.
Qed.

Local Close Scope Z_scope.

(** X25.  When the count request fails, [fetchStats] of the live counter
    keeps the number it showed before (none on the first load), shows no
    toast, and still takes the spinner down. *)
Theorem live_counter_keeps_count_on_failure :
  forall (w : World LiveCounter.State) (message : string),
    faults w (sent w) = Some message ->
    let w' := exec LiveCounter.fetchStats w in
    LiveCounter.registrationCount (ui w')
    = LiveCounter.registrationCount (ui w)
    /\ LiveCounter.loading (ui w') = false
    /\ toasts w' = toasts w
    /\ backend w' = backend w.
Proof.
  intros w message Hf w'. subst w'. unfold LiveCounter.fetchStats. run.
  rewrite Hf. cbn. auto.
Qed.

Lemma live_counter_failure_witness :
  faults (mkWorld three_entries (LiveCounter.mkState None true) [] outage 0)
         0 = Some ""
  /\ LiveCounter.registrationCount
       (ui (exec LiveCounter.fetchStats
                 (mkWorld three_entries (LiveCounter.mkState None true)
                          [] outage 0)))
     = None.
Proof.
  split; [reflexivity|].
  exact (proj1 (live_counter_keeps_count_on_failure
                  (mkWorld three_entries (LiveCounter.mkState None true)
                           [] outage 0) "" eq_refl)).
Defined.

Lemma filter_length_le {A} (f : A -> bool) (l : list A) :
  (List.length (filter f l) <= List.length l)%nat.
Proof.
  induction l as [|x l IH]; cbn; [lia|]. destruct (f x); cbn; lia.
Qed.

(** X26.  The overview's four numbers change together or not at all.
    With the four count requests answered they are the sizes of the
    events, departments and registrations tables and the number of
    "Verified" registrations, the last never above the third; if any of
    the four requests fails, all four numbers stay as they were. *)
Theorem overview_stats_all_or_nothing :
  forall w : World AdminOverview.State,
    let w' := exec AdminOverview.fetchStats w in
    (answered w 4 ->
     AdminOverview.stats (ui w')
     = AdminOverview.mkStats
         (Z.of_nat (List.length (Backend.events (backend w))))
         (Z.of_nat (List.length (Backend.departments (backend w))))
         (Z.of_nat (List.length (Backend.registrations (backend w))))
         (Db.count_payment_status "Verified" (backend w))
     /\ (AdminOverview.verifiedRegistrationCount (AdminOverview.stats (ui w'))
         <= AdminOverview.registrationCount (AdminOverview.stats (ui w')))%Z)
    /\ ((exists k, (k < 4)%nat /\ faults w (sent w + k) <> None) ->
        AdminOverview.stats (ui w') = AdminOverview.stats (ui w))
    /\ AdminOverview.isLoading (ui w') = false
    /\ backend w' = backend w.
Proof.
  intros w w'. subst w'.
  assert (at0 : (sent w + 0 = sent w)%nat) by lia.
  assert (at1 : (sent w + 1 = S (sent w))%nat) by lia.
  assert (at2 : (sent w + 2 = S (S (sent w)))%nat) by lia.
  assert (at3 : (sent w + 3 = S (S (S (sent w))))%nat) by lia.
  unfold AdminOverview.fetchStats. run.
  destruct (faults w (sent w)) eqn:H0; proj.
  { split; [intros Hans; exfalso|split; [intros _|split]; reflexivity].
    specialize (Hans 0%nat ltac:(lia)). rewrite at0 in Hans. congruence. }
  destruct (faults w (S (sent w))) eqn:H1; proj.
  { split; [intros Hans; exfalso|split; [intros _|split]; reflexivity].
    specialize (Hans 1%nat ltac:(lia)). rewrite at1 in Hans. congruence. }
  destruct (faults w (S (S (sent w)))) eqn:H2; proj.
  { split; [intros Hans; exfalso|split; [intros _|split]; reflexivity].
    specialize (Hans 2%nat ltac:(lia)). rewrite at2 in Hans. congruence. }
  destruct (faults w (S (S (S (sent w))))) eqn:H3; proj.
  { split; [intros Hans; exfalso|split; [intros _|split]; reflexivity].
    specialize (Hans 3%nat ltac:(lia)). rewrite at3 in Hans. congruence. }
  split; [|split; [|split; reflexivity]].
  - intros _. cbn. split; [reflexivity|].
    unfold Db.count_payment_status. apply inj_le, filter_length_le.
  - intros (k & Hk & Hfail). exfalso. apply Hfail.
    destruct k as [|[|[|[|k]]]]; try lia.
    + now rewrite at0.
    + now rewrite at1.
    + now rewrite at2.
    + now rewrite at3.
Qed.

Lemma overview_stats_witness :
  answered (overview_desk campus no_faults) 4
  /\ AdminOverview.stats
       (ui (exec AdminOverview.fetchStats (overview_desk campus no_faults)))
     = AdminOverview.mkStats 2 1 3 0
  /\ (exists k, (k < 4)%nat
                /\ faults (overview_desk campus fourth_fails)
                          (sent (overview_desk campus fourth_fails) + k)
                   <> None)
  /\ AdminOverview.stats
       (ui (exec AdminOverview.fetchStats
                 (overview_desk campus fourth_fails)))
     = AdminOverview.mkStats 0 0 0 0.
Proof.
  assert (ok : answered (overview_desk campus no_faults) 4)
    by (intros k _; reflexivity).
  assert (bad : exists k, (k < 4)%nat
                          /\ faults (overview_desk campus fourth_fails)
                                    (sent (overview_desk campus fourth_fails)
                                     + k)
                             <> None).
  { exists 3%nat. split; [lia|discriminate]. }
  split; [exact ok|]. split.
  - exact (proj1 (proj1 (overview_stats_all_or_nothing
                           (overview_desk campus no_faults)) ok)).
  - split; [exact bad|].
    exact (proj1 (proj2 (overview_stats_all_or_nothing
                           (overview_desk campus fourth_fails))) bad).
Defined.

(** ** The user's registrations page *)

Lemma request_single_run {A} (q : Backend.t -> list A)
  (w : World UserRegistrationsPage.State) :
  UserRegistrationsPage.request_single q w
  = (match faults w (sent w) with
     | Some _ => None
     | None => AuthContext.single (q (backend w))
     end,
     mkWorld (backend w) (ui w) (toasts w) (faults w) (S (sent w))).
Proof.
  unfold UserRegistrationsPage.request_single. run.
  destruct (faults w (sent w)); reflexivity.
Qed.

Lemma single_one {A} (rows : list A) (row : A) :
  AuthContext.single rows = Some row -> rows = [row].
Proof.
  destruct rows as [|x [|y rows]]; cbn; try discriminate.
  now intros [= ->].
Qed.

Lemma only_reads_step {St} (w : World St) :
  only_reads w (mkWorld (backend w) (ui w) (toasts w) (faults w)
                        (S (sent w))).
Proof. unfold only_reads. cbn. repeat split; lia. Qed.

Lemma only_reads_trans {St} (w1 w2 w3 : World St) :
  only_reads w1 w2 -> only_reads w2 w3 -> only_reads w1 w3.
Proof.
  unfold only_reads. intros (? & ? & ? & ? & ?) (? & ? & ? & ? & ?).
  repeat split; try congruence. lia.
Qed.

Lemma always_answered_later {St} (w w' : World St) :
  always_answered w -> only_reads w w' -> always_answered w'.
Proof.
  intros Hw (_ & _ & _ & Hf & Hs) n Hn. rewrite Hf. apply Hw. lia.
Qed.

(** The loop only reads; what it appends comes from the registrations it
    is given, each with the event row of its event_id; with every request
    answered it appends an entry for each registration whose event_id
    names exactly one event row. *)
Lemma withDetails_run (regs : list Registration.t) :
  forall (acc res : list RegistrationWithDetails.t)
         (w w' : World UserRegistrationsPage.State),
    UserRegistrationsPage.withDetails regs acc w = (res, w') ->
    only_reads w w'
    /\ (forall r, In r res ->
                  In r acc
                  \/ (In (RegistrationWithDetails.reg r) regs
                      /\ In (RegistrationWithDetails.event r)
                            (Backend.events (backend w))
                      /\ Event.id (RegistrationWithDetails.event r)
                         = RegistrationWithDetails.event_id r))
    /\ (forall r, In r acc -> In r res)
    /\ (always_answered w ->
        forall reg e,
          In reg regs ->
          filter (fun x => String.eqb (Event.id x)
                                      (Registration.event_id reg))
                 (Backend.events (backend w)) = [e] ->
          exists d, In (RegistrationWithDetails.mk reg e d) res).
Proof.
  induction regs as [|reg rest IH]; intros acc res w w';
    cbn [UserRegistrationsPage.withDetails].
  - unfold ret. intros [= <- <-].
    split; [unfold only_reads; repeat split; lia|].
    split; [auto|]. split; [auto|]. intros _ reg e [].
  - unfold bind at 1. rewrite request_single_run.
    set (w1 := mkWorld (backend w) (ui w) (toasts w) (faults w)
                       (S (sent w))).
    assert (R1 : only_reads w w1) by apply only_reads_step.
    assert (skip : forall a,
               (forall reg' e,
                   reg' = reg ->
                   always_answered w ->
                   filter (fun x => String.eqb (Event.id x)
                                               (Registration.event_id reg'))
                          (Backend.events (backend w)) = [e] ->
                   exists d, In (RegistrationWithDetails.mk reg' e d) a) ->
               (forall r, In r a ->
                          In r acc
                          \/ (RegistrationWithDetails.reg r = reg
                              /\ In (RegistrationWithDetails.event r)
                                    (Backend.events (backend w))
                              /\ Event.id (RegistrationWithDetails.event r)
                                 = RegistrationWithDetails.event_id r)) ->
               (forall r, In r acc -> In r a) ->
               forall w2, only_reads w w2 ->
               UserRegistrationsPage.withDetails rest a w2 = (res, w') ->
               only_reads w w'
               /\ (forall r, In r res ->
                             In r acc
                             \/ (In (RegistrationWithDetails.reg r)
                                    (reg :: rest)
                                 /\ In (RegistrationWithDetails.event r)
                                       (Backend.events (backend w))
                                 /\ Event.id (RegistrationWithDetails.event r)
                                    = RegistrationWithDetails.event_id r))
               /\ (forall r, In r acc -> In r res)
               /\ (always_answered w ->
                   forall reg' e,
                     In reg' (reg :: rest) ->
                     filter (fun x => String.eqb
                                        (Event.id x)
                                        (Registration.event_id reg'))
                            (Backend.events (backend w)) = [e] ->
                     exists d, In (RegistrationWithDetails.mk reg' e d) res)).
    { intros a Hthis Hfrom_a Hacc_a w2 R2 E.
      destruct (IH a res w2 w' E) as (Hr & Hfrom & Hacc & Hall).
      pose proof R2 as (Hb2 & _).
      split; [eapply only_reads_trans; eauto|].
      split; [|split].
      - intros r Hin. destruct (Hfrom r Hin) as [H | (H1 & H2 & H3)].
        + destruct (Hfrom_a r H) as [H' | (H1 & H2 & H3)]; [now left|].
          right. split; [left; now symmetry|]. split; assumption.
        + right. split; [now right|]. rewrite <- Hb2. split; assumption.
      - intros r Hin. apply Hacc, Hacc_a, Hin.
      - intros Hw reg' e [<- | Hin] Hone.
        + destruct (Hthis reg e eq_refl Hw Hone) as (d & Hd).
          exists d. now apply Hacc.
        + apply (Hall (always_answered_later w w2 Hw R2) reg' e Hin).
          now rewrite Hb2. }
    destruct (faults w (sent w)) as [message|] eqn:Hf.
    + (* the event request fails: the registration is skipped *)
      apply skip; auto.
      intros reg' e _ Hw _. exfalso.
      specialize (Hw (sent w) (le_n _)). congruence.
    + destruct (AuthContext.single _) as [eventData|] eqn:Hsingle.
      * apply single_one in Hsingle.
        assert (Hev : In eventData (Backend.events (backend w))
                      /\ Event.id eventData = Registration.event_id reg).
        { assert (Hin : In eventData
                           (filter (fun e => String.eqb
                                               (Event.id e)
                                               (Registration.event_id reg))
                                   (Backend.events (backend w))))
            by (rewrite Hsingle; now left).
          apply filter_In in Hin. now rewrite String.eqb_eq in Hin. }
        assert (added : forall d w2,
                   only_reads w w2 ->
                   UserRegistrationsPage.withDetails rest
                     (acc ++ [RegistrationWithDetails.mk reg eventData d])
                     w2 = (res, w') ->
                   only_reads w w'
                   /\ (forall r, In r res ->
                          In r acc
                          \/ (In (RegistrationWithDetails.reg r)
                                 (reg :: rest)
                              /\ In (RegistrationWithDetails.event r)
                                    (Backend.events (backend w))
                              /\ Event.id (RegistrationWithDetails.event r)
                                 = RegistrationWithDetails.event_id r))
                   /\ (forall r, In r acc -> In r res)
                   /\ (always_answered w ->
                       forall reg' e,
                         In reg' (reg :: rest) ->
                         filter (fun x => String.eqb
                                            (Event.id x)
                                            (Registration.event_id reg'))
                                (Backend.events (backend w)) = [e] ->
                         exists d',
                           In (RegistrationWithDetails.mk reg' e d') res)).
        { intros d w2 R2. apply skip; [| |intros r Hin|exact R2].
          - intros reg' e -> _ Hone. rewrite Hsingle in Hone.
            injection Hone as <-. exists d.
            apply in_app_iff. right. now left.
          - intros r Hin. apply in_app_iff in Hin.
            destruct Hin as [Hin | [<- | []]]; [now left|right].
            unfold RegistrationWithDetails.event_id. cbn. tauto.
          - apply in_app_iff. now left. }
        unfold bind at 1.
        destruct (truthy (Event.department_id eventData)).
        -- rewrite request_single_run. apply added.
           eapply only_reads_trans; [exact R1|apply only_reads_step].
        -- unfold ret at 1. apply added. exact R1.
      * (* no event row, or several: skipped *)
        apply skip; auto.
        intros reg' e -> _ Hone. rewrite Hone in Hsingle. discriminate.
Qed.

(** With its first request answered, [fetchRegistrations] is the loop run
    on the user's rows, newest first. *)
Lemma fetchRegistrations_answered (user : User.t)
  (w : World UserRegistrationsPage.State) :
  faults w (sent w) = None ->
  exec (UserRegistrationsPage.fetchRegistrations user) w
  = (let (res, w1) :=
       UserRegistrationsPage.withDetails
         (RegistrationsListing.newest_first
            (filter (fun x => String.eqb (Registration.user_id x)
                                         (User.id user))
                    (Backend.registrations (backend w))))
         []
         (mkWorld (backend w)
                  (UserRegistrationsPage.setIsLoading true (ui w))
                  (toasts w) (faults w) (S (sent w))) in
     mkWorld (backend w1)
             (UserRegistrationsPage.setIsLoading false
                (UserRegistrationsPage.setRegistrations res (ui w1)))
             (toasts w1) (faults w1) (sent w1)).
Proof.
  intros Hf. unfold UserRegistrationsPage.fetchRegistrations. run.
  rewrite Hf. proj.
  destruct (RegistrationsListing.newest_first _) as [|reg rest].
  - reflexivity.
  - destruct (UserRegistrationsPage.withDetails _ _ _) as [res w1].
    reflexivity.
Qed.

(** X27.  The "my registrations" page only reads, and always ends with
    its spinner off.  When its first request is answered, every entry it
    shows is a row of the registrations table whose user_id is the
    signed-in user's id, joined with an event row whose id is the entry's
    event_id.  When its first request fails, the entries on screen stay
    as they were. *)
Theorem user_page_shows_own_registrations :
  forall (user : User.t) (w : World UserRegistrationsPage.State),
    let w' := exec (UserRegistrationsPage.fetchRegistrations user) w in
    (backend w' = backend w
     /\ toasts w' = toasts w
     /\ UserRegistrationsPage.isLoading (ui w') = false
     /\ UserRegistrationsPage.location (ui w')
        = UserRegistrationsPage.location (ui w))
    /\ (faults w (sent w) = None ->
        forall r,
          In r (UserRegistrationsPage.registrations (ui w')) ->
          In (RegistrationWithDetails.reg r)
             (Backend.registrations (backend w))
          /\ Registration.user_id (RegistrationWithDetails.reg r)
             = User.id user
          /\ In (RegistrationWithDetails.event r)
                (Backend.events (backend w))
          /\ Event.id (RegistrationWithDetails.event r)
             = RegistrationWithDetails.event_id r)
    /\ (forall message,
           faults w (sent w) = Some message ->
           UserRegistrationsPage.registrations (ui w')
           = UserRegistrationsPage.registrations (ui w)).
Proof.
  intros user w w'. subst w'.
  destruct (faults w (sent w)) as [message|] eqn:Hf.
  - assert (E : exec (UserRegistrationsPage.fetchRegistrations user) w
                = mkWorld (backend w)
                          (UserRegistrationsPage.setIsLoading false
                             (UserRegistrationsPage.setIsLoading true (ui w)))
                          (toasts w) (faults w) (S (sent w))).
    { unfold UserRegistrationsPage.fetchRegistrations. run.
      rewrite Hf. reflexivity. }
    rewrite E. cbn. split; [auto|]. split; [discriminate|]. auto.
  - rewrite (fetchRegistrations_answered user w Hf).
    destruct (UserRegistrationsPage.withDetails _ _ _) as [res w1] eqn:E.
    apply withDetails_run in E.
    destruct E as ((Hb & Hu & Ht & _ & _) & Hfrom & _ & _).
    cbn [backend ui toasts] in *.
    split; [|split; [|discriminate]].
    + rewrite Hb, Ht, Hu. cbn. auto.
    + intros _ r Hin. cbn in Hin.
      destruct (Hfrom r Hin) as [[] | (Hreg & Hev & Hid)].
      unfold RegistrationsListing.newest_first in Hreg.
      rewrite in_sort_by in Hreg. apply filter_In in Hreg.
      destruct Hreg as (Hreg & Huser). apply String.eqb_eq in Huser.
      auto.
Qed.

Lemma user_page_witness :
  faults (my_page campus) (sent (my_page campus)) = None
  /\ forall r,
      In r (UserRegistrationsPage.registrations
              (ui (exec (UserRegistrationsPage.fetchRegistrations asha_user)
                        (my_page campus)))) ->
      In (RegistrationWithDetails.reg r)
         (Backend.registrations (backend (my_page campus)))
      /\ Registration.user_id (RegistrationWithDetails.reg r)
         = User.id asha_user
      /\ In (RegistrationWithDetails.event r)
            (Backend.events (backend (my_page campus)))
      /\ Event.id (RegistrationWithDetails.event r)
         = RegistrationWithDetails.event_id r.
Proof.
  split; [reflexivity|].
  exact (proj1 (proj2 (user_page_shows_own_registrations
                         asha_user (my_page campus)))
               eq_refl).
Defined.

(** X28.  A registration submitted through the form shows up on the
    user's page.  After a submission the backend accepted, a page that
    loads from the resulting tables with every request answered, and for
    which exactly one event row carries the id of the event registered
    for, shows the stored row joined with that event row. *)
Theorem submitted_registration_is_shown :
  forall (u : User.t) (p : Profile.t) (uuidv4 : string)
         (data : RegistrationFormValues.t) (e e' : Event.t)
         (w : World RegistrationPage.State)
         (page : World UserRegistrationsPage.State),
    RegistrationPage.event (ui w) = Some e ->
    faults w (sent w) = None ->
    filter (fun x => String.eqb (Event.id x) (Event.id e))
           (Backend.events (backend w)) = [e'] ->
    backend page
    = backend (exec (RegistrationPage.onSubmit (Some u) (Some p) uuidv4 data)
                    w) ->
    always_answered page ->
    exists d,
      In (RegistrationWithDetails.mk
            (stored_row u uuidv4 data e (next_generated (backend w))) e' d)
         (UserRegistrationsPage.registrations
            (ui (exec (UserRegistrationsPage.fetchRegistrations u) page))).
Proof.
  intros u p uuidv4 data e e' w page He Hf Hone Hb Hall.
  rewrite (onSubmit_ok u p uuidv4 data e w He Hf) in Hb.
  unfold submitted in Hb. cbn [backend] in Hb.
  rewrite (fetchRegistrations_answered u page (Hall _ (le_n _))).
  destruct (UserRegistrationsPage.withDetails _ _ _) as [res w1] eqn:E.
  apply withDetails_run in E.
  destruct E as (_ & _ & _ & Hshown).
  cbn [ui UserRegistrationsPage.setIsLoading
       UserRegistrationsPage.setRegistrations
       UserRegistrationsPage.registrations].
  apply Hshown.
  - intros n Hn. cbn [sent faults] in *. apply Hall. lia.
  - unfold RegistrationsListing.newest_first. rewrite in_sort_by.
    apply filter_In. cbn [backend]. rewrite Hb. cbn [Backend.registrations].
    split.
    + apply in_app_iff. right. now left.
    + apply String.eqb_refl.
  - cbn [backend]. rewrite Hb. cbn [Backend.events]. exact Hone.
Qed.

Lemma submitted_registration_witness :
  exists d,
    In (RegistrationWithDetails.mk
          (stored_row asha_user "3f2504e0-4f89-41d3-9a0c-0305e82c3301"
                      solo_entry quiz
                      (next_generated (backend quiz_page)))
          quiz d)
       (UserRegistrationsPage.registrations
          (ui (exec (UserRegistrationsPage.fetchRegistrations asha_user)
                    (my_page
                       (backend
                          (exec (RegistrationPage.onSubmit
                                   (Some asha_user) (Some asha_profile)
                                   "3f2504e0-4f89-41d3-9a0c-0305e82c3301"
                                   solo_entry)
                                quiz_page)))))).
Proof.
  apply (submitted_registration_is_shown
           asha_user asha_profile "3f2504e0-4f89-41d3-9a0c-0305e82c3301"
           solo_entry quiz quiz quiz_page).
  - reflexivity.
  - reflexivity.
  - reflexivity.
  - reflexivity.
  - intros n _. reflexivity.
Defined.

(** ** Placeholder images *)

Lemma Forall2_compose {A} (R S T : A -> A -> Prop) (l1 l2 l3 : list A) :
  (forall a b c, R a b -> S b c -> T a c) ->
  Forall2 R l1 l2 -> Forall2 S l2 l3 -> Forall2 T l1 l3.
Proof.
  intros HT H12. revert l3.
  induction H12 as [|a b l1 l2 Hab _ IH]; intros l3 H23;
    inversion H23; subst; constructor; eauto.
Qed.

Lemma Forall2_same {A} (R : A -> A -> Prop) (l : list A) :
  (forall a, R a a) -> Forall2 R l l.
Proof. intros HR. induction l; constructor; auto. Qed.

Lemma Forall2_map_r {A} (R : A -> A -> Prop) (f : A -> A) (l : list A) :
  (forall a, R a (f a)) -> Forall2 R l (map f l).
Proof. intros HR. induction l; cbn; constructor; auto. Qed.

Lemma Forall2_from {A} (R : A -> A -> Prop) (l l' : list A) (y : A) :
  Forall2 R l l' -> In y l' -> exists x, In x l /\ R x y.
Proof.
  induction 1 as [|a b l l' Hab _ IH]; cbn; [tauto|].
  intros [<- | Hin]; [eauto|].
  destruct (IH Hin) as (x & Hx & Hxy). eauto.
Qed.

Lemma randomImage_placeholder (draw : nat) :
  In (PlaceholderImages.randomImage draw)
     PlaceholderImages.placeholderImages.
Proof.
  unfold PlaceholderImages.randomImage. apply nth_In.
  apply Nat.mod_upper_bound. discriminate.
Qed.

Lemma touched_step (eid : string) (draw : nat) (e : Event.t) :
  touched [eid]
          e
          (if String.eqb (Event.id e) eid
           then PlaceholderImages.with_image_url
                  (PlaceholderImages.imageUrl draw) e
           else e).
Proof.
  destruct (String.eqb (Event.id e) eid) eqn:E; [|now left].
  apply String.eqb_eq in E. right. split; [now left|].
  exists (PlaceholderImages.randomImage draw).
  split; [apply randomImage_placeholder|reflexivity].
Qed.

Lemma touched_then (eid : string) (rest : list string) (a b c : Event.t) :
  touched [eid] a b -> touched rest b c -> touched (eid :: rest) a c.
Proof.
  intros [Hb | (Hid & img & Himg & Hb)]
         [Hc | (Hin & img' & Himg' & Hc)]; subst b c.
  - now left.
  - right. split; [now right|]. eauto.
  - right. split; [apply in_or_app with (l := [eid]); now left|]. eauto.
  - right. split; [apply in_or_app with (l := [eid]); now left|].
    exists img'. split; [exact Himg'|]. reflexivity.
Qed.

Lemma assign_cons (random : nat -> nat) (k : nat) (eid : string)
  (rest : list string) (w : World EventsManagement.State) :
  exec (PlaceholderImages.assign random k (eid :: rest)) w
  = exec (PlaceholderImages.assign random (S k) rest)
         (mkWorld
            (match faults w (sent w) with
             | Some _ => backend w
             | None =>
                 PlaceholderImages.update_image_url
                   eid (PlaceholderImages.imageUrl (random k)) (backend w)
             end)
            (ui w) (toasts w) (faults w) (S (sent w))).
Proof.
  cbn [PlaceholderImages.assign]. unfold exec, bind, mutate, request.
  destruct (faults w (sent w)); reflexivity.
Qed.

(** The loop sends one update per id and looks at no answer. *)
Lemma assign_run (random : nat -> nat) (ids : list string) :
  forall (k : nat) (w : World EventsManagement.State),
    let w' := exec (PlaceholderImages.assign random k ids) w in
    Backend.registrations (backend w') = Backend.registrations (backend w)
    /\ Backend.admins (backend w') = Backend.admins (backend w)
    /\ Backend.departments (backend w') = Backend.departments (backend w)
    /\ Forall2 (touched ids) (Backend.events (backend w))
               (Backend.events (backend w'))
    /\ (answered w (List.length ids) ->
        forall e', In e' (Backend.events (backend w')) ->
                   In (Event.id e') ids ->
                   Event.image_url e' <> Null).
Proof.
  induction ids as [|eid rest IH]; intros k w.
  - cbn. repeat split; auto.
    apply Forall2_same. intros a. now left.
  - cbv zeta. rewrite assign_cons.
    destruct (faults w (sent w)) as [message|] eqn:Hf.
    + set (w1 := mkWorld _ _ _ _ _).
      specialize (IH (S k) w1). cbv zeta in IH.
      destruct IH as (Hr & Ha & Hd & Hev & _).
      split; [exact Hr|]. split; [exact Ha|]. split; [exact Hd|].
      split.
      * eapply Forall2_impl; [|exact Hev].
        intros a b [-> | (Hin & Hrest)]; [now left|].
        right. split; [now right|exact Hrest].
      * intros Hw. specialize (Hw 0 (Nat.lt_0_succ _)).
        rewrite Nat.add_0_r in Hw. congruence.
    + set (w1 := mkWorld _ _ _ _ _).
      specialize (IH (S k) w1). cbv zeta in IH.
      destruct IH as (Hr & Ha & Hd & Hev & Hset).
      split; [exact Hr|]. split; [exact Ha|]. split; [exact Hd|].
      assert (Hfirst : Forall2 (touched [eid]) (Backend.events (backend w))
                               (Backend.events (backend w1))).
      { subst w1. cbn. apply Forall2_map_r. intros a.
        apply touched_step. }
      split.
      * eapply Forall2_compose; [|exact Hfirst|exact Hev].
        intros a b c. apply touched_then.
      * intros Hw e' Hin [Hid | Hrest].
        -- destruct (Forall2_from _ _ _ _ Hev Hin) as (e1 & Hin1 & Ht).
           destruct Ht as [-> | (_ & img & _ & ->)]; [|discriminate].
           subst w1. cbn in Hin1. apply in_map_iff in Hin1.
           destruct Hin1 as (e0 & <- & _).
           destruct (String.eqb (Event.id e0) eid) eqn:E;
             [discriminate|].
           rewrite Hid, String.eqb_refl in E. discriminate.
        -- apply Hset; [|exact Hin|exact Hrest].
           intros n Hn. subst w1. cbn [faults sent].
           replace (S (sent w) + n) with (sent w + S n) by lia.
           apply Hw. cbn [List.length]. lia.
Qed.

(** X29.  Opening the events page gives every event without an image a
    placeholder, whoever the admin is.  [assignRandomPlaceholderImages]
    never looks at the admin's role or scope before it writes: it leaves
    registrations, admins and departments alone, keeps the event rows in
    place, and changes at most the image_url of rows whose id is the id
    of a row without an image, to one of the eight placeholders.  With
    its requests answered, no event row is left without an image. *)
Theorem placeholder_images_ignore_scope :
  forall (adminDetails : option Admin.t) (random : nat -> nat)
         (w : World EventsManagement.State),
    let ids := PlaceholderImages.eventsWithoutImages (backend w) in
    let w' :=
      exec (PlaceholderImages.assignRandomPlaceholderImages
              adminDetails random) w in
    (Backend.registrations (backend w') = Backend.registrations (backend w)
     /\ Backend.admins (backend w') = Backend.admins (backend w)
     /\ Backend.departments (backend w') = Backend.departments (backend w)
     /\ Forall2 (touched ids) (Backend.events (backend w))
                (Backend.events (backend w')))
    /\ (answered w (1 + List.length ids) ->
        forall e', In e' (Backend.events (backend w')) ->
                   Event.image_url e' <> Null).
Proof.
  intros adminDetails random w ids w'.
  destruct (faults w (sent w)) as [message|] eqn:Hf.
  - assert (E : backend w' = backend w).
    { subst w'. unfold PlaceholderImages.assignRandomPlaceholderImages.
      run. rewrite Hf. reflexivity. }
    rewrite E. split.
    + repeat split; auto. apply Forall2_same. intros a. now left.
    + intros Hw. specialize (Hw 0 (Nat.lt_0_succ _)).
      rewrite Nat.add_0_r in Hw. congruence.
  - set (w1 := mkWorld (backend w) (ui w) (toasts w) (faults w)
                       (S (sent w))).
    assert (E : backend w'
                = backend (exec (PlaceholderImages.assign random 0 ids)
                                w1)).
    { subst w'. unfold PlaceholderImages.assignRandomPlaceholderImages.
      unfold exec at 1. unfold bind at 1. unfold query, request.
      rewrite Hf. cbn [error data]. fold ids. fold w1.
      destruct ids as [|eid rest]; [reflexivity|].
      unfold bind.
      destruct (PlaceholderImages.assign random 0 (eid :: rest) w1)
        as [[] w2] eqn:E2.
      pose proof (fetchData_backend adminDetails w2) as Hb.
      unfold exec in Hb |- *. rewrite E2. exact Hb. }
    rewrite E.
    destruct (assign_run random ids 0 w1) as (Hr & Ha & Hd & Hev & Hset).
    split; [auto|].
    intros Hw e' Hin Hnull.
    destruct (Forall2_from _ _ _ _ Hev Hin) as (e & Hine & Ht).
    destruct Ht as [-> | (_ & img & _ & ->)]; [|discriminate].
    apply (Hset (fun n Hn =>
                   eq_trans (f_equal (faults w) (Nat.add_succ_comm _ _))
                            (Hw (S n) (proj1 (Nat.succ_lt_mono _ _) Hn)))
                e Hin); [|exact Hnull].
    subst ids. unfold PlaceholderImages.eventsWithoutImages.
    apply in_map. apply filter_In. split; [exact Hine|].
    now rewrite Hnull.
Qed.

Lemma placeholder_images_witness :
  answered (events_desk None)
           (1 + List.length
                  (PlaceholderImages.eventsWithoutImages
                     (backend (events_desk None))))
  /\ forall e',
      In e' (Backend.events
               (backend
                  (exec (PlaceholderImages.assignRandomPlaceholderImages
                           (Some quiz_admin) (fun k => 3 + 6 * k))
                        (events_desk None)))) ->
      Event.image_url e' <> Null.
Proof.
  assert (H : answered (events_desk None)
                (1 + List.length
                       (PlaceholderImages.eventsWithoutImages
                          (backend (events_desk None)))))
    by (intros k _; reflexivity).
  split; [exact H|].
  exact (proj2 (placeholder_images_ignore_scope
                  (Some quiz_admin) (fun k => 3 + 6 * k)
                  (events_desk None))
               H).
Defined.

(** ** What the registration form accepts *)

Lemma fetchEventData_ready (id : string) (e : Event.t)
  (w : World RegistrationPage.State) :
  id <> "" ->
  faults w (sent w) = None ->
  filter (fun x => String.eqb (Event.id x) id) (Backend.events (backend w))
  = [e] ->
  page_ready (ui (exec (RegistrationPage.fetchEventData (Val id)) w)) e.
Proof.
  intros Hid Hf Hone. unfold RegistrationPage.fetchEventData.
  cbn [truthy_n]. rewrite (proj2 (truthy_true id) Hid). run.
  rewrite Hf. proj. cbn [Db.col_eq]. rewrite Hone.
  destruct (truthy (Event.department_id e)); [|split; reflexivity].
  run.
  destruct (faults w (S (sent w))); run; [split; reflexivity|].
  destruct (filter _ (Backend.departments (backend w))) as [|d [|d' l]];
    split; reflexivity.
Qed.

(** X30.  The form is accepted exactly when a payment method is chosen,
    every member's name has at least 2 characters, USN 5 to 10
    characters and phone 10 to 13 characters, and there are between 1
    and team_size members.  [fetchEventData] does nothing without a
    route id; with one, an answered event request that finds exactly one
    event installs that schema for the event's team size, whatever
    becomes of the department lookup.  A submission the schema turns
    down changes nothing and sends nothing. *)
Theorem registration_form_bounds :
  (forall teamSize v,
      createRegistrationSchema teamSize v = true
      <-> (1 <= String.length (RegistrationFormValues.paymentMethod v))%nat
          /\ Forall member_in_bounds (RegistrationFormValues.teamMembers v)
          /\ (1 <= Z.of_nat
                     (List.length (RegistrationFormValues.teamMembers v))
              <= teamSize)%Z)
  /\ (forall id (w : World RegistrationPage.State),
         id = Undefined \/ id = Null \/ id = Val "" ->
         exec (RegistrationPage.fetchEventData id) w = w)
  /\ (forall id e (w : World RegistrationPage.State),
         id <> "" ->
         faults w (sent w) = None ->
         filter (fun x => String.eqb (Event.id x) id)
                (Backend.events (backend w)) = [e] ->
         page_ready (ui (exec (RegistrationPage.fetchEventData (Val id)) w))
                    e)
  /\ (forall user profile uuidv4 e data
             (w : World RegistrationPage.State),
         page_ready (ui w) e ->
         createRegistrationSchema (Event.team_size e) data = false ->
         exec (RegistrationPage.handleSubmit user profile uuidv4 data) w
         = w).
Proof.
  split; [exact createRegistrationSchema_bounds|]. split; [|split].
  - intros id w [-> | [-> | ->]]; reflexivity.
  - intros id e w. now apply fetchEventData_ready.
  - intros user profile uuidv4 e data w (_ & Hschema) Hbad.
    unfold RegistrationPage.handleSubmit. run.
    rewrite Hschema, Hbad. now destruct w.
Qed.

(** The page is opened on the quiz, whose team_size is 2, and three
    members are submitted. *)
Lemma registration_form_witness :
  let opened :=
    exec (RegistrationPage.fetchEventData (Val "E1"))
         (mkWorld (festival "Pending")
                  (RegistrationPage.initial "/register/E1") [] no_faults 0) in
  Event.team_size quiz = 2%Z
  /\ page_ready (ui opened) quiz
  /\ createRegistrationSchema (Event.team_size quiz) trio = false
  /\ exec (RegistrationPage.handleSubmit
             (Some asha_user) (Some asha_profile)
             "3f2504e0-4f89-41d3-9a0c-0305e82c3301" trio) opened
     = opened.
Proof.
  cbv zeta.
  assert (named : "E1" <> "") by discriminate.
  pose proof (proj1 (proj2 (proj2 registration_form_bounds)) "E1" quiz
                (mkWorld (festival "Pending")
                         (RegistrationPage.initial "/register/E1")
                         [] no_faults 0)
                named eq_refl eq_refl) as ready.
  split; [reflexivity|]. split; [exact ready|]. split; [reflexivity|].
  exact (proj2 (proj2 (proj2 registration_form_bounds))
           (Some asha_user) (Some asha_profile)
           "3f2504e0-4f89-41d3-9a0c-0305e82c3301" quiz trio _
           ready eq_refl).
Defined.
